(** * rsid_to_hs37d5: rsID to hs37d5 coordinate lookup

    A shallow embedding of [rsid_to_hs37d5.py].  The script is duck-typed
    Python working on decoded JSON, so the embedding keeps Python's value
    universe ([pyval]), its insertion-ordered dictionaries, its truthiness
    and its run-time errors.  The two remote services are an oracle
    ([network]) answering each HTTP request; printing, sleeping and the
    requests issued are recorded in a trace.  The functions of the script
    and its command-line block are embedded. *)

From Stdlib Require Import ZArith List Bool Ascii String QArith Lia.
From Stdlib Require Import Numbers.DecimalString.
Import ListNotations.

Local Close Scope Q_scope.
Local Open Scope list_scope.
Local Open Scope string_scope.

Set Warnings "-register-all".

(** ** Python values *)

(** Decoded JSON, as [response.json()] returns it.  JSON numbers are
    restricted to integers; a character stands for one code point below
    256. *)
Inductive pyval : Type :=
| PNone
| PBool (b : bool)
| PInt (z : Z)
| PStr (s : string)
| PList (l : list pyval)
| PDict (d : list (string * pyval)).

(** A [dict] keeps its keys in insertion order and each key once. *)
Definition dict := list (string * pyval).

(** Uncaught Python exceptions.  [RequestException] stands for the whole
    class [requests.exceptions.RequestException] and carries the text of
    the exception. *)
Inductive exn : Type :=
| RequestException (msg : string)
| ValueError (msg : string)
| TypeError
| AttributeError
| KeyError
| IndexError
| RecursionError.

(** A text standing where an exception is expected is the
    [RequestException] with that text. *)
Coercion RequestException : string >-> exn.
#[local] Arguments inr {A B} & _.

Inductive outcome (A : Type) : Type :=
| Ret (a : A)
| Raise (e : exn).
Arguments Ret {A} a.
Arguments Raise {A} e.

Definition rbind {A B} (r : outcome A) (k : A -> outcome B) : outcome B :=
  match r with
  | Ret a => k a
  | Raise e => Raise e
  end.

Module PyNotations.
Notation "x <~ r ;; k" := (rbind r (fun x => k))
  (at level 61, r at next level, right associativity).
End PyNotations.
Import PyNotations.

(** ** Strings *)

Module Str.

(** [s.startswith(p)] *)
Fixpoint startswith (s p : string) {struct p} : bool :=
  match p with
  | EmptyString => true
  | String a p' =>
      match s with
      | EmptyString => false
      | String b s' => Ascii.eqb a b && startswith s' p'
      end
  end.

(** [sep.join(l)] *)
Fixpoint join (sep : string) (l : list string) : string :=
  match l with
  | [] => ""
  | [x] => x
  | x :: rest => x ++ sep ++ join sep rest
  end.

(** [s.replace(old, new)] for a non-empty [old]: occurrences are found
    from the left and do not overlap.  [skip] counts the characters of
    the occurrence being replaced that are still to be dropped. *)
Fixpoint replace_from (old new : string) (skip : nat) (s : string) : string :=
  match s with
  | EmptyString => EmptyString
  | String c rest =>
      match skip with
      | S k => replace_from old new k rest
      | O =>
          if startswith s old
          then new ++ replace_from old new (String.length old - 1) rest
          else String c (replace_from old new O rest)
      end
  end.

Definition replace (s old new : string) : string := replace_from old new 0 s.

(** [s.split(sep)] for a one-character separator; never empty. *)
Fixpoint split (sep : ascii) (s : string) : list string :=
  match s with
  | EmptyString => [""]
  | String c rest =>
      if Ascii.eqb c sep then "" :: split sep rest
      else match split sep rest with
           | h :: t => String c h :: t
           | [] => [String c ""]
           end
  end.

(** The characters of a string, each as a string (iteration over [str]). *)
Fixpoint chars (s : string) : list string :=
  match s with
  | EmptyString => []
  | String c rest => String c "" :: chars rest
  end.

Fixpoint contains_char (c : ascii) (s : string) : bool :=
  match s with
  | EmptyString => false
  | String c' rest => Ascii.eqb c c' || contains_char c rest
  end.

(** [sub in s] *)
Fixpoint contains (sub s : string) : bool :=
  startswith s sub ||
  match s with
  | EmptyString => false
  | String _ rest => contains sub rest
  end.

(** The decimal text of an int.  The interpreter refuses to render an
    int above its digit limit (4300 digits by default); the decoder
    refuses such a literal as well, so the ints of a decoded body are
    below the limit. *)
Definition of_Z (z : Z) : string := NilZero.string_of_int (Z.to_int z).

Definition hex_digit (n : nat) : ascii :=
  match n with
  | 0 => "0" | 1 => "1" | 2 => "2" | 3 => "3" | 4 => "4" | 5 => "5"
  | 6 => "6" | 7 => "7" | 8 => "8" | 9 => "9" | 10 => "a" | 11 => "b"
  | 12 => "c" | 13 => "d" | 14 => "e" | _ => "f"
  end%char.

(** How [repr] writes one character inside the quotes [q]. *)
Definition repr_char (q c : ascii) : string :=
  let n := nat_of_ascii c in
  if Ascii.eqb c "\" then "\\"
  else if Ascii.eqb c q then String "\" (String q "")
  else if Nat.eqb n 9 then "\t"
  else if Nat.eqb n 10 then "\n"
  else if Nat.eqb n 13 then "\r"
  else if Nat.ltb n 32 || (Nat.leb 127 n && Nat.leb n 160) || Nat.eqb n 173
  then String "\" (String "x" (String (hex_digit (n / 16))
                                (String (hex_digit (n mod 16)) "")))
  else String c "".

Fixpoint repr_body (q : ascii) (s : string) : string :=
  match s with
  | EmptyString => ""
  | String c rest => repr_char q c ++ repr_body q rest
  end.

(** [repr(s)]: single quotes, unless [s] has a single quote and no
    double quote. *)
Definition repr (s : string) : string :=
  let dq := ascii_of_nat 34 in
  let q := if contains_char "'" s && negb (contains_char dq s)
           then dq else "'"%char in
  String q (repr_body q s ++ String q "").

End Str.

(** The identifier prefix rule that opens every resolver:
    [if not rsid.startswith('rs'): rsid = f"rs{rsid}"]. *)
Definition normalize_rsid (rsid : string) : string :=
  if negb (Str.startswith rsid "rs") then "rs" ++ rsid else rsid.

(** ** Dictionaries *)

Module Dict.

(** [d.get(k)], as an option: [None] when the key is absent. *)
Fixpoint get (k : string) (d : dict) : option pyval :=
  match d with
  | [] => None
  | (k', v) :: rest => if String.eqb k k' then Some v else get k rest
  end.

(** [d[k] = v]: overwrite in place, or append a new key. *)
Fixpoint set (k : string) (v : pyval) (d : dict) : dict :=
  match d with
  | [] => [(k, v)]
  | (k', v') :: rest =>
      if String.eqb k k' then (k, v) :: rest else (k', v') :: set k v rest
  end.

(** [k in d] *)
Definition mem (k : string) (d : dict) : bool :=
  match get k d with Some _ => true | None => false end.

Definition keys (d : dict) : list string := map fst d.

End Dict.

(** ** Operations on Python values *)

Module Py.

(** [repr(v)] *)
Fixpoint repr (v : pyval) : string :=
  match v with
  | PNone => "None"
  | PBool true => "True"
  | PBool false => "False"
  | PInt z => Str.of_Z z
  | PStr s => Str.repr s
  | PList l => "[" ++ Str.join ", " (map repr l) ++ "]"
  | PDict d =>
      "{" ++ Str.join ", "
               (map (fun kv => let '(k, x) := kv in
                               Str.repr k ++ ": " ++ repr x) d) ++ "}"
  end.

(** [str(v)], which is also how an f-string field is rendered. *)
Definition str (v : pyval) : string :=
  match v with
  | PStr s => s
  | _ => repr v
  end.

(** Truth value of [v] in a condition. *)
Definition truthy (v : pyval) : bool :=
  match v with
  | PNone => false
  | PBool b => b
  | PInt z => negb (Z.eqb z 0)
  | PStr s => negb (String.eqb s "")
  | PList l => match l with [] => false | _ => true end
  | PDict d => match d with [] => false | _ => true end
  end.

Definition is_str (v : pyval) : bool :=
  match v with PStr _ => true | _ => false end.

(** [key in v] for a string [key]: key membership in a dict, an element
    equal to the string in a list, a substring of a string; the other
    values are not containers. *)
Definition contains (key : string) (v : pyval) : outcome bool :=
  match v with
  | PDict d => Ret (Dict.mem key d)
  | PList l =>
      Ret (existsb (fun x => match x with
                             | PStr s => String.eqb key s
                             | _ => false
                             end) l)
  | PStr s => Ret (Str.contains key s)
  | _ => Raise TypeError
  end.

(** [v[key]] for a string [key] *)
Definition getitem (v : pyval) (key : string) : outcome pyval :=
  match v with
  | PDict d => match Dict.get key d with
               | Some x => Ret x
               | None => Raise KeyError
               end
  | _ => Raise TypeError
  end.

(** [v[0]]: no key of a decoded JSON object is the integer 0. *)
Definition getitem0 (v : pyval) : outcome pyval :=
  match v with
  | PList (x :: _) => Ret x
  | PList [] => Raise IndexError
  | PStr (String c _) => Ret (PStr (String c ""))
  | PStr EmptyString => Raise IndexError
  | PDict _ => Raise KeyError
  | _ => Raise TypeError
  end.

(** [len(v)] *)
Definition len (v : pyval) : outcome nat :=
  match v with
  | PList l => Ret (List.length l)
  | PStr s => Ret (String.length s)
  | PDict d => Ret (List.length d)
  | _ => Raise TypeError
  end.

(** [v.get(key, default)], a method of dicts only. *)
Definition get (v : pyval) (key : string) (default : pyval) : outcome pyval :=
  match v with
  | PDict d => Ret (match Dict.get key d with Some x => x | None => default end)
  | _ => Raise AttributeError
  end.

(** [v.replace(old, new)], a method of strings only. *)
Definition replace (v : pyval) (old new : string) : outcome pyval :=
  match v with
  | PStr s => Ret (PStr (Str.replace s old new))
  | _ => Raise AttributeError
  end.

(** [v.split('/')], a method of strings only. *)
Definition split (v : pyval) (sep : ascii) : outcome (list pyval) :=
  match v with
  | PStr s => Ret (map PStr (Str.split sep s))
  | _ => Raise AttributeError
  end.

Fixpoint all_str (l : list pyval) : option (list string) :=
  match l with
  | [] => Some []
  | PStr s :: rest =>
      match all_str rest with Some ss => Some (s :: ss) | None => None end
  | _ :: _ => None
  end.

(** [sep.join(v)]: [v] is iterated; every item must be a string. *)
Definition join (sep : string) (v : pyval) : outcome string :=
  match v with
  | PList l => match all_str l with
               | Some ss => Ret (Str.join sep ss)
               | None => Raise TypeError
               end
  | PStr s => Ret (Str.join sep (Str.chars s))
  | PDict d => Ret (Str.join sep (Dict.keys d))
  | _ => Raise TypeError
  end.

End Py.

(** ** The outside world *)

(** What [requests.get] is called with. *)
Record request : Type := {
  url : string;
  params : list (string * string);
  headers : list (string * string);
  timeout : Z
}.

(** What the script reads of a [requests.Response]: the status code, the
    text of the [HTTPError] that [raise_for_status] builds for it, and
    what [response.json()] does: it returns the decoded body ([inl]) or
    raises ([inr]).  For a body that is not JSON it raises the
    [JSONDecodeError] of [requests], a [RequestException]; the decoder
    also raises exceptions of other classes, which no [except] clause of
    the script catches: [ValueError] for an integer literal above the
    interpreter's digit limit, [RecursionError] for a body nested too
    deep.  The values the decoder returns are within those limits. *)
Record response : Type := {
  status_code : Z;
  http_error : string;
  json : pyval + exn
}.

Inductive reply : Type :=
| Failed (msg : string)      (* [requests.get] raises a [RequestException] *)
| Answered (r : response).

(** The services: any answer to any request, depending also on how many
    requests were sent before. *)
Definition network := request -> nat -> reply.

Inductive event : Type :=
| EGet (r : request)
| EPrint (line : string)
| ESleep (seconds : Q).

Record world : Type := {
  sent : nat;
  trace : list event
}.

Definition log (e : event) (w : world) : world :=
  {| sent := sent w; trace := (trace w ++ [e])%list |}.

(** Computations of the script: they read the network, change the world
    and return or raise. *)
Definition M (A : Type) : Type := network -> world -> outcome A * world.

Definition ret {A} (a : A) : M A := fun _ w => (Ret a, w).

Definition raise {A} (e : exn) : M A := fun _ w => (Raise e, w).

Definition bind {A B} (m : M A) (k : A -> M B) : M B :=
  fun net w =>
    match m net w with
    | (Ret a, w') => k a net w'
    | (Raise e, w') => (Raise e, w')
    end.

Definition lift {A} (r : outcome A) : M A := fun _ w => (r, w).

Module MNotations.
Notation "x <- m ;; k" := (bind m (fun x => k))
  (at level 61, m at next level, right associativity).
Notation "m ;;; k" := (bind m (fun _ => k))
  (at level 61, right associativity).
End MNotations.
Import MNotations.

(** [try: body  except requests.exceptions.RequestException as e: handler] *)
Definition try_except_RequestException {A}
    (body : M A) (handler : string -> M A) : M A :=
  fun net w =>
    match body net w with
    | (Raise (RequestException msg), w') => handler msg net w'
    | other => other
    end.

Definition print (line : string) : M unit :=
  fun _ w => (Ret tt, log (EPrint line) w).

Definition sleep (seconds : Q) : M unit :=
  fun _ w => (Ret tt, log (ESleep seconds) w).

(** One more request has been sent. *)
Definition sent_request (req : request) (w : world) : world :=
  {| sent := S (sent w); trace := (trace w ++ [EGet req])%list |}.

Definition requests_get (req : request) : M response :=
  fun net w =>
    let w' := sent_request req w in
    match net req (sent w) with
    | Failed msg => (Raise (RequestException msg), w')
    | Answered r => (Ret r, w')
    end.

(** [response.raise_for_status()] *)
Definition raise_for_status (r : response) : M unit :=
  if (400 <=? status_code r)%Z && (status_code r <? 600)%Z
  then raise (RequestException (http_error r))
  else ret tt.

(** [response.json()] *)
Definition response_json (r : response) : M pyval :=
  match json r with
  | inl data => ret data
  | inr e => raise e
  end.

(** ** The resolvers *)

(** The record both services start from (lines 36-43 and 95-102). *)
Definition new_result (rsid : string) : dict :=
  [ ("rsid", PStr rsid);
    ("chromosome", PNone);
    ("position", PNone);
    ("ref_allele", PNone);
    ("alt_alleles", PList []);
    ("build", PStr "hs37d5") ].

(** [if result['chromosome'] and result['position']: return result]
    [return None] *)
Definition return_if_located (result : dict) : outcome pyval :=
  chromosome <~ Py.getitem (PDict result) "chromosome" ;;
  if Py.truthy chromosome then
    position <~ Py.getitem (PDict result) "position" ;;
    if Py.truthy position then Ret (PDict result) else Ret PNone
  else Ret PNone.

(** The body of either branch of lines 50-57, for the object [m] that
    holds the coordinates. *)
Definition myvariant_set_coordinates (m : pyval) (result : dict) : outcome dict :=
  c <~ Py.get m "chr" (PStr "") ;;
  chrom <~ Py.replace (PStr (Py.str c)) "chr" "" ;;
  let result := Dict.set "chromosome" chrom result in
  start <~ Py.get m "start" PNone ;;
  Ret (Dict.set "position" start result).

(** Lines 50-57: [isinstance(hg19_data, dict)], else a non-empty list. *)
Definition myvariant_coordinates (hg19_data : pyval) (result : dict) : outcome dict :=
  match hg19_data with
  | PDict _ => myvariant_set_coordinates hg19_data result
  | PList (first :: _) => myvariant_set_coordinates first result
  | _ => Ret result
  end.

(** Lines 59-64: the alleles, read from [data['dbsnp']]. *)
Definition myvariant_set_alleles (dbsnp : pyval) (result : dict) : outcome dict :=
  has_ref <~ Py.contains "ref" dbsnp ;;
  result <~ (if (has_ref : bool)
             then ref <~ Py.getitem dbsnp "ref" ;;
                  Ret (Dict.set "ref_allele" ref result)
             else Ret result) ;;
  has_alt <~ Py.contains "alt" dbsnp ;;
  if (has_alt : bool)
  then alt <~ Py.getitem dbsnp "alt" ;;
       Ret (Dict.set "alt_alleles"
              (if Py.is_str alt then PList [alt] else alt) result)
  else Ret result.

(** Lines 36-64 of [get_hs37d5_loci_myvariant]: the record as it stands
    before the final check. *)
Definition myvariant_fill (rsid : string) (data : pyval) : outcome dict :=
  let result := new_result rsid in
  has_dbsnp <~ Py.contains "dbsnp" data ;;
  has_hg19 <~ (if (has_dbsnp : bool)
               then dbsnp <~ Py.getitem data "dbsnp" ;; Py.contains "hg19" dbsnp
               else Ret false) ;;
  if (has_hg19 : bool) then
    dbsnp <~ Py.getitem data "dbsnp" ;;
    hg19_data <~ Py.getitem dbsnp "hg19" ;;
    result <~ myvariant_coordinates hg19_data result ;;
    myvariant_set_alleles dbsnp result
  else Ret result.

(** Lines 36-68: from the decoded body to the value returned. *)
Definition myvariant_extract (rsid : string) (data : pyval) : outcome pyval :=
  result <~ myvariant_fill rsid data ;;
  return_if_located result.

Definition myvariant_request (rsid : string) : request :=
  {| url := "https://myvariant.info/v1/variant/" ++ rsid;
     params := [ ("assembly", "hg19");
                 ("fields", "dbsnp.rsid,dbsnp.chrom,dbsnp.hg19,dbsnp.ref,dbsnp.alt") ];
     headers := [];
     timeout := 10 |}.

Definition get_hs37d5_loci_myvariant (rsid : string) : M pyval :=
  let rsid := normalize_rsid rsid in
  try_except_RequestException
    (response <- requests_get (myvariant_request rsid) ;;
     if (status_code response =? 404)%Z then ret PNone
     else
       raise_for_status response ;;;
       data <- response_json response ;;
       lift (myvariant_extract rsid data))
    (fun e => print ("Error with MyVariant.info API: " ++ e) ;;; ret PNone).

(** Lines 107-116: chromosome, position and alleles of one mapping. *)
Definition ensembl_set_mapping (mapping : pyval) (result : dict) : outcome dict :=
  name <~ Py.get mapping "seq_region_name" (PStr "") ;;
  chrom <~ Py.replace name "chr" "" ;;
  let result := Dict.set "chromosome" chrom result in
  start <~ Py.get mapping "start" PNone ;;
  let result := Dict.set "position" start result in
  has_alleles <~ Py.contains "allele_string" mapping ;;
  if (has_alleles : bool) then
    allele_string <~ Py.getitem mapping "allele_string" ;;
    alleles <~ Py.split allele_string "/" ;;
    let result :=
      if (0 <? List.length alleles)%nat
      then Dict.set "ref_allele" (hd PNone alleles) result
      else result in
    let result :=
      if (1 <? List.length alleles)%nat
      then Dict.set "alt_alleles" (PList (tl alleles)) result
      else result in
    Ret result
  else Ret result.

(** Lines 95-116 of [get_hs37d5_loci_ensembl]: the record as it stands
    before the final check. *)
Definition ensembl_fill (rsid : string) (data : pyval) : outcome dict :=
  let result := new_result rsid in
  has_mappings <~ Py.contains "mappings" data ;;
  nonempty <~ (if (has_mappings : bool)
               then mappings <~ Py.getitem data "mappings" ;;
                    n <~ Py.len mappings ;;
                    Ret (0 <? n)%nat
               else Ret false) ;;
  if (nonempty : bool) then
    mappings <~ Py.getitem data "mappings" ;;
    mapping <~ Py.getitem0 mappings ;;
    ensembl_set_mapping mapping result
  else Ret result.

(** Lines 95-120: from the decoded body to the value returned. *)
Definition ensembl_extract (rsid : string) (data : pyval) : outcome pyval :=
  result <~ ensembl_fill rsid data ;;
  return_if_located result.

Definition ensembl_request (rsid : string) : request :=
  {| url := "https://grch37.rest.ensembl.org/variation/human/" ++ rsid;
     params := [];
     headers := [ ("Content-Type", "application/json") ];
     timeout := 10 |}.

Definition get_hs37d5_loci_ensembl (rsid : string) : M pyval :=
  let rsid := normalize_rsid rsid in
  try_except_RequestException
    (response <- requests_get (ensembl_request rsid) ;;
     if (status_code response =? 404)%Z then ret PNone
     else
       raise_for_status response ;;;
       data <- response_json response ;;
       lift (ensembl_extract rsid data))
    (fun e => print ("Error with Ensembl API: " ++ e) ;;; ret PNone).

(** [result is None] *)
Definition is_None (v : pyval) : bool :=
  match v with PNone => true | _ => false end.

Definition get_hs37d5_loci (rsid method : string) : M pyval :=
  let rsid := normalize_rsid rsid in
  if String.eqb method "myvariant" then get_hs37d5_loci_myvariant rsid
  else if String.eqb method "ensembl" then get_hs37d5_loci_ensembl rsid
  else if String.eqb method "auto" then
    result <- get_hs37d5_loci_myvariant rsid ;;
    if is_None result then get_hs37d5_loci_ensembl rsid else ret result
  else raise (ValueError ("Unknown method: " ++ method)).

(** The loop of [batch_get_loci]: [i] is the index of the head of
    [rsids] in [rsid_list], whose length is [n]. *)
Fixpoint batch_loop (n i : nat) (rsids : list string) (delay : Q)
    (method : string) (results : dict) : M dict :=
  match rsids with
  | [] => ret results
  | rsid :: rest =>
      let rsid := normalize_rsid rsid in
      result <- get_hs37d5_loci rsid method ;;
      results <- (if Py.truthy result
                  then ret (Dict.set rsid result results)
                  else print ("Could not find coordinates for " ++ rsid) ;;;
                       ret results) ;;
      (if negb (Qle_bool delay 0) && (i <? n - 1)%nat
       then sleep delay else ret tt) ;;;
      batch_loop n (S i) rest delay method results
  end.

Definition batch_get_loci (rsid_list : list string) (delay : Q)
    (method : string) : M dict :=
  batch_loop (List.length rsid_list) 0 rsid_list delay method [].

(** ** The formatter *)

Definition format_loci (loci : pyval) (style : string) : outcome string :=
  if negb (Py.truthy loci) then Ret "Not found"
  else
    chrom <~ Py.getitem loci "chromosome" ;;
    pos <~ Py.getitem loci "position" ;;
    ref <~ Py.get loci "ref_allele" (PStr "N/A") ;;
    alts <~ Py.get loci "alt_alleles" (PList []) ;;
    joined <~ Py.join "," alts ;;
    let alt := if Py.truthy (PStr joined) then joined else "N/A" in
    if String.eqb style "hs37d5"
    then Ret (Py.str chrom ++ ":" ++ Py.str pos
                ++ " (" ++ Py.str ref ++ "/" ++ alt ++ ")")
    else Ret ("chr" ++ Py.str chrom ++ ":" ++ Py.str pos
                ++ " (" ++ Py.str ref ++ "/" ++ alt ++ ")").

(** ** Vocabulary of the specification *)

(** A field of a record is present when its key holds something other
    than [None]. *)
Definition present (key : string) (d : dict) : bool :=
  match Dict.get key d with
  | Some PNone | None => false
  | Some _ => true
  end.

(** A fully populated [LocusRecord]. *)
Definition fully_populated (v : pyval) : bool :=
  match v with
  | PDict d => present "chromosome" d && present "position" d
  | _ => false
  end.

(** A record with exactly one of chromosome and position. *)
Definition partially_populated (v : pyval) : bool :=
  match v with
  | PDict d => xorb (present "chromosome" d) (present "position" d)
  | _ => false
  end.

(** Both keys are in every record the parsers build. *)
Definition located_keys (result : dict) : Prop :=
  Dict.mem "chromosome" result = true /\ Dict.mem "position" result = true.

(** The errors of Python's dynamic typing, which no [except] clause of
    the script catches. *)
Definition dynamic_error (e : exn) : bool :=
  match e with
  | TypeError | AttributeError | KeyError | IndexError => true
  | RequestException _ | ValueError _ | RecursionError => false
  end.

Definition raises_dynamic {A} (o : outcome A) : Prop :=
  match o with
  | Ret _ => True
  | Raise e => dynamic_error e = true
  end.

(** The resolver returns, and what it returns is a fully populated
    record or [None]. *)
Definition returns_full_or_absent (o : outcome pyval) : Prop :=
  exists v, o = Ret v /\ (v = PNone \/ fully_populated v = true).

(** The body that reaches the parsing code: the reply is an answer whose
    status is neither 404 nor an error and whose body [response.json()]
    returns decoded. *)
Definition decoded (r : reply) : option pyval :=
  match r with
  | Failed _ => None
  | Answered resp =>
      if (status_code resp =? 404)%Z then None
      else if (400 <=? status_code resp)%Z && (status_code resp <? 600)%Z
           then None
           else match json resp with
                | inl data => Some data
                | inr _ => None
                end
  end.

(** The exception that leaves [response.json()] and the resolver with
    it: the script gets to decode the body and the decoder raises
    something that is not a [RequestException]. *)
Definition escaping (r : reply) : option exn :=
  match r with
  | Failed _ => None
  | Answered resp =>
      if (status_code resp =? 404)%Z then None
      else if (400 <=? status_code resp)%Z && (status_code resp <? 600)%Z
           then None
           else match json resp with
                | inl _ | inr (RequestException _) => None
                | inr e => Some e
                end
  end.

(** The outcomes a single-service resolver can have on the reply [r]:
    [None], a fully populated record, the exception that escapes the
    decoder, or an error of dynamic typing raised by the parser on the
    decoded body. *)
Definition full_or_absent_or_raises (r : reply) (o : outcome pyval) : Prop :=
  match o with
  | Ret v => v = PNone \/ fully_populated v = true
  | Raise e =>
      escaping r = Some e
      \/ ((exists data, decoded r = Some data) /\ dynamic_error e = true)
  end.

(** What a resolver does with the reply to its request: [warning] is the
    line printed for a [RequestException] with text [msg]. *)
Definition settle (warning : string -> string) (extract : pyval -> outcome pyval)
    (r : reply) (w1 : world) : outcome pyval * world :=
  let warn := fun msg => (Ret PNone, log (EPrint (warning msg)) w1) in
  match r with
  | Failed msg => warn msg
  | Answered resp =>
      if (status_code resp =? 404)%Z then (Ret PNone, w1)
      else if (400 <=? status_code resp)%Z && (status_code resp <? 600)%Z
           then warn (http_error resp)
           else match json resp with
                | inr (RequestException msg) => warn msg
                | inr e => (Raise e, w1)
                | inl data => (extract data, w1)
                end
  end.

(** The payload of service A as the interface describes it: an object;
    [dbsnp], when there, is an object; [hg19], when it is a non-empty
    list, starts with an object. *)
Definition myvariant_shape (data : pyval) : bool :=
  match data with
  | PDict top =>
      match Dict.get "dbsnp" top with
      | None => true
      | Some (PDict dbsnp) =>
          match Dict.get "hg19" dbsnp with
          | Some (PList (PDict _ :: _)) => true
          | Some (PList (_ :: _)) => false
          | _ => true
          end
      | Some _ => false
      end
  | _ => false
  end.

Definition str_or_missing (key : string) (d : dict) : bool :=
  match Dict.get key d with
  | None | Some (PStr _) => true
  | Some _ => false
  end.

(** The payload of service B as the interface describes it: an object;
    [mappings], when there, is a list; its first mapping is an object
    whose [seq_region_name] and [allele_string], when there, are
    strings. *)
Definition ensembl_shape (data : pyval) : bool :=
  match data with
  | PDict top =>
      match Dict.get "mappings" top with
      | None | Some (PList []) => true
      | Some (PList (PDict m :: _)) =>
          str_or_missing "seq_region_name" m && str_or_missing "allele_string" m
      | Some _ => false
      end
  | _ => false
  end.

Definition shaped (shape : pyval -> bool) (r : reply) : bool :=
  match decoded r with
  | Some data => shape data
  | None => true
  end.

(** Every body the services send has the documented shape; failures,
    error statuses and bodies that are not JSON are allowed. *)
Definition documented (net : network) : Prop :=
  forall rsid n,
    shaped myvariant_shape (net (myvariant_request rsid) n) = true /\
    shaped ensembl_shape (net (ensembl_request rsid) n) = true.

(** No body makes the decoder raise anything but its [JSONDecodeError]. *)
Definition decodable (net : network) : Prop :=
  forall req n, escaping (net req n) = None.

Definition recognized (method : string) : bool :=
  String.eqb method "myvariant" || String.eqb method "ensembl"
  || String.eqb method "auto".

(** The lookups of a batch, in order: the normalized identifier and what
    the resolver returned for it, starting when [n] requests have been
    sent.  The list stops at a lookup that raises. *)
Fixpoint lookup_outcomes (method : string) (net : network) (n : nat)
    (rsids : list string) : list (string * pyval) :=
  match rsids with
  | [] => []
  | rsid :: rest =>
      let rsid := normalize_rsid rsid in
      match get_hs37d5_loci rsid method net {| sent := n; trace := [] |} with
      | (Ret v, w) => (rsid, v) :: lookup_outcomes method net (sent w) rest
      | (Raise _, _) => []
      end
  end.

(** What a batch collects from its lookups: every record goes under its
    identifier, over what was there. *)
Fixpoint collect (outs : list (string * pyval)) (results : dict) : dict :=
  match outs with
  | [] => results
  | (k, v) :: rest =>
      collect rest (if Py.truthy v then Dict.set k v results else results)
  end.

(** A computation that reads of the world only how many requests were
    sent, as far as its outcome and the count afterwards go. *)
Definition framed {A} (m : M A) : Prop :=
  forall net w w',
    sent w = sent w' ->
    fst (m net w) = fst (m net w') /\ sent (snd (m net w)) = sent (snd (m net w')).

(** The record of the last lookup of [k] that found one. *)
Fixpoint last_found (k : string) (outs : list (string * pyval)) : option pyval :=
  match outs with
  | [] => None
  | (k', v) :: rest =>
      match last_found k rest with
      | Some v' => Some v'
      | None => if String.eqb k k' && Py.truthy v then Some v else None
      end
  end.

(** The alternates of a record when they are a list of strings, as the
    data model has them; a record without the key has none. *)
Definition alternates (d : dict) : option (list string) :=
  match Dict.get "alt_alleles" d with
  | None => Some []
  | Some (PList l) => Py.all_str l
  | Some _ => None
  end.

(** A [LocusRecord] as the data model has it, as far as the formatter
    reads it: chromosome and position are there and the alternates are a
    list of strings. *)
Definition locus_record (d : dict) : bool :=
  Dict.mem "chromosome" d && Dict.mem "position" d &&
  match alternates d with Some _ => true | None => false end.

(** The text in the reference slot: the value under [ref_allele], or
    [N/A] when the key is not there. *)
Definition reference_text (d : dict) : string :=
  match Dict.get "ref_allele" d with
  | Some ref => Py.str ref
  | None => "N/A"
  end.

(** The text in the alternates slot. *)
Definition alternates_text (alts : list string) : string :=
  if String.eqb (Str.join "," alts) "" then "N/A" else Str.join "," alts.

(** The two layouts. *)
Definition compact (chrom pos : pyval) (ref alt : string) : string :=
  Py.str chrom ++ ":" ++ Py.str pos ++ " (" ++ ref ++ "/" ++ alt ++ ")".

Definition standard (chrom pos : pyval) (ref alt : string) : string :=
  "chr" ++ compact chrom pos ref alt.

(** ** Sample networks *)

Definition ok_body (data : pyval) : reply :=
  Answered {| status_code := 200; http_error := ""; json := inl data |}.

Definition not_found : reply :=
  Answered {| status_code := 404; http_error := "404 Client Error";
              json := inr "Expecting value" |}.

(** An answer whose body is nested deeper than the decoder goes. *)
Definition too_deep : reply :=
  Answered {| status_code := 200; http_error := ""; json := inr RecursionError |}.

Definition fresh : world := {| sent := 0; trace := [] |}.

(** A body of service A for rs429358: coordinates and the alternate, no
    reference allele. *)
Definition apoe_myvariant : pyval :=
  PDict [ ("_id", PStr "chr19:g.45411941T>C");
          ("dbsnp", PDict [ ("alt", PStr "C");
                            ("hg19", PDict [ ("end", PInt 45411941);
                                             ("start", PInt 45411941);
                                             ("chr", PStr "19") ]);
                            ("rsid", PStr "rs429358") ]) ].

(** The record the resolver builds from it. *)
Definition apoe_record (rsid : string) : pyval :=
  PDict [ ("rsid", PStr rsid); ("chromosome", PStr "19");
          ("position", PInt 45411941); ("ref_allele", PNone);
          ("alt_alleles", PList [PStr "C"]); ("build", PStr "hs37d5") ].

(** A body of service B for rs7412. *)
Definition apoe_ensembl : pyval :=
  PDict [ ("name", PStr "rs7412");
          ("mappings", PList [ PDict [ ("seq_region_name", PStr "19");
                                       ("start", PInt 45412079);
                                       ("allele_string", PStr "C/T") ] ]) ].

(** A JSON body whose [hg19] list holds a number. *)
Definition hg19_of_numbers : pyval :=
  PDict [ ("dbsnp", PDict [ ("hg19", PList [ PInt 5 ]) ]) ].

(** Bodies whose coordinates are there and falsy. *)
Definition origin_myvariant : pyval :=
  PDict [ ("dbsnp", PDict [ ("hg19", PDict [ ("chr", PStr "chr");
                                             ("start", PInt 0) ]) ]) ].

Definition origin_ensembl : pyval :=
  PDict [ ("mappings", PList [ PDict [ ("seq_region_name", PStr "1");
                                       ("start", PInt 0) ] ]) ].

(** Bodies naming a sequence with [chr] inside its name. *)
Definition scaffold_myvariant : pyval :=
  PDict [ ("dbsnp", PDict [ ("hg19", PDict [ ("chr", PStr "scaffold_chr1");
                                             ("start", PInt 100) ]) ]) ].

Definition scaffold_ensembl : pyval :=
  PDict [ ("mappings", PList [ PDict [ ("seq_region_name", PStr "scaffold_chr1");
                                       ("start", PInt 100);
                                       ("allele_string", PStr "A/C/G") ] ]) ].

(** Every request gets the same answer. *)
Definition always (r : reply) : network := fun _ _ => r.

(** Service A knows rs1 only; service B knows nothing. *)
Definition only_rs1 : network :=
  fun req _ =>
    if String.eqb (url req) "https://myvariant.info/v1/variant/rs1"
    then ok_body apoe_myvariant else not_found.

(** The first request is not found, the later ones are answered by
    service B. *)
Definition second_only : network :=
  fun _ n => match n with O => not_found | S _ => ok_body apoe_ensembl end.

(** The first request is answered with a record, the later ones are not. *)
Definition first_only : network :=
  fun _ n => match n with O => ok_body apoe_myvariant | S _ => not_found end.

(** Service A answers every request with a body its parser cannot read;
    service B knows the variant. *)
Definition unreadable_then_known : network :=
  fun req _ =>
    if Str.startswith (url req) "https://myvariant.info/"
    then ok_body hg19_of_numbers else ok_body apoe_ensembl.

(** ** The command line *)

(** [s * n] *)
Fixpoint repeat_str (s : string) (n : nat) : string :=
  match n with
  | O => ""
  | S k => s ++ repeat_str s k
  end.

Definition newline : string := String (ascii_of_nat 10) "".

(** Lines 224-230: one lookup and one line per argument. *)
Fixpoint main_lookups (rsids : list string) : M unit :=
  match rsids with
  | [] => ret tt
  | rsid :: rest =>
      loci <- get_hs37d5_loci rsid "auto" ;;
      (if Py.truthy loci
       then id <- lift (Py.getitem loci "rsid") ;;
            text <- lift (format_loci loci "hs37d5") ;;
            print (Py.str id ++ ": " ++ text)
       else print (rsid ++ ": Not found")) ;;;
      main_lookups rest
  end.

(** Lines 219-230: the script called with arguments. *)
Definition main_with_arguments (rsids : list string) : M unit :=
  print ("Looking up " ++ Str.of_Z (Z.of_nat (List.length rsids))
           ++ " rsID(s) for hs37d5..." ++ newline) ;;;
  main_lookups rsids.

(** Lines 261-263: [for rsid, loci in results.items()]. *)
Fixpoint main_print_results (items : dict) : M unit :=
  match items with
  | [] => ret tt
  | (_, loci) :: rest =>
      (if Py.truthy loci
       then id <- lift (Py.getitem loci "rsid") ;;
            text <- lift (format_loci loci "hs37d5") ;;
            print (Py.str id ++ ": " ++ text)
       else ret tt) ;;;
      main_print_results rest
  end.

(** Lines 232-270: the script called without arguments. *)
Definition main_example : M unit :=
  print "hs37d5 Assembly Coordinate Lookup" ;;;
  print (repeat_str "=" 60) ;;;
  print "Note: hs37d5 is the 1000 Genomes Project reference" ;;;
  print "      Coordinates for chr 1-22,X,Y,MT match GRCh37/hg19" ;;;
  print (repeat_str "=" 60) ;;;
  print (newline ++ "Single rsID lookup (MyVariant.info):") ;;;
  print (repeat_str "-" 60) ;;;
  loci <- get_hs37d5_loci "rs429358" "myvariant" ;;
  (if Py.truthy loci
   then id <- lift (Py.getitem loci "rsid") ;;
        print ("rsID: " ++ Py.str id) ;;;
        chrom <- lift (Py.getitem loci "chromosome") ;;
        print ("Chromosome: " ++ Py.str chrom) ;;;
        pos <- lift (Py.getitem loci "position") ;;
        print ("Position: " ++ Py.str pos) ;;;
        compact_text <- lift (format_loci loci "hs37d5") ;;
        print ("Locus (hs37d5 style): " ++ compact_text) ;;;
        standard_text <- lift (format_loci loci "standard") ;;
        print ("Locus (standard): " ++ standard_text) ;;;
        ref <- lift (Py.getitem loci "ref_allele") ;;
        print ("Ref allele: " ++ Py.str ref) ;;;
        alts <- lift (Py.getitem loci "alt_alleles") ;;
        joined <- lift (Py.join ", " alts) ;;
        print ("Alt alleles: " ++ joined)
   else ret tt) ;;;
  print (newline ++ repeat_str "=" 60) ;;;
  print "Batch lookup:" ;;;
  print (repeat_str "-" 60) ;;;
  results <- batch_get_loci ["rs7412"; "rs429358"; "rs1799945"; "rs1800562"]
               (2 # 10) "auto" ;;
  main_print_results results ;;;
  print (newline ++ repeat_str "=" 60) ;;;
  print (newline ++ "Command line usage:") ;;;
  print "  python3 rsid_to_hs37d5.py rs429358 rs7412 rs1799945" ;;;
  print (newline ++ "For IGV with hs37d5 reference:") ;;;
  print "  - Use chromosome names without 'chr' prefix (e.g., '1' not 'chr1')" ;;;
  print "  - Coordinates are identical to GRCh37/hg19 for standard chromosomes".

(** Lines 218-270: [sys.argv] holds the name of the script and then the
    arguments. *)
Definition main (argv : list string) : M unit :=
  if (1 <? List.length argv)%nat
  then main_with_arguments (tl argv)
  else main_example.

(** ** Reading a trace *)

Definition gets (t : list event) : list request :=
  flat_map (fun e => match e with EGet r => [r] | _ => [] end) t.

Definition prints (t : list event) : list string :=
  flat_map (fun e => match e with EPrint line => [line] | _ => [] end) t.

Definition sleeps (t : list event) : list Q :=
  flat_map (fun e => match e with ESleep d => [d] | _ => [] end) t.

(** The segments of a trace with [sep] between consecutive ones, and
    neither before the first nor after the last. *)
Fixpoint intercalate {A} (sep : list A) (segments : list (list A)) : list A :=
  match segments with
  | [] => []
  | [segment] => segment
  | segment :: rest => segment ++ sep ++ intercalate sep rest
  end.

(** The stretch of a trace that belongs to the lookup of [rsid] in a
    batch: it starts with a request for the normalized identifier, to
    service A or to service B, and holds no pause. *)
Definition lookup_segment (rsid : string) (segment : list event) : Prop :=
  sleeps segment = []
  /\ exists req more,
       segment = EGet req :: more
       /\ (req = myvariant_request (normalize_rsid rsid)
           \/ req = ensembl_request (normalize_rsid rsid)).

(** ** Records *)

(** The six fields of a record, in the order the resolvers create them. *)
Definition record_of (rsid : string) (chrom pos ref alts : pyval) : dict :=
  [ ("rsid", PStr rsid); ("chromosome", chrom); ("position", pos);
    ("ref_allele", ref); ("alt_alleles", alts); ("build", PStr "hs37d5") ].

Definition none_or_str (v : pyval) : bool :=
  match v with
  | PNone | PStr _ => true
  | _ => false
  end.

(** What [sep.join] accepts. *)
Definition joinable (v : pyval) : bool :=
  match v with
  | PList l => match Py.all_str l with Some _ => true | None => false end
  | PStr _ | PDict _ => true
  | _ => false
  end.

(** A value every interpreter renders in an f-string: [None], a bool, a
    string, or an int of at most 640 digits, which is below any digit
    limit the interpreter can be given. *)
Definition plain (v : pyval) : bool :=
  match v with
  | PNone | PBool _ | PStr _ => true
  | PInt z => (Z.abs z <? 10 ^ 640)%Z
  | PList _ | PDict _ => false
  end.

(** The text of the exception behind a reply the resolvers turn into a
    warning; a 404 and a decoded body have none. *)
Definition failure_text (r : reply) : option string :=
  match r with
  | Failed msg => Some msg
  | Answered resp =>
      if (status_code resp =? 404)%Z then None
      else if (400 <=? status_code resp)%Z && (status_code resp <? 600)%Z
           then Some (http_error resp)
           else match json resp with
                | inr (RequestException msg) => Some msg
                | _ => None
                end
  end.

(** The alternates service A's [alt] field turns into. *)
Definition myvariant_alternates (alt : option pyval) : pyval :=
  match alt with
  | None => PList []
  | Some (PStr s) => PList [PStr s]
  | Some v => v
  end.

Definition or_default (o : option pyval) (default : pyval) : pyval :=
  match o with Some v => v | None => default end.

(** The payload of service A with alleles the formatter can print: the
    documented shape, and [alt], when there, a string or a list of
    strings. *)
Definition myvariant_printable (data : pyval) : bool :=
  myvariant_shape data &&
  match data with
  | PDict top =>
      match Dict.get "dbsnp" top with
      | Some (PDict dbsnp) =>
          match Dict.get "alt" dbsnp with
          | None | Some (PStr _) => true
          | Some (PList l) =>
              match Py.all_str l with Some _ => true | None => false end
          | Some _ => false
          end
      | _ => true
      end
  | _ => true
  end.

Definition printable (net : network) : Prop :=
  forall rsid n,
    shaped myvariant_printable (net (myvariant_request rsid) n) = true /\
    shaped ensembl_shape (net (ensembl_request rsid) n) = true.

(** A record whose alternates the formatter can join. *)
Definition printable_record (v : pyval) : Prop :=
  exists rsid chrom pos ref alts,
    v = PDict (record_of rsid chrom pos ref alts) /\ joinable alts = true.

(** On the network [net] the computation [m] returns from every world,
    with a value satisfying [P]. *)
Definition yields {A} (m : M A) (net : network) (P : A -> Prop) : Prop :=
  forall w, exists a w', m net w = (Ret a, w') /\ P a.

(** Every request is answered with status 404. *)
Definition knows_nothing (net : network) : Prop :=
  forall req n, exists resp,
    net req n = Answered resp /\ status_code resp = 404%Z.

(** * Properties *)

(** ** Identifier prefix *)

Lemma normalize_rsid_prefixed (rsid : string) :
  Str.startswith (normalize_rsid rsid) "rs" = true.
Proof.
  unfold normalize_rsid.
  destruct (Str.startswith rsid "rs") eqn:E; cbn [negb].
  - exact E.
  - reflexivity.
Qed.

(** C6: the prefix rule applied twice gives what it gives applied once,
    for every identifier string. *)
Theorem normalize_rsid_idempotent (rsid : string) :
  normalize_rsid (normalize_rsid rsid) = normalize_rsid rsid.
Proof.
  unfold normalize_rsid at 1.
  now rewrite normalize_rsid_prefixed.
Qed.

(** ** Method selection *)

Lemma recognized_false (method : string) :
  recognized method = false ->
  String.eqb method "myvariant" = false /\
  String.eqb method "ensembl" = false /\
  String.eqb method "auto" = false.
Proof.
  unfold recognized. intros H.
  apply orb_false_iff in H. destruct H as [H Hauto].
  apply orb_false_iff in H. destruct H as [Hmy Hens].
  auto.
Qed.

Lemma get_hs37d5_loci_unknown (rsid method : string) (net : network) (w : world) :
  recognized method = false ->
  get_hs37d5_loci rsid method net w
  = (Raise (ValueError ("Unknown method: " ++ method)), w).
Proof.
  intros H. apply recognized_false in H. destruct H as (Hmy & Hens & Hauto).
  unfold get_hs37d5_loci. rewrite Hmy, Hens, Hauto. reflexivity.
Qed.

(** C4: with a method other than the three recognized ones the resolver
    raises [ValueError] to its caller without sending any request, and the
    batch runner, at its first identifier, lets the same error through:
    nothing was added to the mapping and nothing was printed. *)
Theorem unknown_method_raises
    (rsid method : string) (rest : list string) (delay : Q)
    (net : network) (w : world) :
  recognized method = false ->
  get_hs37d5_loci rsid method net w
  = (Raise (ValueError ("Unknown method: " ++ method)), w)
  /\ batch_get_loci (rsid :: rest) delay method net w
     = (Raise (ValueError ("Unknown method: " ++ method)), w).
Proof.
  intros H. split.
  - now apply get_hs37d5_loci_unknown.
  - unfold batch_get_loci. cbn [batch_loop]. unfold bind at 1.
    now rewrite get_hs37d5_loci_unknown.
Qed.

Lemma unknown_method_raises_witness :
  recognized "dbsnp" = false
  /\ get_hs37d5_loci "rs7412" "dbsnp" (fun _ _ => not_found) fresh
     = (Raise (ValueError "Unknown method: dbsnp"), fresh)
  /\ batch_get_loci ["rs7412"; "rs429358"] (2 # 10) "dbsnp"
       (fun _ _ => not_found) fresh
     = (Raise (ValueError "Unknown method: dbsnp"), fresh).
Proof.
  split; [reflexivity |].
  apply (unknown_method_raises "rs7412" "dbsnp" ["rs429358"] (2 # 10)
           (fun _ _ => not_found) fresh).
  reflexivity.
Defined.

(** ** Automatic fallback *)

Lemma myvariant_normalized (rsid : string) :
  get_hs37d5_loci_myvariant (normalize_rsid rsid) = get_hs37d5_loci_myvariant rsid.
Proof.
  unfold get_hs37d5_loci_myvariant. now rewrite normalize_rsid_idempotent.
Qed.

Lemma ensembl_normalized (rsid : string) :
  get_hs37d5_loci_ensembl (normalize_rsid rsid) = get_hs37d5_loci_ensembl rsid.
Proof.
  unfold get_hs37d5_loci_ensembl. now rewrite normalize_rsid_idempotent.
Qed.

Lemma auto_unfold (rsid : string) :
  get_hs37d5_loci rsid "auto"
  = bind (get_hs37d5_loci_myvariant rsid)
      (fun result => if is_None result
                     then get_hs37d5_loci_ensembl rsid else ret result).
Proof.
  unfold get_hs37d5_loci. cbn [String.eqb Ascii.eqb Bool.eqb].
  now rewrite myvariant_normalized, ensembl_normalized.
Qed.

(** C3, as the code has it: with the automatic method, a record from
    service A is the result; when service A returns [None] the outcome is
    whatever service B gives next; so the result is [None] exactly when
    both are.  When service A raises, the resolver raises the same
    exception in the world service A left: service B is not asked. *)
Theorem auto_first_non_absent (rsid : string) (net : network) (w : world) :
  (forall r w1,
      get_hs37d5_loci_myvariant rsid net w = (Ret r, w1) -> r <> PNone ->
      get_hs37d5_loci rsid "auto" net w = (Ret r, w1))
  /\ (forall w1,
      get_hs37d5_loci_myvariant rsid net w = (Ret PNone, w1) ->
      get_hs37d5_loci rsid "auto" net w = get_hs37d5_loci_ensembl rsid net w1)
  /\ (forall w2,
      get_hs37d5_loci rsid "auto" net w = (Ret PNone, w2) <->
      exists w1,
        get_hs37d5_loci_myvariant rsid net w = (Ret PNone, w1) /\
        get_hs37d5_loci_ensembl rsid net w1 = (Ret PNone, w2))
  /\ (forall e w1,
      get_hs37d5_loci_myvariant rsid net w = (Raise e, w1) ->
      get_hs37d5_loci rsid "auto" net w = (Raise e, w1)).
Proof.
  rewrite auto_unfold. unfold bind.
  repeat split.
  - intros r w1 Ha Hr. rewrite Ha. destruct r; try reflexivity. congruence.
  - intros w1 Ha. now rewrite Ha.
  - destruct (get_hs37d5_loci_myvariant rsid net w) as [[r | e] w1].
    + destruct r; cbn [is_None ret]; intros H; try discriminate.
      exists w1. split; [reflexivity | exact H].
    + discriminate.
  - intros [w1 [Ha Hb]]. now rewrite Ha.
  - intros e w1 Ha. now rewrite Ha.
Qed.

Lemma auto_first_non_absent_witness :
  get_hs37d5_loci "rs7412" "auto" second_only fresh
  = get_hs37d5_loci_ensembl "rs7412" second_only
      (sent_request (myvariant_request "rs7412") fresh).
Proof.
  apply (proj1 (proj2 (auto_first_non_absent "rs7412" second_only fresh))).
  reflexivity.
Defined.

(** C3 as stated fails when service A raises.  Service A answers with a
    body its parser cannot read and yields no record; service B, asked
    next, would return one; the automatic method returns neither: it
    raises [AttributeError] after the one request to service A. *)
Lemma auto_raises_without_fallback :
  fst (get_hs37d5_loci_myvariant "rs7412" unreadable_then_known fresh)
  = Raise AttributeError
  /\ fst (get_hs37d5_loci_ensembl "rs7412" unreadable_then_known
            (sent_request (myvariant_request "rs7412") fresh))
     = Ret (PDict (record_of "rs7412" (PStr "19") (PInt 45412079) (PStr "C")
                     (PList [PStr "T"])))
  /\ get_hs37d5_loci "rs7412" "auto" unreadable_then_known fresh
     = (Raise AttributeError, sent_request (myvariant_request "rs7412") fresh).
Proof. repeat split. Qed.

(** ** Dictionaries *)

Section DictFacts.
Variables (k : string) (v : pyval).

Lemma get_set_eq (d : dict) : Dict.get k (Dict.set k v d) = Some v.
Proof.
  induction d as [| [k' v'] d IH]; simpl.
  - now rewrite String.eqb_refl.
  - destruct (String.eqb k k') eqn:E; simpl.
    + now rewrite String.eqb_refl.
    + now rewrite E.
Qed.

Lemma get_set_ne (k0 : string) (d : dict) :
  String.eqb k0 k = false -> Dict.get k0 (Dict.set k v d) = Dict.get k0 d.
Proof.
  intros Hne. induction d as [| [k' v'] d IH]; simpl.
  - now rewrite Hne.
  - destruct (String.eqb k k') eqn:E; simpl.
    + apply String.eqb_eq in E. subst k'. now rewrite Hne.
    + now rewrite IH.
Qed.

Lemma mem_set_eq (d : dict) : Dict.mem k (Dict.set k v d) = true.
Proof. unfold Dict.mem. now rewrite get_set_eq. Qed.

Lemma mem_set_ne (k0 : string) (d : dict) :
  String.eqb k0 k = false -> Dict.mem k0 (Dict.set k v d) = Dict.mem k0 d.
Proof. intros H. unfold Dict.mem. now rewrite get_set_ne. Qed.

End DictFacts.

(** ** Parsing the payload of service A *)

(** The parser on an object whose [dbsnp] is an object holding [hg19]. *)
Lemma myvariant_extract_hg19 (rsid : string) (top dbsnp : dict) (hg19_data : pyval) :
  Dict.get "dbsnp" top = Some (PDict dbsnp) ->
  Dict.get "hg19" dbsnp = Some hg19_data ->
  myvariant_extract rsid (PDict top)
  = (result <~ myvariant_coordinates hg19_data (new_result rsid) ;;
     result <~ myvariant_set_alleles (PDict dbsnp) result ;;
     return_if_located result).
Proof.
  intros Hd Hh. unfold myvariant_extract, myvariant_fill.
  cbn [Py.contains Py.getitem rbind]. unfold Dict.mem.
  rewrite Hd. cbn [Py.contains Py.getitem rbind]. unfold Dict.mem.
  rewrite Hh. cbn [rbind].
  destruct (myvariant_coordinates hg19_data (new_result rsid)) as [r1 | e];
    [| reflexivity].
  cbn [rbind]. destruct (myvariant_set_alleles (PDict dbsnp) r1); reflexivity.
Qed.

Lemma myvariant_set_alleles_hg19 (value : pyval) (dbsnp result : dict) :
  myvariant_set_alleles (PDict (Dict.set "hg19" value dbsnp)) result
  = myvariant_set_alleles (PDict dbsnp) result.
Proof.
  unfold myvariant_set_alleles. cbn [Py.contains Py.getitem].
  now rewrite !mem_set_ne, !get_set_ne by reflexivity.
Qed.

(** ** Errors of the parsers *)

Lemma rbind_dynamic {A B} (r : outcome A) (k : A -> outcome B) :
  raises_dynamic r -> (forall a, raises_dynamic (k a)) -> raises_dynamic (rbind r k).
Proof. destruct r; simpl; auto. Qed.

Ltac dynamic_step :=
  match goal with
  | |- raises_dynamic (rbind _ _) => apply rbind_dynamic; [| intros ?]
  | |- raises_dynamic (if ?b then _ else _) => destruct b
  | |- raises_dynamic (match ?v with _ => _ end) => destruct v
  | |- raises_dynamic _ => exact I || reflexivity
  end.

Ltac dynamic := repeat dynamic_step.

Section PyErrors.
Variables (v : pyval) (key : string).

Lemma contains_dynamic : raises_dynamic (Py.contains key v).
Proof. unfold Py.contains. dynamic. Qed.

Lemma getitem_dynamic : raises_dynamic (Py.getitem v key).
Proof. unfold Py.getitem. dynamic. Qed.

Lemma getitem0_dynamic : raises_dynamic (Py.getitem0 v).
Proof. unfold Py.getitem0. dynamic. Qed.

Lemma len_dynamic : raises_dynamic (Py.len v).
Proof. unfold Py.len. dynamic. Qed.

Lemma get_dynamic (default : pyval) : raises_dynamic (Py.get v key default).
Proof. unfold Py.get. dynamic. Qed.

Lemma replace_dynamic (old new : string) : raises_dynamic (Py.replace v old new).
Proof. unfold Py.replace. dynamic. Qed.

Lemma split_dynamic (sep : ascii) : raises_dynamic (Py.split v sep).
Proof. unfold Py.split. dynamic. Qed.

End PyErrors.

Create HintDb pyerr.
#[local] Hint Resolve contains_dynamic getitem_dynamic getitem0_dynamic
  len_dynamic get_dynamic replace_dynamic split_dynamic : pyerr.

Ltac dynamic_ops :=
  repeat first
    [ solve [auto with pyerr]
    | match goal with
      | |- raises_dynamic (rbind _ _) => apply rbind_dynamic; [| intros ?]
      | |- raises_dynamic (if ?b then _ else _) => destruct b
      | |- raises_dynamic (Ret _) => exact I
      end ].

Lemma return_if_located_dynamic (result : dict) :
  raises_dynamic (return_if_located result).
Proof. unfold return_if_located. dynamic_ops. Qed.

Lemma myvariant_set_coordinates_dynamic (m : pyval) (result : dict) :
  raises_dynamic (myvariant_set_coordinates m result).
Proof. unfold myvariant_set_coordinates. dynamic_ops. Qed.

Lemma myvariant_coordinates_dynamic (hg19_data : pyval) (result : dict) :
  raises_dynamic (myvariant_coordinates hg19_data result).
Proof.
  unfold myvariant_coordinates.
  destruct hg19_data as [| | | | [| first rest] |];
    try exact I; apply myvariant_set_coordinates_dynamic.
Qed.

Lemma myvariant_set_alleles_dynamic (dbsnp : pyval) (result : dict) :
  raises_dynamic (myvariant_set_alleles dbsnp result).
Proof. unfold myvariant_set_alleles. dynamic_ops. Qed.

#[local] Hint Resolve return_if_located_dynamic myvariant_coordinates_dynamic
  myvariant_set_alleles_dynamic : pyerr.

Lemma myvariant_extract_dynamic (rsid : string) (data : pyval) :
  raises_dynamic (myvariant_extract rsid data).
Proof. unfold myvariant_extract, myvariant_fill. dynamic_ops. Qed.

Lemma ensembl_set_mapping_dynamic (mapping : pyval) (result : dict) :
  raises_dynamic (ensembl_set_mapping mapping result).
Proof. unfold ensembl_set_mapping. dynamic_ops. Qed.

#[local] Hint Resolve ensembl_set_mapping_dynamic : pyerr.

Lemma ensembl_extract_dynamic (rsid : string) (data : pyval) :
  raises_dynamic (ensembl_extract rsid data).
Proof. unfold ensembl_extract, ensembl_fill. dynamic_ops. Qed.

(** ** One run of a single-service resolver *)

Lemma myvariant_run (rsid : string) (net : network) (w : world) :
  get_hs37d5_loci_myvariant rsid net w
  = let req := myvariant_request (normalize_rsid rsid) in
    settle (fun msg => "Error with MyVariant.info API: " ++ msg)
      (myvariant_extract (normalize_rsid rsid))
      (net req (sent w)) (sent_request req w).
Proof.
  unfold get_hs37d5_loci_myvariant, try_except_RequestException, bind,
    requests_get, settle.
  cbv zeta.
  destruct (net (myvariant_request (normalize_rsid rsid)) (sent w)) as [msg | resp];
    [reflexivity |].
  destruct (status_code resp =? 404)%Z; [reflexivity |].
  unfold raise_for_status, response_json.
  destruct ((400 <=? status_code resp)%Z && (status_code resp <? 600)%Z);
    [reflexivity |].
  destruct (json resp) as [data | []]; try reflexivity.
  unfold ret, lift.
  pose proof (myvariant_extract_dynamic (normalize_rsid rsid) data) as Hd.
  destruct (myvariant_extract (normalize_rsid rsid) data) as [v | []];
    try reflexivity; discriminate Hd.
Qed.

Lemma ensembl_run (rsid : string) (net : network) (w : world) :
  get_hs37d5_loci_ensembl rsid net w
  = let req := ensembl_request (normalize_rsid rsid) in
    settle (fun msg => "Error with Ensembl API: " ++ msg)
      (ensembl_extract (normalize_rsid rsid))
      (net req (sent w)) (sent_request req w).
Proof.
  unfold get_hs37d5_loci_ensembl, try_except_RequestException, bind,
    requests_get, settle.
  cbv zeta.
  destruct (net (ensembl_request (normalize_rsid rsid)) (sent w)) as [msg | resp];
    [reflexivity |].
  destruct (status_code resp =? 404)%Z; [reflexivity |].
  unfold raise_for_status, response_json.
  destruct ((400 <=? status_code resp)%Z && (status_code resp <? 600)%Z);
    [reflexivity |].
  destruct (json resp) as [data | []]; try reflexivity.
  unfold ret, lift.
  pose proof (ensembl_extract_dynamic (normalize_rsid rsid) data) as Hd.
  destruct (ensembl_extract (normalize_rsid rsid) data) as [v | []];
    try reflexivity; discriminate Hd.
Qed.

(** The outcome of [settle] is that of the parser on a decoded body, the
    exception of the decoder when one escapes, and [None] otherwise. *)
Lemma settle_outcome (warning : string -> string)
    (extract : pyval -> outcome pyval) (r : reply) (w1 : world) :
  fst (settle warning extract r w1)
  = match decoded r with
    | Some data => extract data
    | None => match escaping r with
              | Some e => Raise e
              | None => Ret PNone
              end
    end.
Proof.
  unfold settle, decoded, escaping. destruct r as [msg | resp]; [reflexivity |].
  destruct (status_code resp =? 404)%Z; [reflexivity |].
  destruct ((400 <=? status_code resp)%Z && (status_code resp <? 600)%Z);
    [reflexivity |].
  destruct (json resp) as [data | []]; reflexivity.
Qed.

Lemma settle_sent (warning : string -> string)
    (extract : pyval -> outcome pyval) (r : reply) (w1 : world) :
  sent (snd (settle warning extract r w1)) = sent w1.
Proof.
  unfold settle. destruct r as [msg | resp]; [reflexivity |].
  destruct (status_code resp =? 404)%Z; [reflexivity |].
  destruct ((400 <=? status_code resp)%Z && (status_code resp <? 600)%Z);
    [reflexivity |].
  destruct (json resp) as [data | []]; reflexivity.
Qed.

(** C7: whatever else a response of service A carries, the coordinate
    object [m] under [hg19] gives the same parse, and the same run of the
    resolver, bare and wrapped in a one-element list. *)
Theorem myvariant_object_or_singleton
    (rsid : string) (top dbsnp m : dict)
    (status : Z) (error : string) (w : world) :
  let data := fun hg19_data =>
    PDict (Dict.set "dbsnp" (PDict (Dict.set "hg19" hg19_data dbsnp)) top) in
  let net := fun hg19_data (_ : request) (_ : nat) =>
    Answered {| status_code := status; http_error := error;
                json := inl (data hg19_data) |} in
  myvariant_extract rsid (data (PDict m))
  = myvariant_extract rsid (data (PList [PDict m]))
  /\ get_hs37d5_loci_myvariant rsid (net (PDict m)) w
     = get_hs37d5_loci_myvariant rsid (net (PList [PDict m])) w.
Proof.
  intros data net.
  assert (E : forall r, myvariant_extract r (data (PDict m))
                        = myvariant_extract r (data (PList [PDict m]))).
  { intros r. unfold data.
    rewrite !(myvariant_extract_hg19 r _ _ _ (get_set_eq _ _ _) (get_set_eq _ _ _)).
    cbn [myvariant_coordinates].
    destruct (myvariant_set_coordinates (PDict m) (new_result r)) as [result | e];
      cbn [rbind]; [| reflexivity].
    now rewrite !myvariant_set_alleles_hg19. }
  split; [apply E |].
  rewrite !myvariant_run. unfold net, settle. cbn [status_code json http_error].
  now rewrite E.
Qed.

(** ** Full record or nothing *)

Lemma rbind_ret_inv {A B} (r : outcome A) (k : A -> outcome B) (b : B) :
  rbind r k = Ret b -> exists a, r = Ret a /\ k a = Ret b.
Proof. destruct r as [a | e]; simpl; [eauto | discriminate]. Qed.

Lemma truthy_not_None (v : pyval) : Py.truthy v = true -> v <> PNone.
Proof. now destruct v. Qed.

Lemma return_if_located_full (result : dict) (v : pyval) :
  return_if_located result = Ret v ->
  v = PNone \/ (v = PDict result /\ fully_populated v = true).
Proof.
  unfold return_if_located, Py.getitem.
  destruct (Dict.get "chromosome" result) as [c |] eqn:Hc; cbn [rbind];
    [| discriminate].
  destruct (Py.truthy c) eqn:Tc; [| intros [= <-]; now left].
  destruct (Dict.get "position" result) as [p |] eqn:Hp; cbn [rbind];
    [| discriminate].
  destruct (Py.truthy p) eqn:Tp; intros [= <-]; [right | now left].
  split; [reflexivity |].
  unfold fully_populated, present. rewrite Hc, Hp.
  apply truthy_not_None in Tc. apply truthy_not_None in Tp.
  now destruct c, p.
Qed.

Lemma myvariant_extract_full (rsid : string) (data v : pyval) :
  myvariant_extract rsid data = Ret v -> v = PNone \/ fully_populated v = true.
Proof.
  unfold myvariant_extract. intros H.
  apply rbind_ret_inv in H. destruct H as (result & _ & H).
  apply return_if_located_full in H. tauto.
Qed.

Lemma ensembl_extract_full (rsid : string) (data v : pyval) :
  ensembl_extract rsid data = Ret v -> v = PNone \/ fully_populated v = true.
Proof.
  unfold ensembl_extract. intros H.
  apply rbind_ret_inv in H. destruct H as (result & _ & H).
  apply return_if_located_full in H. tauto.
Qed.

Lemma full_not_partial (v : pyval) :
  v = PNone \/ fully_populated v = true -> partially_populated v = false.
Proof.
  intros [-> | H]; [reflexivity |].
  destruct v; try discriminate. simpl in *.
  apply andb_true_iff in H. destruct H as [-> ->]. reflexivity.
Qed.

Lemma located_keys_new (rsid : string) : located_keys (new_result rsid).
Proof. split; reflexivity. Qed.

Lemma mem_set (k k0 : string) (v : pyval) (d : dict) :
  Dict.mem k0 d = true -> Dict.mem k0 (Dict.set k v d) = true.
Proof.
  intros H. destruct (String.eqb k0 k) eqn:E.
  - apply String.eqb_eq in E. subst. apply mem_set_eq.
  - now rewrite mem_set_ne.
Qed.

Lemma located_keys_set (k : string) (v : pyval) (result : dict) :
  located_keys result -> located_keys (Dict.set k v result).
Proof. intros [Hc Hp]. split; now apply mem_set. Qed.

Lemma return_if_located_returns (result : dict) :
  located_keys result -> exists v, return_if_located result = Ret v.
Proof.
  intros [Hc Hp]. unfold return_if_located, Py.getitem.
  unfold Dict.mem in Hc, Hp.
  destruct (Dict.get "chromosome" result) as [c |]; [| discriminate].
  destruct (Dict.get "position" result) as [p |]; [| discriminate].
  cbn [rbind]. destruct (Py.truthy c); [destruct (Py.truthy p) |]; eauto.
Qed.

Lemma myvariant_set_coordinates_returns (m result : dict) :
  located_keys result ->
  exists result', myvariant_set_coordinates (PDict m) result = Ret result'
                  /\ located_keys result'.
Proof.
  intros H. unfold myvariant_set_coordinates. cbn [Py.get Py.replace rbind].
  eexists. split; [reflexivity |]. now repeat apply located_keys_set.
Qed.

Lemma myvariant_set_alleles_returns (dbsnp result : dict) :
  located_keys result ->
  exists result', myvariant_set_alleles (PDict dbsnp) result = Ret result'
                  /\ located_keys result'.
Proof.
  intros H. unfold myvariant_set_alleles, Py.contains, Py.getitem, Dict.mem.
  destruct (Dict.get "ref" dbsnp) as [ref |];
    destruct (Dict.get "alt" dbsnp) as [alt |]; cbn [rbind];
    eexists; (split; [reflexivity |]); now repeat apply located_keys_set.
Qed.

Lemma myvariant_extract_returns (rsid : string) (data : pyval) :
  myvariant_shape data = true -> exists v, myvariant_extract rsid data = Ret v.
Proof.
  destruct data as [| | | | | top]; try discriminate. cbn [myvariant_shape].
  destruct (Dict.get "dbsnp" top) as [dbsnp_v |] eqn:Hd.
  - destruct dbsnp_v as [| | | | | dbsnp]; try discriminate.
    destruct (Dict.get "hg19" dbsnp) as [hg19_data |] eqn:Hh.
    + intros Hshape. rewrite (myvariant_extract_hg19 rsid top dbsnp hg19_data Hd Hh).
      assert (Hc : exists result,
                 myvariant_coordinates hg19_data (new_result rsid) = Ret result
                 /\ located_keys result).
      { pose proof (located_keys_new rsid) as Hn.
        destruct hg19_data as [| | | | [| first rest] | m];
          try (eexists; split; [reflexivity | exact Hn]).
        destruct first; try discriminate.
        now apply myvariant_set_coordinates_returns. }
      destruct Hc as (r1 & -> & H1). cbn [rbind].
      destruct (myvariant_set_alleles_returns dbsnp r1 H1) as (r2 & -> & H2).
      cbn [rbind]. now apply return_if_located_returns.
    + intros _. unfold myvariant_extract, myvariant_fill.
      cbn [Py.contains Py.getitem rbind]. unfold Dict.mem.
      rewrite Hd. cbn [Py.contains Py.getitem rbind]. unfold Dict.mem.
      rewrite Hh. cbn [rbind].
      apply return_if_located_returns, located_keys_new.
  - intros _. unfold myvariant_extract, myvariant_fill.
    cbn [Py.contains Py.getitem rbind]. unfold Dict.mem. rewrite Hd.
    cbn [rbind]. apply return_if_located_returns, located_keys_new.
Qed.

Lemma ensembl_set_mapping_returns (m result : dict) :
  str_or_missing "seq_region_name" m = true ->
  str_or_missing "allele_string" m = true ->
  located_keys result ->
  exists result', ensembl_set_mapping (PDict m) result = Ret result'
                  /\ located_keys result'.
Proof.
  unfold str_or_missing, ensembl_set_mapping, Py.contains, Py.getitem, Py.get,
    Dict.mem.
  intros Hname Hal H.
  destruct (Dict.get "seq_region_name" m) as [[| | | name | |] |];
    try discriminate;
    destruct (Dict.get "allele_string" m) as [[| | | alleles | |] |];
    try discriminate; cbn [rbind Py.replace Py.split];
    repeat match goal with
           | |- context [if ?b then _ else _] => destruct b
           end;
    eexists; (split; [reflexivity |]); now repeat apply located_keys_set.
Qed.

Lemma ensembl_extract_returns (rsid : string) (data : pyval) :
  ensembl_shape data = true -> exists v, ensembl_extract rsid data = Ret v.
Proof.
  destruct data as [| | | | | top]; try discriminate. cbn [ensembl_shape].
  unfold ensembl_extract, ensembl_fill.
  cbn [Py.contains Py.getitem rbind]. unfold Dict.mem.
  destruct (Dict.get "mappings" top) as [mappings |] eqn:Hm; cbn [rbind].
  - destruct mappings as [| | | | [| first rest] |]; try discriminate.
    + intros _. cbn. eauto.
    + destruct first as [| | | | | m]; try discriminate.
      intros Hshape. apply andb_true_iff in Hshape. destruct Hshape as [Hn Ha].
      cbn [Py.len rbind List.length Nat.ltb Nat.leb Py.getitem0].
      destruct (ensembl_set_mapping_returns m (new_result rsid) Hn Ha
                  (located_keys_new rsid)) as (r1 & -> & H1).
      cbn [rbind]. now apply return_if_located_returns.
  - intros _. apply return_if_located_returns, located_keys_new.
Qed.

Lemma settled_outcome (extract : pyval -> outcome pyval) (r : reply) :
  (forall data, raises_dynamic (extract data)) ->
  (forall data v, extract data = Ret v -> v = PNone \/ fully_populated v = true) ->
  full_or_absent_or_raises r
    (match decoded r with
     | Some data => extract data
     | None => match escaping r with
               | Some e => Raise e
               | None => Ret PNone
               end
     end).
Proof.
  intros Hdyn Hfull. destruct (decoded r) as [data |] eqn:Hd.
  - specialize (Hdyn data). specialize (Hfull data).
    destruct (extract data) as [v | e].
    + exact (Hfull v eq_refl).
    + right. split; [exists data; exact Hd | exact Hdyn].
  - destruct (escaping r) as [e |] eqn:He; left; [exact He | reflexivity].
Qed.

Lemma settled_returns (shape : pyval -> bool) (extract : pyval -> outcome pyval)
    (r : reply) :
  (forall data, shape data = true -> exists v, extract data = Ret v) ->
  (forall data v, extract data = Ret v -> v = PNone \/ fully_populated v = true) ->
  shaped shape r = true ->
  escaping r = None ->
  returns_full_or_absent
    (match decoded r with
     | Some data => extract data
     | None => match escaping r with
               | Some e => Raise e
               | None => Ret PNone
               end
     end).
Proof.
  unfold shaped, returns_full_or_absent. intros Hret Hfull Hs He.
  destruct (decoded r) as [data |]; [| rewrite He; eauto].
  destruct (Hret data Hs) as [v Hv]. rewrite Hv. eauto.
Qed.

(** C2, as the code has it: on every reply, each single-service resolver
    returns [None], or returns a record holding both chromosome and
    position, or raises: the exception that leaves [response.json()]
    when it is not a [RequestException], or an error of Python's dynamic
    typing on a decoded body that is not shaped as the parser expects.
    It never returns a record with exactly one of the two.  On every
    reply of the documented shape on which the decoder raises nothing
    but its [JSONDecodeError], it returns. *)
Theorem single_service_full_or_absent (rsid : string) (net : network) (w : world) :
  let a := fst (get_hs37d5_loci_myvariant rsid net w) in
  let b := fst (get_hs37d5_loci_ensembl rsid net w) in
  let reply_a := net (myvariant_request (normalize_rsid rsid)) (sent w) in
  let reply_b := net (ensembl_request (normalize_rsid rsid)) (sent w) in
  (full_or_absent_or_raises reply_a a /\ full_or_absent_or_raises reply_b b)
  /\ (forall v, a = Ret v \/ b = Ret v -> partially_populated v = false)
  /\ (shaped myvariant_shape reply_a = true -> escaping reply_a = None ->
      returns_full_or_absent a)
  /\ (shaped ensembl_shape reply_b = true -> escaping reply_b = None ->
      returns_full_or_absent b).
Proof.
  intros a b reply_a reply_b. subst a b.
  rewrite myvariant_run, ensembl_run. cbv zeta. rewrite !settle_outcome.
  fold reply_a reply_b.
  pose proof (settled_outcome (myvariant_extract (normalize_rsid rsid)) reply_a
                (myvariant_extract_dynamic _) (myvariant_extract_full _)) as Ha.
  pose proof (settled_outcome (ensembl_extract (normalize_rsid rsid)) reply_b
                (ensembl_extract_dynamic _) (ensembl_extract_full _)) as Hb.
  repeat split; try assumption.
  - intros v [E | E]; [rewrite E in Ha | rewrite E in Hb];
      now apply full_not_partial.
  - apply settled_returns;
      [apply myvariant_extract_returns | apply myvariant_extract_full].
  - apply settled_returns;
      [apply ensembl_extract_returns | apply ensembl_extract_full].
Qed.

Lemma single_service_full_or_absent_witness :
  shaped myvariant_shape
    (always (ok_body apoe_myvariant)
       (myvariant_request (normalize_rsid "429358")) (sent fresh)) = true
  /\ escaping
       (always (ok_body apoe_myvariant)
          (myvariant_request (normalize_rsid "429358")) (sent fresh)) = None
  /\ returns_full_or_absent
       (fst (get_hs37d5_loci_myvariant "429358"
               (always (ok_body apoe_myvariant)) fresh)).
Proof.
  split; [reflexivity |]. split; [reflexivity |].
  apply (proj1 (proj2 (proj2
           (single_service_full_or_absent "429358"
              (always (ok_body apoe_myvariant)) fresh))));
    reflexivity.
Defined.

(** C2 as stated fails on a body that is JSON and not shaped as the
    parser expects: the resolver of service A neither returns a record
    nor [None], it raises [AttributeError]. *)
Lemma malformed_body_escapes :
  fst (get_hs37d5_loci_myvariant "rs429358"
         (always (ok_body hg19_of_numbers)) fresh) = Raise AttributeError
  /\ ~ returns_full_or_absent
         (fst (get_hs37d5_loci_myvariant "rs429358"
                 (always (ok_body hg19_of_numbers)) fresh)).
Proof.
  split; [reflexivity |].
  intros [v [H _]]. discriminate H.
Qed.

(** An exception of the decoder that is not a [RequestException] leaves
    the resolver, and with it the automatic method and a batch; nothing
    is printed. *)
Example decoder_error_escapes :
  get_hs37d5_loci_ensembl "rs7412" (always too_deep) fresh
  = (Raise RecursionError, sent_request (ensembl_request "rs7412") fresh)
  /\ get_hs37d5_loci "rs7412" "auto" (always too_deep) fresh
     = (Raise RecursionError, sent_request (myvariant_request "rs7412") fresh)
  /\ escaping too_deep = Some RecursionError.
Proof. repeat split. Qed.

(** ** Keys of the records the parsers build *)

Ltac returned :=
  repeat match goal with
         | H : rbind _ _ = Ret _ |- _ =>
             apply rbind_ret_inv in H;
             let a := fresh "a" in
             let E := fresh "E" in
             destruct H as (a & E & H); cbv beta in H
         | H : (if ?b then _ else _) = Ret _ |- _ => destruct b
         | H : Raise _ = Ret _ |- _ => discriminate H
         | H : Ret _ = Ret ?x |- _ => is_var x; injection H as <-
         end.

Lemma myvariant_set_coordinates_keys (m : pyval) (result result' : dict) :
  myvariant_set_coordinates m result = Ret result' ->
  located_keys result -> located_keys result'.
Proof.
  unfold myvariant_set_coordinates. intros H Hk. returned.
  now repeat apply located_keys_set.
Qed.

Lemma myvariant_coordinates_keys (hg19_data : pyval) (result result' : dict) :
  myvariant_coordinates hg19_data result = Ret result' ->
  located_keys result -> located_keys result'.
Proof.
  unfold myvariant_coordinates.
  destruct hg19_data as [| | | | [| first rest] | m];
    try (intros [= <-]; tauto); apply myvariant_set_coordinates_keys.
Qed.

Lemma myvariant_set_alleles_keys (dbsnp : pyval) (result result' : dict) :
  myvariant_set_alleles dbsnp result = Ret result' ->
  located_keys result -> located_keys result'.
Proof.
  unfold myvariant_set_alleles. intros H Hk.
  returned; now repeat apply located_keys_set.
Qed.

Lemma myvariant_fill_keys (rsid : string) (data : pyval) (result : dict) :
  myvariant_fill rsid data = Ret result -> located_keys result.
Proof.
  unfold myvariant_fill. intros H.
  returned; try discriminate; try apply located_keys_new.
  eapply myvariant_set_alleles_keys; [eassumption |].
  eapply myvariant_coordinates_keys; [eassumption |].
  apply located_keys_new.
Qed.

Lemma ensembl_set_mapping_keys (mapping : pyval) (result result' : dict) :
  ensembl_set_mapping mapping result = Ret result' ->
  located_keys result -> located_keys result'.
Proof.
  unfold ensembl_set_mapping. intros H Hk.
  returned;
    repeat match goal with
           | |- context [if ?b then _ else _] => destruct b
           end;
    now repeat apply located_keys_set.
Qed.

Lemma ensembl_fill_keys (rsid : string) (data : pyval) (result : dict) :
  ensembl_fill rsid data = Ret result -> located_keys result.
Proof.
  unfold ensembl_fill. intros H.
  returned; try discriminate; try apply located_keys_new.
  eapply ensembl_set_mapping_keys; [eassumption |].
  apply located_keys_new.
Qed.

(** ** Falsy coordinates *)

Lemma return_if_located_falsy (result : dict) :
  located_keys result ->
  Dict.get "chromosome" result = Some (PStr "")
  \/ Dict.get "position" result = Some (PInt 0) ->
  return_if_located result = Ret PNone.
Proof.
  intros [Hc Hp] H. unfold return_if_located, Py.getitem.
  unfold Dict.mem in Hc, Hp.
  destruct (Dict.get "chromosome" result) as [c |]; [| discriminate].
  destruct (Dict.get "position" result) as [p |]; [| discriminate].
  cbn [rbind].
  destruct H as [[= ->] | [= ->]]; [reflexivity |].
  now destruct (Py.truthy c).
Qed.

(** C10: the final check is by truth value.  When the record a parser
    has filled holds the empty string as chromosome, or the integer 0 as
    position, the resolver returns [None] - for service A and for service
    B - although neither field is [None] in that record. *)
Theorem falsy_coordinates_not_found
    (rsid : string) (net : network) (w : world) (data : pyval) (result : dict) :
  Dict.get "chromosome" result = Some (PStr "")
  \/ Dict.get "position" result = Some (PInt 0) ->
  (decoded (net (myvariant_request (normalize_rsid rsid)) (sent w)) = Some data ->
   myvariant_fill (normalize_rsid rsid) data = Ret result ->
   fst (get_hs37d5_loci_myvariant rsid net w) = Ret PNone)
  /\ (decoded (net (ensembl_request (normalize_rsid rsid)) (sent w)) = Some data ->
      ensembl_fill (normalize_rsid rsid) data = Ret result ->
      fst (get_hs37d5_loci_ensembl rsid net w) = Ret PNone).
Proof.
  intros Hfalsy. split; intros Hdec Hfill.
  - rewrite myvariant_run. cbv zeta. rewrite settle_outcome, Hdec.
    unfold myvariant_extract. rewrite Hfill. cbn [rbind].
    apply return_if_located_falsy; [| exact Hfalsy].
    eapply myvariant_fill_keys; eassumption.
  - rewrite ensembl_run. cbv zeta. rewrite settle_outcome, Hdec.
    unfold ensembl_extract. rewrite Hfill. cbn [rbind].
    apply return_if_located_falsy; [| exact Hfalsy].
    eapply ensembl_fill_keys; eassumption.
Qed.

Lemma falsy_coordinates_not_found_witness :
  fst (get_hs37d5_loci_myvariant "rs7412" (always (ok_body origin_myvariant)) fresh)
  = Ret PNone
  /\ fst (get_hs37d5_loci_ensembl "rs7412" (always (ok_body origin_ensembl)) fresh)
     = Ret PNone.
Proof.
  split.
  - apply (proj1 (falsy_coordinates_not_found "rs7412"
                    (always (ok_body origin_myvariant)) fresh origin_myvariant
                    [ ("rsid", PStr "rs7412"); ("chromosome", PStr "");
                      ("position", PInt 0); ("ref_allele", PNone);
                      ("alt_alleles", PList []); ("build", PStr "hs37d5") ]
                    (or_introl eq_refl)));
      reflexivity.
  - apply (proj2 (falsy_coordinates_not_found "rs7412"
                    (always (ok_body origin_ensembl)) fresh origin_ensembl
                    [ ("rsid", PStr "rs7412"); ("chromosome", PStr "1");
                      ("position", PInt 0); ("ref_allele", PNone);
                      ("alt_alleles", PList []); ("build", PStr "hs37d5") ]
                    (or_intror eq_refl)));
      reflexivity.
Defined.

(** ** Chromosome names *)

Lemma replace_absent (old new s : string) :
  Str.contains old s = false -> Str.replace s old new = s.
Proof.
  unfold Str.replace. induction s as [| c rest IH]; [reflexivity |].
  cbn [Str.contains Str.replace_from]. intros H.
  apply orb_false_iff in H. destruct H as [Hp Hrest]. rewrite Hp.
  now rewrite IH.
Qed.

(** A leading [chr] is removed when the rest of the name has no [chr]. *)
Lemma replace_chr_prefix (rest : string) :
  Str.contains "chr" rest = false -> Str.replace ("chr" ++ rest) "chr" "" = rest.
Proof.
  intros H. unfold Str.replace. cbn.
  destruct rest as [| c rest']; [reflexivity |].
  apply (replace_absent "chr" "" _ H).
Qed.

(** C8 at a name that holds [chr] without starting with it: both
    services store [scaffold_1] for [scaffold_chr1], where the claim
    leaves the name as it is. *)
Theorem chr_inside_name_removed :
  Str.startswith "scaffold_chr1" "chr" = false
  /\ fst (get_hs37d5_loci_myvariant "rs1" (always (ok_body scaffold_myvariant)) fresh)
     = Ret (PDict [ ("rsid", PStr "rs1"); ("chromosome", PStr "scaffold_1");
                    ("position", PInt 100); ("ref_allele", PNone);
                    ("alt_alleles", PList []); ("build", PStr "hs37d5") ])
  /\ fst (get_hs37d5_loci_ensembl "rs1" (always (ok_body scaffold_ensembl)) fresh)
     = Ret (PDict [ ("rsid", PStr "rs1"); ("chromosome", PStr "scaffold_1");
                    ("position", PInt 100); ("ref_allele", PStr "A");
                    ("alt_alleles", PList [PStr "C"; PStr "G"]);
                    ("build", PStr "hs37d5") ]).
Proof. repeat split. Qed.

(** ** The formatter *)

Lemma join_all_str (sep : string) (l : list pyval) (ss : list string) :
  Py.all_str l = Some ss -> Py.join sep (PList l) = Ret (Str.join sep ss).
Proof. intros H. unfold Py.join. now rewrite H. Qed.

(** The formatter on a record of the data model. *)
Lemma format_loci_record (d : dict) (style : string)
    (chrom pos : pyval) (alts : list string) :
  Dict.get "chromosome" d = Some chrom ->
  Dict.get "position" d = Some pos ->
  alternates d = Some alts ->
  format_loci (PDict d) style
  = Ret ((if String.eqb style "hs37d5" then compact else standard)
           chrom pos (reference_text d) (alternates_text alts)).
Proof.
  intros Hc Hp Ha. unfold format_loci.
  assert (Ht : Py.truthy (PDict d) = true) by (now destruct d).
  rewrite Ht. cbn [negb Py.getitem Py.get]. rewrite Hc, Hp. cbn [rbind].
  unfold alternates in Ha. unfold reference_text, alternates_text.
  assert (Hj : Py.join "," (match Dict.get "alt_alleles" d with
                            | Some x => x
                            | None => PList []
                            end) = Ret (Str.join "," alts)).
  { destruct (Dict.get "alt_alleles" d) as [[| | | | l |] |]; try discriminate.
    - now apply join_all_str.
    - now injection Ha as <-. }
  rewrite Hj. cbn [rbind Py.truthy].
  destruct (Dict.get "ref_allele" d) as [ref |];
    destruct (String.eqb (Str.join "," alts) "");
    destruct (String.eqb style "hs37d5"); reflexivity.
Qed.

(** The parts of C1 that hold: a record without the [ref_allele] key
    shows [N/A] for it, no alternates show as [N/A], several are joined
    by commas. *)
Lemma reference_text_missing (d : dict) :
  Dict.get "ref_allele" d = None -> reference_text d = "N/A".
Proof. unfold reference_text. now intros ->. Qed.

Lemma alternates_text_empty : alternates_text [] = "N/A".
Proof. reflexivity. Qed.

Lemma alternates_text_joined (a b : string) (rest : list string) :
  alternates_text (a :: b :: rest) = a ++ "," ++ Str.join "," (b :: rest).
Proof.
  unfold alternates_text. cbn [Str.join].
  destruct a as [| c a']; reflexivity.
Qed.

(** C1 at a record of the resolver: service A sends coordinates and no
    reference allele, the record holds [None] under [ref_allele] (the key
    is always there), and both styles print [None] where the claim has
    [N/A]. *)
Theorem unset_reference_prints_None :
  fst (get_hs37d5_loci_myvariant "rs429358" (always (ok_body apoe_myvariant)) fresh)
  = Ret (apoe_record "rs429358")
  /\ Py.getitem (apoe_record "rs429358") "ref_allele" = Ret PNone
  /\ format_loci (apoe_record "rs429358") "hs37d5" = Ret "19:45411941 (None/C)"
  /\ format_loci (apoe_record "rs429358") "standard"
     = Ret "chr19:45411941 (None/C)".
Proof. repeat split. Qed.

(** C9: a style other than [hs37d5] is never refused: the formatter does
    with it what it does with [standard], on any value, and on a record
    of the data model that is the layout with the [chr] prefix. *)
Theorem unknown_style_is_standard (style : string) (d : dict) :
  String.eqb style "hs37d5" = false ->
  locus_record d = true ->
  (forall loci, format_loci loci style = format_loci loci "standard")
  /\ exists chrom pos alts,
       Dict.get "chromosome" d = Some chrom
       /\ Dict.get "position" d = Some pos
       /\ alternates d = Some alts
       /\ format_loci (PDict d) style
          = Ret ("chr" ++ Py.str chrom ++ ":" ++ Py.str pos
                   ++ " (" ++ reference_text d ++ "/" ++ alternates_text alts ++ ")").
Proof.
  intros Hstyle Hrec. split.
  - intros loci. unfold format_loci. rewrite Hstyle. reflexivity.
  - unfold locus_record, Dict.mem in Hrec.
    destruct (Dict.get "chromosome" d) as [chrom |] eqn:Hc; [| discriminate].
    destruct (Dict.get "position" d) as [pos |] eqn:Hp; [| discriminate].
    destruct (alternates d) as [alts |] eqn:Ha; [| discriminate].
    exists chrom, pos, alts. repeat split.
    rewrite (format_loci_record d style chrom pos alts Hc Hp Ha), Hstyle.
    reflexivity.
Qed.

Lemma unknown_style_is_standard_witness :
  format_loci
    (PDict [ ("rsid", PStr "rs1"); ("chromosome", PStr "1"); ("position", PInt 100);
             ("ref_allele", PStr "A"); ("alt_alleles", PList [PStr "C"]);
             ("build", PStr "hs37d5") ]) "ucsc"
  = format_loci
      (PDict [ ("rsid", PStr "rs1"); ("chromosome", PStr "1"); ("position", PInt 100);
               ("ref_allele", PStr "A"); ("alt_alleles", PList [PStr "C"]);
               ("build", PStr "hs37d5") ]) "standard".
Proof.
  apply (proj1 (unknown_style_is_standard "ucsc"
                  [ ("rsid", PStr "rs1"); ("chromosome", PStr "1");
                    ("position", PInt 100); ("ref_allele", PStr "A");
                    ("alt_alleles", PList [PStr "C"]); ("build", PStr "hs37d5") ]
                  eq_refl eq_refl)).
Defined.

(** The two renderings the specification gives as a test. *)
Example format_loci_sample :
  let record := PDict [ ("chromosome", PStr "1"); ("position", PInt 100);
                        ("ref_allele", PStr "A"); ("alt_alleles", PList [PStr "C"]) ] in
  format_loci record "hs37d5" = Ret "1:100 (A/C)"
  /\ format_loci record "standard" = Ret "chr1:100 (A/C)"
  /\ format_loci PNone "hs37d5" = Ret "Not found".
Proof. repeat split. Qed.

(** ** Lookups read the request count only *)

Lemma framed_ret {A} (a : A) : framed (ret a).
Proof. intros net w w' H. now split. Qed.

Lemma framed_raise {A} (e : exn) : framed (@raise A e).
Proof. intros net w w' H. now split. Qed.

Lemma framed_bind {A B} (m : M A) (k : A -> M B) :
  framed m -> (forall a, framed (k a)) -> framed (bind m k).
Proof.
  intros Hm Hk net w w' H. unfold bind.
  destruct (Hm net w w' H) as [Ho Hs].
  destruct (m net w) as [[a | e] w1], (m net w') as [[a' | e'] w1'];
    simpl in Ho, Hs; try discriminate.
  - injection Ho as <-. now apply Hk.
  - injection Ho as <-. now split.
Qed.

Lemma myvariant_outcome (rsid : string) (net : network) (w : world) :
  fst (get_hs37d5_loci_myvariant rsid net w)
  = match decoded (net (myvariant_request (normalize_rsid rsid)) (sent w)) with
    | Some data => myvariant_extract (normalize_rsid rsid) data
    | None =>
        match escaping (net (myvariant_request (normalize_rsid rsid)) (sent w)) with
        | Some e => Raise e
        | None => Ret PNone
        end
    end
  /\ sent (snd (get_hs37d5_loci_myvariant rsid net w)) = S (sent w).
Proof.
  rewrite myvariant_run. cbv zeta. now rewrite settle_outcome, settle_sent.
Qed.

Lemma ensembl_outcome (rsid : string) (net : network) (w : world) :
  fst (get_hs37d5_loci_ensembl rsid net w)
  = match decoded (net (ensembl_request (normalize_rsid rsid)) (sent w)) with
    | Some data => ensembl_extract (normalize_rsid rsid) data
    | None =>
        match escaping (net (ensembl_request (normalize_rsid rsid)) (sent w)) with
        | Some e => Raise e
        | None => Ret PNone
        end
    end
  /\ sent (snd (get_hs37d5_loci_ensembl rsid net w)) = S (sent w).
Proof.
  rewrite ensembl_run. cbv zeta. now rewrite settle_outcome, settle_sent.
Qed.

Lemma framed_myvariant (rsid : string) : framed (get_hs37d5_loci_myvariant rsid).
Proof.
  intros net w w' H.
  destruct (myvariant_outcome rsid net w) as [-> ->].
  destruct (myvariant_outcome rsid net w') as [-> ->].
  now rewrite H.
Qed.

Lemma framed_ensembl (rsid : string) : framed (get_hs37d5_loci_ensembl rsid).
Proof.
  intros net w w' H.
  destruct (ensembl_outcome rsid net w) as [-> ->].
  destruct (ensembl_outcome rsid net w') as [-> ->].
  now rewrite H.
Qed.

Lemma framed_get_hs37d5_loci (rsid method : string) :
  framed (get_hs37d5_loci rsid method).
Proof.
  unfold get_hs37d5_loci.
  destruct (String.eqb method "myvariant"); [apply framed_myvariant |].
  destruct (String.eqb method "ensembl"); [apply framed_ensembl |].
  destruct (String.eqb method "auto"); [| apply framed_raise].
  apply framed_bind; [apply framed_myvariant |].
  intros result. destruct (is_None result);
    [apply framed_ensembl | apply framed_ret].
Qed.

(** ** Lookups over documented services return *)

Lemma myvariant_returns (rsid : string) (net : network) (w : world) :
  documented net -> decodable net ->
  exists v w', get_hs37d5_loci_myvariant rsid net w = (Ret v, w')
               /\ (v = PNone \/ fully_populated v = true).
Proof.
  intros Hdoc Hdec. destruct (myvariant_outcome rsid net w) as [Ho _].
  destruct (Hdoc (normalize_rsid rsid) (sent w)) as [Hs _].
  pose proof (settled_returns myvariant_shape
                (myvariant_extract (normalize_rsid rsid)) _
                (myvariant_extract_returns _) (myvariant_extract_full _) Hs
                (Hdec _ _)) as Hr.
  rewrite <- Ho in Hr. destruct Hr as (v & Hv & Hfull).
  destruct (get_hs37d5_loci_myvariant rsid net w) as [o w']. simpl in Hv.
  subst o. eauto.
Qed.

Lemma ensembl_returns (rsid : string) (net : network) (w : world) :
  documented net -> decodable net ->
  exists v w', get_hs37d5_loci_ensembl rsid net w = (Ret v, w')
               /\ (v = PNone \/ fully_populated v = true).
Proof.
  intros Hdoc Hdec. destruct (ensembl_outcome rsid net w) as [Ho _].
  destruct (Hdoc (normalize_rsid rsid) (sent w)) as [_ Hs].
  pose proof (settled_returns ensembl_shape
                (ensembl_extract (normalize_rsid rsid)) _
                (ensembl_extract_returns _) (ensembl_extract_full _) Hs
                (Hdec _ _)) as Hr.
  rewrite <- Ho in Hr. destruct Hr as (v & Hv & Hfull).
  destruct (get_hs37d5_loci_ensembl rsid net w) as [o w']. simpl in Hv.
  subst o. eauto.
Qed.

Lemma get_hs37d5_loci_returns (rsid method : string) (net : network) (w : world) :
  recognized method = true -> documented net -> decodable net ->
  exists v w', get_hs37d5_loci rsid method net w = (Ret v, w')
               /\ (v = PNone \/ fully_populated v = true).
Proof.
  intros Hm Hdoc Hdec. unfold recognized in Hm. unfold get_hs37d5_loci.
  destruct (String.eqb method "myvariant"); [now apply myvariant_returns |].
  destruct (String.eqb method "ensembl"); [now apply ensembl_returns |].
  destruct (String.eqb method "auto"); [| discriminate].
  unfold bind.
  destruct (myvariant_returns (normalize_rsid rsid) net w Hdoc Hdec)
    as (v & w1 & -> & Hv).
  destruct v; cbn [is_None ret]; try (now apply ensembl_returns);
    eexists; exists w1; (split; [reflexivity | exact Hv]).
Qed.

(** ** The batch runner *)

Lemma get_collect (k : string) (outs : list (string * pyval)) (results : dict) :
  Dict.get k (collect outs results)
  = match last_found k outs with
    | Some v => Some v
    | None => Dict.get k results
    end.
Proof.
  revert results. induction outs as [| [k' v] rest IH]; intros results;
    [reflexivity |].
  cbn [collect last_found]. rewrite IH.
  destruct (last_found k rest) as [v' |]; [reflexivity |].
  destruct (Py.truthy v); [| now rewrite andb_false_r].
  rewrite andb_true_r. destruct (String.eqb k k') eqn:E.
  - apply String.eqb_eq in E. subst k'. apply get_set_eq.
  - now apply get_set_ne.
Qed.

Lemma last_found_some (k : string) (outs : list (string * pyval)) (v : pyval) :
  last_found k outs = Some v -> In (k, v) outs /\ Py.truthy v = true.
Proof.
  induction outs as [| [k' v'] rest IH]; [discriminate |].
  cbn [last_found]. destruct (last_found k rest) as [v0 |].
  - intros [= ->]. destruct (IH eq_refl) as [Hin Ht]. split; [now right | exact Ht].
  - destruct (String.eqb k k') eqn:E; [| discriminate].
    destruct (Py.truthy v') eqn:T; [| discriminate].
    intros [= ->]. apply String.eqb_eq in E. subst k'.
    split; [now left | exact T].
Qed.

Lemma last_found_none (k : string) (outs : list (string * pyval)) :
  last_found k outs = None <-> forall v, In (k, v) outs -> Py.truthy v = false.
Proof.
  induction outs as [| [k' v'] rest IH]; [now split |].
  cbn [last_found]. destruct (last_found k rest) as [v0 |] eqn:L.
  - split; [discriminate |]. intros H.
    destruct (last_found_some k rest v0 L) as [Hin Ht].
    rewrite (H v0 (or_intror Hin)) in Ht. discriminate.
  - destruct IH as [IH _]. specialize (IH eq_refl).
    destruct (String.eqb k k') eqn:E.
    + apply String.eqb_eq in E. subst k'.
      destruct (Py.truthy v') eqn:T; cbn [andb].
      * split; [discriminate |]. intros H.
        rewrite (H v' (or_introl eq_refl)) in T. discriminate.
      * split; [| reflexivity]. intros _ v [[= <-] | Hin]; auto.
    + cbn [andb]. split; [| reflexivity].
      intros _ v [[= <- <-] | Hin]; [| now apply IH].
      now rewrite String.eqb_refl in E.
Qed.

(** What a lookup returns is [None] or a fully populated record,
    whatever the services answer. *)
Lemma myvariant_full (rsid : string) (net : network) (w w' : world) (v : pyval) :
  get_hs37d5_loci_myvariant rsid net w = (Ret v, w') ->
  v = PNone \/ fully_populated v = true.
Proof.
  intros H. destruct (myvariant_outcome rsid net w) as [Ho _].
  rewrite H in Ho. cbn [fst] in Ho.
  pose proof (settled_outcome (myvariant_extract (normalize_rsid rsid))
                (net (myvariant_request (normalize_rsid rsid)) (sent w))
                (myvariant_extract_dynamic _) (myvariant_extract_full _)) as Hs.
  rewrite <- Ho in Hs. exact Hs.
Qed.

Lemma ensembl_full (rsid : string) (net : network) (w w' : world) (v : pyval) :
  get_hs37d5_loci_ensembl rsid net w = (Ret v, w') ->
  v = PNone \/ fully_populated v = true.
Proof.
  intros H. destruct (ensembl_outcome rsid net w) as [Ho _].
  rewrite H in Ho. cbn [fst] in Ho.
  pose proof (settled_outcome (ensembl_extract (normalize_rsid rsid))
                (net (ensembl_request (normalize_rsid rsid)) (sent w))
                (ensembl_extract_dynamic _) (ensembl_extract_full _)) as Hs.
  rewrite <- Ho in Hs. exact Hs.
Qed.

Lemma get_hs37d5_loci_full
    (rsid method : string) (net : network) (w w' : world) (v : pyval) :
  get_hs37d5_loci rsid method net w = (Ret v, w') ->
  v = PNone \/ fully_populated v = true.
Proof.
  unfold get_hs37d5_loci.
  destruct (String.eqb method "myvariant"); [apply myvariant_full |].
  destruct (String.eqb method "ensembl"); [apply ensembl_full |].
  destruct (String.eqb method "auto"); [| discriminate].
  unfold bind.
  destruct (get_hs37d5_loci_myvariant (normalize_rsid rsid) net w)
    as [[r | e] w1] eqn:Ha; [| discriminate].
  destruct (is_None r); [apply ensembl_full |].
  intros [= <- <-]. exact (myvariant_full _ _ _ _ _ Ha).
Qed.

Lemma lookup_outcomes_full (method : string) (net : network) (rsids : list string) :
  forall n k v,
    In (k, v) (lookup_outcomes method net n rsids) ->
    v = PNone \/ fully_populated v = true.
Proof.
  induction rsids as [| rsid rest IH]; intros n k v; [intros [] |].
  cbn [lookup_outcomes].
  destruct (get_hs37d5_loci (normalize_rsid rsid) method net
              {| sent := n; trace := [] |}) as [[x | e] w1] eqn:Hrun; [| intros []].
  intros [[= <- <-] | Hin].
  - exact (get_hs37d5_loci_full _ _ _ _ _ _ Hrun).
  - exact (IH _ _ _ Hin).
Qed.

(** One turn of the loop whose lookup returned [v] in the world [w1]. *)
Lemma batch_loop_step
    (n i : nat) (rsid : string) (rest : list string) (delay : Q) (method : string)
    (results : dict) (net : network) (w w1 : world) (v : pyval) :
  get_hs37d5_loci (normalize_rsid rsid) method net w = (Ret v, w1) ->
  batch_loop n i (rsid :: rest) delay method results net w
  = batch_loop n (S i) rest delay method
      (if Py.truthy v then Dict.set (normalize_rsid rsid) v results else results)
      net
      (let w2 := if Py.truthy v then w1
                 else log (EPrint ("Could not find coordinates for "
                                     ++ normalize_rsid rsid)) w1 in
       if negb (Qle_bool delay 0) && (i <? n - 1)%nat
       then log (ESleep delay) w2 else w2).
Proof.
  intros Hrun. cbn [batch_loop]. unfold bind at 1. rewrite Hrun.
  unfold bind, ret, print, sleep. cbv zeta.
  destruct (Py.truthy v);
    destruct (negb (Qle_bool delay 0) && (i <? n - 1)%nat); reflexivity.
Qed.

(** The loop, whatever the services answer: it goes through the whole
    list and returns what the lookups collected, or it stops at the first
    lookup that raises, with the exception and in the world of that
    lookup. *)
Lemma batch_loop_runs (n : nat) (rsids : list string) :
  forall (i : nat) (delay : Q) (method : string) (results : dict)
         (net : network) (w : world),
    (exists w',
        batch_loop n i rsids delay method results net w
        = (Ret (collect (lookup_outcomes method net (sent w) rsids) results), w')
        /\ map fst (lookup_outcomes method net (sent w) rsids)
           = map normalize_rsid rsids)
    \/ (exists done rsid rest e w1 w2,
           rsids = (done ++ rsid :: rest)%list
           /\ map fst (lookup_outcomes method net (sent w) rsids)
              = map normalize_rsid done
           /\ batch_loop n i done delay method results net w
              = (Ret (collect (lookup_outcomes method net (sent w) rsids) results), w1)
           /\ get_hs37d5_loci (normalize_rsid rsid) method net w1 = (Raise e, w2)
           /\ batch_loop n i rsids delay method results net w = (Raise e, w2)).
Proof.
  induction rsids as [| rsid rest IH]; intros i delay method results net w.
  - left. exists w. split; reflexivity.
  - set (key := normalize_rsid rsid).
    set (w0 := {| sent := sent w; trace := [] |}).
    destruct (framed_get_hs37d5_loci key method net w w0 eq_refl) as [Ho Hs].
    assert (Hout : lookup_outcomes method net (sent w) (rsid :: rest)
                   = match get_hs37d5_loci key method net w0 with
                     | (Ret v, w1') =>
                         (key, v) :: lookup_outcomes method net (sent w1') rest
                     | (Raise _, _) => []
                     end) by reflexivity.
    destruct (get_hs37d5_loci key method net w) as [[v | e] w1] eqn:Hrun;
      destruct (get_hs37d5_loci key method net w0) as [[v0 | e0] w1'];
      cbn [fst snd] in Ho, Hs; try discriminate Ho.
    + injection Ho as <-. rewrite Hout.
      pose proof (batch_loop_step n i rsid) as Hstep. fold key in Hstep.
      set (results1 := if Py.truthy v then Dict.set key v results else results).
      set (w3 := let w2 := if Py.truthy v then w1
                           else log (EPrint ("Could not find coordinates for "
                                               ++ key)) w1 in
                 if negb (Qle_bool delay 0) && (i <? n - 1)%nat
                 then log (ESleep delay) w2 else w2).
      assert (Hs3 : sent w3 = sent w1').
      { unfold w3. cbv zeta. rewrite <- Hs.
        destruct (negb (Qle_bool delay 0) && (i <? n - 1)%nat), (Py.truthy v);
          reflexivity. }
      destruct (IH (S i) delay method results1 net w3)
        as [(w' & Hloop & Hkeys)
           | (done & r & rest' & e & wa & wb & Hsplit & Hkeys & Hdone & Hraise & Hloop)];
        rewrite Hs3 in *.
      * left. exists w'. split.
        -- rewrite (Hstep rest delay method results net w w1 v Hrun).
           exact Hloop.
        -- cbn [map fst]. now rewrite Hkeys.
      * right. exists (rsid :: done), r, rest', e, wa, wb.
        split; [now rewrite Hsplit |]. split; [cbn [map fst]; now rewrite Hkeys |].
        split; [| split].
        -- rewrite (Hstep done delay method results net w w1 v Hrun).
           exact Hdone.
        -- exact Hraise.
        -- rewrite (Hstep rest delay method results net w w1 v Hrun).
           exact Hloop.
    + right. exists [], rsid, rest, e, w, w1. rewrite Hout.
      repeat split.
      * exact Hrun.
      * cbn [batch_loop]. fold key. unfold bind at 1. now rewrite Hrun.
Qed.

Lemma collected (outs : list (string * pyval)) :
  (forall k v, In (k, v) outs -> v = PNone \/ fully_populated v = true) ->
  (forall k, Dict.get k (collect outs []) = last_found k outs)
  /\ (forall k, Dict.mem k (collect outs []) = true <->
                exists v, In (k, v) outs /\ Py.truthy v = true)
  /\ (forall k v, Dict.get k (collect outs []) = Some v ->
                  In (k, v) outs /\ fully_populated v = true).
Proof.
  intros Hrec.
  assert (Hget : forall k, Dict.get k (collect outs []) = last_found k outs).
  { intros k. rewrite get_collect. now destruct (last_found k outs). }
  split; [exact Hget |]. split.
  - intros k. unfold Dict.mem. rewrite Hget. split.
    + destruct (last_found k outs) as [v |] eqn:L; [| discriminate].
      intros _. exists v. now apply last_found_some.
    + intros (v & Hin & Ht).
      destruct (last_found k outs) as [v0 |] eqn:L; [reflexivity |].
      rewrite (proj1 (last_found_none k outs) L v Hin) in Ht. discriminate.
  - intros k v H. rewrite Hget in H. apply last_found_some in H.
    destruct H as [Hin Ht]. split; [exact Hin |].
    destruct (Hrec k v Hin) as [-> | Hf]; [discriminate | exact Hf].
Qed.

(** C5, as the code has it.  Whatever the services answer, the batch
    runner looks the identifiers up in order under their normalized
    names, and either returns the mapping collected from all the lookups
    or stops at the first lookup that raises: that exception leaves the
    batch runner in the world that lookup left, and the identifiers after
    it are not looked up.  In the mapping collected, a key is there
    exactly when some lookup of it found a record, it holds the record of
    the last such lookup, and that record is fully populated.  With a
    recognized method, bodies of the documented shape - requests may
    fail, be answered with an error status or with something that is not
    JSON - and a decoder that raises nothing but its [JSONDecodeError],
    the batch runner returns. *)
Theorem batch_collects_found
    (rsid_list : list string) (delay : Q) (method : string)
    (net : network) (w : world) :
  let outs := lookup_outcomes method net (sent w) rsid_list in
  let results := collect outs [] in
  ((exists w',
       batch_get_loci rsid_list delay method net w = (Ret results, w')
       /\ map fst outs = map normalize_rsid rsid_list)
   \/ (exists done rsid rest e w1 w2,
          rsid_list = (done ++ rsid :: rest)%list
          /\ map fst outs = map normalize_rsid done
          /\ batch_loop (List.length rsid_list) 0 done delay method [] net w
             = (Ret results, w1)
          /\ get_hs37d5_loci (normalize_rsid rsid) method net w1 = (Raise e, w2)
          /\ batch_get_loci rsid_list delay method net w = (Raise e, w2)))
  /\ (forall k, Dict.get k results = last_found k outs)
  /\ (forall k, Dict.mem k results = true <->
                exists v, In (k, v) outs /\ Py.truthy v = true)
  /\ (forall k v, Dict.get k results = Some v ->
                  In (k, v) outs /\ fully_populated v = true)
  /\ (recognized method = true -> documented net -> decodable net ->
      exists w',
        batch_get_loci rsid_list delay method net w = (Ret results, w')
        /\ map fst outs = map normalize_rsid rsid_list).
Proof.
  intros outs results. unfold batch_get_loci.
  pose proof (batch_loop_runs (List.length rsid_list) rsid_list 0 delay method
                [] net w) as Hruns.
  fold outs in Hruns. fold results in Hruns.
  destruct (collected outs (lookup_outcomes_full method net rsid_list (sent w)))
    as (Hget & Hmem & Hfull).
  split; [exact Hruns |]. split; [exact Hget |]. split; [exact Hmem |].
  split; [exact Hfull |].
  intros Hm Hdoc Hdec.
  destruct Hruns as [Hall | (done & rsid & rest & e & w1 & w2 & _ & _ & _ & Hraise & _)];
    [exact Hall |].
  destruct (get_hs37d5_loci_returns (normalize_rsid rsid) method net w1 Hm Hdoc Hdec)
    as (v & w' & Hrun & _).
  rewrite Hrun in Hraise. discriminate Hraise.
Qed.

Lemma only_rs1_documented : documented only_rs1.
Proof.
  intros rsid n. unfold only_rs1. split.
  - destruct (String.eqb (url (myvariant_request rsid)) _); reflexivity.
  - destruct (String.eqb (url (ensembl_request rsid)) _); reflexivity.
Qed.

Lemma only_rs1_decodable : decodable only_rs1.
Proof.
  intros req n. unfold only_rs1.
  destruct (String.eqb (url req) _); reflexivity.
Qed.

Lemma batch_collects_found_witness :
  recognized "myvariant" = true
  /\ exists w',
       batch_get_loci ["1"; "rs2"] (2 # 10) "myvariant" only_rs1 fresh
       = (Ret (collect (lookup_outcomes "myvariant" only_rs1 (sent fresh)
                          ["1"; "rs2"]) []), w')
       /\ map fst (lookup_outcomes "myvariant" only_rs1 (sent fresh) ["1"; "rs2"])
          = map normalize_rsid ["1"; "rs2"].
Proof.
  split; [reflexivity |].
  apply (proj2 (proj2 (proj2 (proj2
           (batch_collects_found ["1"; "rs2"] (2 # 10) "myvariant" only_rs1 fresh)))));
    [reflexivity | exact only_rs1_documented | exact only_rs1_decodable].
Defined.

(** The batch of the specification's test: rs1 is found, rs2 is not; the
    mapping holds rs1 only and the run prints the line for rs2. *)
Example batch_rs1_rs2 :
  batch_get_loci ["rs1"; "rs2"] (2 # 10) "myvariant" only_rs1 fresh
  = (Ret [ ("rs1", apoe_record "rs1") ],
     {| sent := 2;
        trace := [ EGet (myvariant_request "rs1");
                   ESleep (2 # 10);
                   EGet (myvariant_request "rs2");
                   EPrint "Could not find coordinates for rs2" ] |}).
Proof. reflexivity. Qed.

(** C5 as stated fails twice.  A body that is JSON and not shaped as the
    parser expects stops the batch at its first identifier with an
    [AttributeError]; and an identifier listed twice, found the first
    time and not the second, stays in the mapping. *)
Lemma batch_stops_or_keeps :
  fst (batch_get_loci ["rs1"; "rs2"] (2 # 10) "myvariant"
         (always (ok_body hg19_of_numbers)) fresh) = Raise AttributeError
  /\ lookup_outcomes "myvariant" first_only 0 ["rs1"; "rs1"]
     = [ ("rs1", apoe_record "rs1"); ("rs1", PNone) ]
  /\ fst (batch_get_loci ["rs1"; "rs1"] (2 # 10) "myvariant" first_only fresh)
     = Ret [ ("rs1", apoe_record "rs1") ].
Proof. repeat split. Qed.

(** * Further properties *)

(** ** The fields of a record *)

Lemma new_result_record (rsid : string) :
  new_result rsid = record_of rsid PNone PNone PNone (PList []).
Proof. reflexivity. Qed.

Lemma myvariant_set_coordinates_form
    (m : pyval) (rsid : string) (c p ref alts : pyval) (r : dict) :
  myvariant_set_coordinates m (record_of rsid c p ref alts) = Ret r ->
  exists s p',
    r = record_of rsid (PStr s) p' ref alts
    /\ Py.get m "chr" (PStr "") = Ret (or_default (match m with
                                                   | PDict d => Dict.get "chr" d
                                                   | _ => None
                                                   end) (PStr ""))
    /\ s = Str.replace (Py.str (or_default (match m with
                                            | PDict d => Dict.get "chr" d
                                            | _ => None
                                            end) (PStr ""))) "chr" ""
    /\ p' = or_default (match m with
                        | PDict d => Dict.get "start" d
                        | _ => None
                        end) PNone.
Proof.
  unfold myvariant_set_coordinates.
  destruct m as [| | | | | d]; try discriminate.
  cbn [Py.get Py.replace rbind]. intros [= <-].
  eexists. eexists. repeat split.
Qed.

Lemma myvariant_coordinates_form
    (hg19_data : pyval) (rsid : string) (c p ref alts : pyval) (r : dict) :
  myvariant_coordinates hg19_data (record_of rsid c p ref alts) = Ret r ->
  none_or_str c = true ->
  exists c' p', r = record_of rsid c' p' ref alts /\ none_or_str c' = true.
Proof.
  unfold myvariant_coordinates. intros H Hc.
  destruct hg19_data as [| | | | [| first rest] | m];
    try (injection H as <-; exists c, p; now split);
    apply myvariant_set_coordinates_form in H;
    destruct H as (s & p' & -> & _); exists (PStr s), p'; now split.
Qed.

Lemma myvariant_set_alleles_form
    (dbsnp : pyval) (rsid : string) (c p ref alts : pyval) (r : dict) :
  myvariant_set_alleles dbsnp (record_of rsid c p ref alts) = Ret r ->
  exists ref' alts', r = record_of rsid c p ref' alts'.
Proof.
  unfold myvariant_set_alleles. intros H.
  returned; unfold record_of; cbn [Dict.set String.eqb Ascii.eqb Bool.eqb];
    eexists; eexists; reflexivity.
Qed.

Lemma myvariant_fill_form (rsid : string) (data : pyval) (r : dict) :
  myvariant_fill rsid data = Ret r ->
  exists c p ref alts, r = record_of rsid c p ref alts /\ none_or_str c = true.
Proof.
  unfold myvariant_fill. rewrite new_result_record. intros H.
  returned; try discriminate;
    try (exists PNone, PNone, PNone, (PList []); now split).
  match goal with
  | E : myvariant_coordinates _ _ = Ret _ |- _ =>
      apply myvariant_coordinates_form in E; [| reflexivity];
      destruct E as (c' & p' & -> & Hc)
  end.
  apply myvariant_set_alleles_form in H. destruct H as (ref' & alts' & ->).
  eauto 6.
Qed.

Lemma map_PStr_tl (l : list string) : tl (map PStr l) = map PStr (tl l).
Proof. now destruct l. Qed.

Lemma ensembl_set_mapping_form
    (mapping : pyval) (rsid : string) (c p ref : pyval) (ss : list string) (r : dict) :
  ensembl_set_mapping mapping (record_of rsid c p ref (PList (map PStr ss))) = Ret r ->
  none_or_str ref = true ->
  exists s p' ref' ss',
    r = record_of rsid (PStr s) p' ref' (PList (map PStr ss'))
    /\ none_or_str ref' = true.
Proof.
  unfold ensembl_set_mapping. intros H Href.
  destruct mapping as [| | | | | m]; try discriminate.
  cbn [Py.get Py.contains Py.getitem rbind] in H. unfold Dict.mem in H.
  destruct (Dict.get "seq_region_name" m) as [[| | | name | |] |];
    try discriminate;
    cbn [Py.replace rbind] in H;
    (destruct (Dict.get "allele_string" m) as [[| | | text | |] |];
     try discriminate; cbn [Py.split rbind] in H;
     [ destruct (Str.split "/" text) as [| first [| second others]];
       cbn [map List.length Nat.ltb Nat.leb hd tl] in H;
       injection H as <-
     | injection H as <- ]);
    unfold record_of; cbn [Dict.set String.eqb Ascii.eqb Bool.eqb];
    try (eexists; eexists; eexists; exists ss; split; [reflexivity | assumption]);
    try (eexists; eexists; eexists; exists ss; split; reflexivity);
    try (eexists; eexists; eexists; exists (second :: others);
         split; reflexivity).
Qed.

Lemma ensembl_fill_form (rsid : string) (data : pyval) (r : dict) :
  ensembl_fill rsid data = Ret r ->
  exists c p ref ss,
    r = record_of rsid c p ref (PList (map PStr ss))
    /\ none_or_str c = true /\ none_or_str ref = true.
Proof.
  unfold ensembl_fill. rewrite new_result_record. intros H.
  returned; try discriminate;
    try (exists PNone, PNone, PNone, []; now repeat split).
  apply (ensembl_set_mapping_form _ rsid PNone PNone PNone []) in H;
    [| reflexivity].
  destruct H as (s & p' & ref' & ss' & -> & Href).
  exists (PStr s), p', ref', ss'. now repeat split.
Qed.

Lemma return_if_located_record
    (rsid : string) (c p ref alts : pyval) (d : dict) :
  return_if_located (record_of rsid c p ref alts) = Ret (PDict d) ->
  d = record_of rsid c p ref alts /\ Py.truthy c = true /\ Py.truthy p = true.
Proof.
  unfold return_if_located. cbn [Py.getitem record_of Dict.get String.eqb
                                 Ascii.eqb Bool.eqb rbind].
  destruct (Py.truthy c); [| discriminate].
  destruct (Py.truthy p); [| discriminate].
  now intros [= <-].
Qed.

Lemma truthy_none_or_str (c : pyval) :
  Py.truthy c = true -> none_or_str c = true -> exists s, c = PStr s /\ s <> "".
Proof.
  destruct c as [| | | s | |]; try discriminate. intros Ht _.
  exists s. split; [reflexivity |]. intros ->. discriminate.
Qed.

Lemma myvariant_extract_record (rsid : string) (data : pyval) (d : dict) :
  myvariant_extract rsid data = Ret (PDict d) ->
  exists s p ref alts,
    d = record_of rsid (PStr s) p ref alts /\ s <> "" /\ Py.truthy p = true.
Proof.
  unfold myvariant_extract. intros H.
  apply rbind_ret_inv in H. destruct H as (r & Hfill & H).
  apply myvariant_fill_form in Hfill.
  destruct Hfill as (c & p & ref & alts & -> & Hc).
  apply return_if_located_record in H. destruct H as (-> & Tc & Tp).
  destruct (truthy_none_or_str c Tc Hc) as (s & -> & Hs). eauto 8.
Qed.

Lemma ensembl_extract_record (rsid : string) (data : pyval) (d : dict) :
  ensembl_extract rsid data = Ret (PDict d) ->
  exists s p ref ss,
    d = record_of rsid (PStr s) p ref (PList (map PStr ss))
    /\ s <> "" /\ Py.truthy p = true /\ none_or_str ref = true.
Proof.
  unfold ensembl_extract. intros H.
  apply rbind_ret_inv in H. destruct H as (r & Hfill & H).
  apply ensembl_fill_form in Hfill.
  destruct Hfill as (c & p & ref & ss & -> & Hc & Href).
  apply return_if_located_record in H. destruct H as (-> & Tc & Tp).
  destruct (truthy_none_or_str c Tc Hc) as (s & -> & Hs). eauto 10.
Qed.

Lemma myvariant_returned_record (rsid : string) (net : network) (w : world) (d : dict) :
  fst (get_hs37d5_loci_myvariant rsid net w) = Ret (PDict d) ->
  exists s p ref alts,
    d = record_of (normalize_rsid rsid) (PStr s) p ref alts
    /\ s <> "" /\ Py.truthy p = true.
Proof.
  destruct (myvariant_outcome rsid net w) as [-> _].
  destruct (decoded _) as [data |]; [| destruct (escaping _); discriminate].
  apply myvariant_extract_record.
Qed.

Lemma ensembl_returned_record (rsid : string) (net : network) (w : world) (d : dict) :
  fst (get_hs37d5_loci_ensembl rsid net w) = Ret (PDict d) ->
  exists s p ref ss,
    d = record_of (normalize_rsid rsid) (PStr s) p ref (PList (map PStr ss))
    /\ s <> "" /\ Py.truthy p = true /\ none_or_str ref = true.
Proof.
  destruct (ensembl_outcome rsid net w) as [-> _].
  destruct (decoded _) as [data |]; [| destruct (escaping _); discriminate].
  apply ensembl_extract_record.
Qed.

(** Whatever the services answer, a record returned by a single-service
    resolver has the six fields in their fixed order, the normalized
    identifier under [rsid], [hs37d5] under [build], a non-empty string
    as chromosome and a truthy position. *)
Theorem returned_record_fields
    (rsid : string) (net : network) (w : world) (d : dict) :
  fst (get_hs37d5_loci_myvariant rsid net w) = Ret (PDict d)
  \/ fst (get_hs37d5_loci_ensembl rsid net w) = Ret (PDict d) ->
  exists s p ref alts,
    d = [ ("rsid", PStr (normalize_rsid rsid)); ("chromosome", PStr s);
          ("position", p); ("ref_allele", ref); ("alt_alleles", alts);
          ("build", PStr "hs37d5") ]
    /\ s <> "" /\ Py.truthy p = true.
Proof.
  intros [H | H].
  - apply myvariant_returned_record in H. exact H.
  - apply ensembl_returned_record in H.
    destruct H as (s & p & ref & ss & -> & Hs & Hp & _).
    exists s, p, ref, (PList (map PStr ss)). now repeat split.
Qed.

Lemma returned_record_fields_witness :
  exists s p ref alts,
    [ ("rsid", PStr "rs429358"); ("chromosome", PStr "19");
      ("position", PInt 45411941); ("ref_allele", PNone);
      ("alt_alleles", PList [PStr "C"]); ("build", PStr "hs37d5") ]
    = [ ("rsid", PStr (normalize_rsid "429358")); ("chromosome", PStr s);
        ("position", p); ("ref_allele", ref); ("alt_alleles", alts);
        ("build", PStr "hs37d5") ]
    /\ s <> "" /\ Py.truthy p = true.
Proof.
  apply (returned_record_fields "429358" (always (ok_body apoe_myvariant)) fresh).
  left. reflexivity.
Defined.

(** ** The allele string of service B *)

Lemma split_not_nil (sep : ascii) (s : string) : Str.split sep s <> [].
Proof.
  destruct s as [| c rest]; cbn [Str.split]; [discriminate |].
  destruct (Ascii.eqb c sep); [discriminate |].
  destruct (Str.split sep rest); discriminate.
Qed.

Lemma join_split (sep : ascii) (s : string) :
  Str.join (String sep "") (Str.split sep s) = s.
Proof.
  induction s as [| c rest IH]; [reflexivity |].
  cbn [Str.split]. pose proof (split_not_nil sep rest) as Hne.
  destruct (Ascii.eqb c sep) eqn:E.
  - apply Ascii.eqb_eq in E. subst c.
    destruct (Str.split sep rest) as [| h t]; [contradiction |].
    cbn [Str.join]. cbn [Str.join] in IH. now rewrite IH.
  - destruct (Str.split sep rest) as [| h t]; [contradiction |].
    destruct t as [| h' t']; cbn [Str.join] in *; now rewrite <- IH.
Qed.

Lemma split_parts_clean (sep : ascii) (s : string) :
  Forall (fun part => Str.contains_char sep part = false) (Str.split sep s).
Proof.
  induction s as [| c rest IH]; [repeat constructor |].
  cbn [Str.split]. destruct (Ascii.eqb c sep) eqn:E.
  - constructor; [reflexivity | exact IH].
  - destruct (Str.split sep rest) as [| h t]; [repeat constructor |].
    + cbn [Str.contains_char]. rewrite Ascii.eqb_sym, E. reflexivity.
    + inversion IH as [| ? ? Hh Ht]; subst. constructor; [| exact Ht].
      cbn [Str.contains_char]. now rewrite Ascii.eqb_sym, E.
Qed.

Lemma ensembl_set_mapping_alleles
    (m : dict) (rsid text : string) (r : dict) :
  Dict.get "allele_string" m = Some (PStr text) ->
  ensembl_set_mapping (PDict m) (new_result rsid) = Ret r ->
  exists c p,
    r = record_of rsid c p (PStr (hd "" (Str.split "/" text)))
          (PList (map PStr (tl (Str.split "/" text)))).
Proof.
  intros Ha. unfold ensembl_set_mapping.
  cbn [Py.get Py.contains Py.getitem rbind]. unfold Dict.mem. rewrite Ha.
  destruct (Dict.get "seq_region_name" m) as [[| | | name | |] |];
    try discriminate; cbn [Py.replace Py.split rbind];
    pose proof (split_not_nil "/" text) as Hne;
    (destruct (Str.split "/" text) as [| first [| second others]];
     [contradiction | |]);
    cbn [map List.length Nat.ltb Nat.leb hd tl]; intros [= <-];
    eexists; eexists; reflexivity.
Qed.

(** Service B's [allele_string] is cut at every slash: the first part is
    the reference allele, the others are the alternates, no part holds a
    slash, and joining them with slashes gives the string back. *)
Theorem ensembl_alleles_round_trip
    (rsid : string) (net : network) (w : world)
    (top m : dict) (rest : list pyval) (text : string) (d : dict) :
  decoded (net (ensembl_request (normalize_rsid rsid)) (sent w)) = Some (PDict top) ->
  Dict.get "mappings" top = Some (PList (PDict m :: rest)) ->
  Dict.get "allele_string" m = Some (PStr text) ->
  fst (get_hs37d5_loci_ensembl rsid net w) = Ret (PDict d) ->
  exists ref alts,
    Dict.get "ref_allele" d = Some (PStr ref)
    /\ Dict.get "alt_alleles" d = Some (PList (map PStr alts))
    /\ Str.split "/" text = ref :: alts
    /\ Str.join "/" (ref :: alts) = text
    /\ Forall (fun part => Str.contains_char "/" part = false) (ref :: alts).
Proof.
  intros Hdec Hm Ha. destruct (ensembl_outcome rsid net w) as [-> _].
  rewrite Hdec. unfold ensembl_extract, ensembl_fill.
  cbn [Py.contains Py.getitem rbind]. unfold Dict.mem. rewrite Hm.
  cbn [Py.len Py.getitem0 rbind List.length Nat.ltb Nat.leb].
  intros H. apply rbind_ret_inv in H. destruct H as (r & Hset & H).
  destruct (ensembl_set_mapping_alleles m _ text r Ha Hset) as (c & p & ->).
  apply return_if_located_record in H. destruct H as (-> & _ & _).
  pose proof (split_not_nil "/" text) as Hne.
  pose proof (join_split "/" text) as Hj.
  pose proof (split_parts_clean "/" text) as Hc.
  destruct (Str.split "/" text) as [| ref alts]; [contradiction |].
  exists ref, alts. repeat split; assumption.
Qed.

Lemma ensembl_alleles_round_trip_witness :
  exists ref alts,
    Dict.get "ref_allele"
      [ ("rsid", PStr "rs1"); ("chromosome", PStr "scaffold_1");
        ("position", PInt 100); ("ref_allele", PStr "A");
        ("alt_alleles", PList [PStr "C"; PStr "G"]); ("build", PStr "hs37d5") ]
    = Some (PStr ref)
    /\ Dict.get "alt_alleles"
         [ ("rsid", PStr "rs1"); ("chromosome", PStr "scaffold_1");
           ("position", PInt 100); ("ref_allele", PStr "A");
           ("alt_alleles", PList [PStr "C"; PStr "G"]); ("build", PStr "hs37d5") ]
       = Some (PList (map PStr alts))
    /\ Str.split "/" "A/C/G" = ref :: alts
    /\ Str.join "/" (ref :: alts) = "A/C/G"
    /\ Forall (fun part => Str.contains_char "/" part = false) (ref :: alts).
Proof.
  apply (ensembl_alleles_round_trip "rs1" (always (ok_body scaffold_ensembl)) fresh
           [ ("mappings", PList [ PDict [ ("seq_region_name", PStr "scaffold_chr1");
                                          ("start", PInt 100);
                                          ("allele_string", PStr "A/C/G") ] ]) ]
           [ ("seq_region_name", PStr "scaffold_chr1"); ("start", PInt 100);
             ("allele_string", PStr "A/C/G") ]
           [] "A/C/G");
    reflexivity.
Defined.

(** ** The formatter on any value *)

Lemma all_str_map_PStr (ss : list string) : Py.all_str (map PStr ss) = Some ss.
Proof.
  induction ss as [| s rest IH]; [reflexivity |].
  cbn [map Py.all_str]. now rewrite IH.
Qed.

Lemma join_joinable (sep : string) (v : pyval) :
  joinable v = true <-> exists text, Py.join sep v = Ret text.
Proof.
  unfold joinable, Py.join.
  destruct v as [| | | s | l | d];
    try (split; [discriminate | intros [? [=]]]).
  - split; [intros _; eexists; reflexivity | reflexivity].
  - destruct (Py.all_str l).
    + split; [intros _; eexists; reflexivity | reflexivity].
    + split; [discriminate | intros [? [=]]].
  - split; [intros _; eexists; reflexivity | reflexivity].
Qed.

(** The outcomes of the formatter on any value, whatever the style.  A
    falsy value gives [Not found].  A truthy value that is not a dict
    raises [TypeError]; a dict without chromosome or position raises
    [KeyError]; a dict with both whose alternates cannot be joined (they
    are neither a list of strings, nor a string, nor a dict) raises
    [TypeError].  So when the formatter returns, the value is falsy or a
    dict with both keys and alternates that can be joined; and on such a
    dict it does return when chromosome, position and reference allele
    are plain values. *)
Theorem format_loci_outcomes (loci : pyval) (style : string) :
  (Py.truthy loci = false -> format_loci loci style = Ret "Not found")
  /\ (Py.truthy loci = true -> (forall d, loci <> PDict d) ->
      format_loci loci style = Raise TypeError)
  /\ (forall d,
        loci = PDict d -> d <> [] ->
        (Dict.mem "chromosome" d && Dict.mem "position" d = false ->
         format_loci loci style = Raise KeyError)
        /\ (Dict.mem "chromosome" d && Dict.mem "position" d = true ->
            joinable (or_default (Dict.get "alt_alleles" d) (PList [])) = false ->
            format_loci loci style = Raise TypeError))
  /\ (forall text,
        format_loci loci style = Ret text ->
        Py.truthy loci = false
        \/ exists d,
             loci = PDict d
             /\ Dict.mem "chromosome" d = true
             /\ Dict.mem "position" d = true
             /\ joinable (or_default (Dict.get "alt_alleles" d) (PList [])) = true)
  /\ (forall d chrom pos,
        loci = PDict d ->
        Dict.get "chromosome" d = Some chrom ->
        Dict.get "position" d = Some pos ->
        joinable (or_default (Dict.get "alt_alleles" d) (PList [])) = true ->
        plain chrom = true -> plain pos = true ->
        plain (or_default (Dict.get "ref_allele" d) (PStr "N/A")) = true ->
        exists text, format_loci loci style = Ret text).
Proof.
  assert (Hdict : forall d,
             d <> [] ->
             format_loci (PDict d) style
             = (chrom <~ Py.getitem (PDict d) "chromosome" ;;
                pos <~ Py.getitem (PDict d) "position" ;;
                joined <~ Py.join ","
                            (or_default (Dict.get "alt_alleles" d) (PList [])) ;;
                Ret ((if String.eqb style "hs37d5" then "" else "chr")
                       ++ Py.str chrom ++ ":" ++ Py.str pos ++ " ("
                       ++ Py.str (or_default (Dict.get "ref_allele" d) (PStr "N/A"))
                       ++ "/" ++ (if Py.truthy (PStr joined) then joined else "N/A")
                       ++ ")"))).
  { intros d Hne. unfold format_loci.
    assert (T : Py.truthy (PDict d) = true) by (destruct d; [contradiction | reflexivity]).
    rewrite T. cbn [negb Py.getitem Py.get]. unfold or_default.
    destruct (Dict.get "chromosome" d); [| reflexivity].
    destruct (Dict.get "position" d); [| reflexivity]. cbn [rbind].
    destruct (Py.join "," _); [| reflexivity]. cbn [rbind].
    destruct (String.eqb style "hs37d5"); reflexivity. }
  split; [intros T; unfold format_loci; now rewrite T |].
  split.
  { intros T Hnd. unfold format_loci. rewrite T. cbn [negb].
    destruct loci as [| | | s | l | d]; try reflexivity.
    now destruct (Hnd d). }
  split.
  { intros d -> Hne. rewrite (Hdict d Hne). unfold Dict.mem. cbn [Py.getitem].
    destruct (Dict.get "chromosome" d) as [chrom |]; [| split; [reflexivity | discriminate]].
    destruct (Dict.get "position" d) as [pos |]; [| split; [reflexivity | discriminate]].
    cbn [rbind andb]. split; [discriminate |]. intros _ Hj.
    unfold joinable in Hj. unfold Py.join.
    destruct (or_default (Dict.get "alt_alleles" d) (PList [])) as [| | | s | l | d'];
      try discriminate; try reflexivity.
    destruct (Py.all_str l); [discriminate | reflexivity]. }
  split.
  { intros text H. destruct (Py.truthy loci) eqn:T; [right | now left].
    destruct loci as [| | | s | l | d];
      try (unfold format_loci in H; rewrite T in H; discriminate H).
    assert (Hne : d <> []) by (intros ->; discriminate T).
    rewrite (Hdict d Hne) in H. exists d. unfold Dict.mem. cbn [Py.getitem] in H.
    destruct (Dict.get "chromosome" d) as [chrom |]; [| discriminate H].
    destruct (Dict.get "position" d) as [pos |]; [| discriminate H].
    cbn [rbind] in H. repeat split.
    apply (join_joinable ",").
    destruct (Py.join "," _) as [joined | e]; [eauto | discriminate H]. }
  intros d chrom pos -> Hc Hp Hj _ _ _.
  assert (Hne : d <> []) by (intros ->; discriminate Hc).
  rewrite (Hdict d Hne). cbn [Py.getitem]. rewrite Hc, Hp. cbn [rbind].
  apply (join_joinable ",") in Hj. destruct Hj as [joined ->]. cbn [rbind].
  eexists. reflexivity.
Qed.

Lemma format_loci_outcomes_witness :
  exists text, format_loci (apoe_record "rs429358") "standard" = Ret text.
Proof.
  apply (proj2 (proj2 (proj2 (proj2
           (format_loci_outcomes (apoe_record "rs429358") "standard"))))
           [ ("rsid", PStr "rs429358"); ("chromosome", PStr "19");
             ("position", PInt 45411941); ("ref_allele", PNone);
             ("alt_alleles", PList [PStr "C"]); ("build", PStr "hs37d5") ]
           (PStr "19") (PInt 45411941));
    reflexivity.
Defined.

(** On a truthy value the standard style gives what the compact style
    gives with [chr] in front, and raises when the compact style raises;
    this holds for every style name other than [hs37d5]. *)
Theorem format_loci_standard_prefixes (loci : pyval) (style : string) :
  Py.truthy loci = true ->
  String.eqb style "hs37d5" = false ->
  format_loci loci style
  = (text <~ format_loci loci "hs37d5" ;; Ret ("chr" ++ text)).
Proof.
  intros T Hs. unfold format_loci. rewrite T, Hs. cbn [negb String.eqb
    Ascii.eqb Bool.eqb].
  destruct (Py.getitem loci "chromosome"); [| reflexivity]. cbn [rbind].
  destruct (Py.getitem loci "position"); [| reflexivity]. cbn [rbind].
  destruct (Py.get loci "ref_allele" (PStr "N/A")); [| reflexivity]. cbn [rbind].
  destruct (Py.get loci "alt_alleles" (PList [])); [| reflexivity]. cbn [rbind].
  destruct (Py.join "," a2); reflexivity.
Qed.

Lemma format_loci_standard_prefixes_witness :
  format_loci (apoe_record "rs429358") "standard"
  = (text <~ format_loci (apoe_record "rs429358") "hs37d5" ;; Ret ("chr" ++ text)).
Proof.
  apply (format_loci_standard_prefixes (apoe_record "rs429358") "standard");
    reflexivity.
Defined.

(** What service B returns can always be printed: in either style the
    formatter returns on it, and for a record the text is the chromosome,
    the position, the reference allele as stored and the alternates
    joined by commas ([N/A] when there are none). *)
Theorem ensembl_result_formats
    (rsid : string) (net : network) (w : world) (v : pyval) (style : string) :
  fst (get_hs37d5_loci_ensembl rsid net w) = Ret v ->
  (v = PNone /\ format_loci v style = Ret "Not found")
  \/ exists s p ref ss,
       v = PDict (record_of (normalize_rsid rsid) (PStr s) p ref (PList (map PStr ss)))
       /\ format_loci v style
          = Ret ((if String.eqb style "hs37d5" then "" else "chr")
                   ++ s ++ ":" ++ Py.str p ++ " (" ++ Py.str ref ++ "/"
                   ++ alternates_text ss ++ ")").
Proof.
  intros H. pose proof H as Hfull.
  destruct (ensembl_outcome rsid net w) as [Ho _]. rewrite Ho in Hfull.
  assert (Hv : v = PNone \/ fully_populated v = true).
  { destruct (decoded _) as [data |].
    - now apply ensembl_extract_full in Hfull.
    - destruct (escaping _); [discriminate |]. injection Hfull as <-. now left. }
  destruct Hv as [-> | Hv]; [left; now split |].
  destruct v as [| | | | | d]; try discriminate. right.
  apply ensembl_returned_record in H.
  destruct H as (s & p & ref & ss & -> & _ & _ & _).
  exists s, p, ref, ss. split; [reflexivity |].
  rewrite (format_loci_record
             (record_of (normalize_rsid rsid) (PStr s) p ref (PList (map PStr ss)))
             style (PStr s) p ss eq_refl eq_refl).
  - unfold reference_text, compact, standard. cbn [record_of Dict.get String.eqb
      Ascii.eqb Bool.eqb Py.str].
    destruct (String.eqb style "hs37d5"); reflexivity.
  - unfold alternates. cbn [record_of Dict.get String.eqb Ascii.eqb Bool.eqb].
    apply all_str_map_PStr.
Qed.

Lemma ensembl_result_formats_witness :
  (PDict (record_of "rs7412" (PStr "19") (PInt 45412079) (PStr "C")
            (PList [PStr "T"])) = PNone
   /\ format_loci (PDict (record_of "rs7412" (PStr "19") (PInt 45412079)
                            (PStr "C") (PList [PStr "T"]))) "hs37d5"
      = Ret "Not found")
  \/ exists s p ref ss,
       PDict (record_of "rs7412" (PStr "19") (PInt 45412079) (PStr "C")
                (PList [PStr "T"]))
       = PDict (record_of (normalize_rsid "7412") (PStr s) p ref
                  (PList (map PStr ss)))
       /\ format_loci (PDict (record_of "rs7412" (PStr "19") (PInt 45412079)
                                (PStr "C") (PList [PStr "T"]))) "hs37d5"
          = Ret ((if String.eqb "hs37d5" "hs37d5" then "" else "chr")
                   ++ s ++ ":" ++ Py.str p ++ " (" ++ Py.str ref ++ "/"
                   ++ alternates_text ss ++ ")").
Proof.
  apply (ensembl_result_formats "7412" (always (ok_body apoe_ensembl)) fresh).
  reflexivity.
Defined.

(** ** What a lookup leaves in the trace *)

Lemma gets_app (t u : list event) : gets (t ++ u) = (gets t ++ gets u)%list.
Proof. apply flat_map_app. Qed.

Lemma prints_app (t u : list event) : prints (t ++ u) = (prints t ++ prints u)%list.
Proof. apply flat_map_app. Qed.

Lemma sleeps_app (t u : list event) : sleeps (t ++ u) = (sleeps t ++ sleeps u)%list.
Proof. apply flat_map_app. Qed.

Lemma settle_world (warning : string -> string)
    (extract : pyval -> outcome pyval) (r : reply) (w1 : world) :
  snd (settle warning extract r w1)
  = match failure_text r with
    | Some msg => log (EPrint (warning msg)) w1
    | None => w1
    end.
Proof.
  unfold settle, failure_text. destruct r as [msg | resp]; [reflexivity |].
  destruct (status_code resp =? 404)%Z; [reflexivity |].
  destruct ((400 <=? status_code resp)%Z && (status_code resp <? 600)%Z);
    [reflexivity |].
  destruct (json resp) as [data | []]; reflexivity.
Qed.

Lemma failure_not_decoded (r : reply) (msg : string) :
  failure_text r = Some msg -> decoded r = None.
Proof.
  unfold failure_text, decoded. destruct r as [m | resp]; [reflexivity |].
  destruct (status_code resp =? 404)%Z; [discriminate |].
  destruct ((400 <=? status_code resp)%Z && (status_code resp <? 600)%Z);
    [reflexivity |].
  destruct (json resp) as [data | []]; (discriminate || reflexivity).
Qed.

Lemma failure_not_escaping (r : reply) (msg : string) :
  failure_text r = Some msg -> escaping r = None.
Proof.
  unfold failure_text, escaping. destruct r as [m | resp]; [reflexivity |].
  destruct (status_code resp =? 404)%Z; [reflexivity |].
  destruct ((400 <=? status_code resp)%Z && (status_code resp <? 600)%Z);
    [reflexivity |].
  destruct (json resp) as [data | []]; (discriminate || reflexivity).
Qed.

Lemma run_pair {A B} (x : A * B) : x = (fst x, snd x).
Proof. now destruct x. Qed.

(** A request that fails, an error status other than 404 and a body that
    is not JSON are all contained: the resolver returns [None] after its
    one request and prints one line, the name of the service followed by
    the text of the exception. *)
Theorem failed_lookup_warns (rsid : string) (net : network) (w : world) (msg : string) :
  (failure_text (net (myvariant_request (normalize_rsid rsid)) (sent w)) = Some msg ->
   get_hs37d5_loci_myvariant rsid net w
   = (Ret PNone,
      log (EPrint ("Error with MyVariant.info API: " ++ msg))
        (sent_request (myvariant_request (normalize_rsid rsid)) w)))
  /\ (failure_text (net (ensembl_request (normalize_rsid rsid)) (sent w)) = Some msg ->
      get_hs37d5_loci_ensembl rsid net w
      = (Ret PNone,
         log (EPrint ("Error with Ensembl API: " ++ msg))
           (sent_request (ensembl_request (normalize_rsid rsid)) w))).
Proof.
  split; intros H.
  - rewrite myvariant_run. cbv zeta.
    rewrite (run_pair (settle _ _ _ _)), settle_outcome, settle_world, H.
    now rewrite (failure_not_decoded _ _ H), (failure_not_escaping _ _ H).
  - rewrite ensembl_run. cbv zeta.
    rewrite (run_pair (settle _ _ _ _)), settle_outcome, settle_world, H.
    now rewrite (failure_not_decoded _ _ H), (failure_not_escaping _ _ H).
Qed.

Lemma failed_lookup_warns_witness :
  get_hs37d5_loci_ensembl "7412" (always (Failed "Connection refused")) fresh
  = (Ret PNone,
     log (EPrint "Error with Ensembl API: Connection refused")
       (sent_request (ensembl_request "rs7412") fresh)).
Proof.
  apply (proj2 (failed_lookup_warns "7412" (always (Failed "Connection refused"))
                  fresh "Connection refused")).
  reflexivity.
Defined.

(** A 404 is not an error: whatever else the answer carries, the
    resolver returns [None] after its one request and prints nothing. *)
Theorem not_found_is_silent
    (rsid : string) (net : network) (w : world) (resp : response) :
  status_code resp = 404%Z ->
  (net (myvariant_request (normalize_rsid rsid)) (sent w) = Answered resp ->
   get_hs37d5_loci_myvariant rsid net w
   = (Ret PNone, sent_request (myvariant_request (normalize_rsid rsid)) w))
  /\ (net (ensembl_request (normalize_rsid rsid)) (sent w) = Answered resp ->
      get_hs37d5_loci_ensembl rsid net w
      = (Ret PNone, sent_request (ensembl_request (normalize_rsid rsid)) w)).
Proof.
  intros Hs. split; intros H.
  - rewrite myvariant_run. cbv zeta. rewrite H. unfold settle. now rewrite Hs.
  - rewrite ensembl_run. cbv zeta. rewrite H. unfold settle. now rewrite Hs.
Qed.

Lemma not_found_is_silent_witness :
  get_hs37d5_loci_myvariant "rs7412" (always not_found) fresh
  = (Ret PNone, sent_request (myvariant_request "rs7412") fresh).
Proof.
  apply (proj1 (not_found_is_silent "rs7412" (always not_found) fresh
                  {| status_code := 404; http_error := "404 Client Error";
                     json := inr "Expecting value" |} eq_refl)).
  reflexivity.
Defined.

Lemma settle_trace (warning : string -> string)
    (extract : pyval -> outcome pyval) (r : reply) (w1 : world) :
  trace (snd (settle warning extract r w1))
  = (trace w1 ++ match failure_text r with
                 | Some msg => [EPrint (warning msg)]
                 | None => []
                 end)%list.
Proof.
  rewrite settle_world. destruct (failure_text r); [reflexivity |].
  now rewrite app_nil_r.
Qed.

Lemma myvariant_trace (rsid : string) (net : network) (w : world) :
  exists lines,
    trace (snd (get_hs37d5_loci_myvariant rsid net w))
    = (trace w ++ EGet (myvariant_request (normalize_rsid rsid))
         :: map EPrint lines)%list
    /\ (List.length lines <= 1)%nat.
Proof.
  rewrite myvariant_run. cbv zeta. rewrite settle_trace.
  unfold sent_request. cbn [trace]. rewrite <- app_assoc. cbn [app].
  destruct (failure_text _) as [msg |].
  - exists ["Error with MyVariant.info API: " ++ msg]. split; [reflexivity | auto].
  - exists []. split; [reflexivity | auto].
Qed.

Lemma ensembl_trace (rsid : string) (net : network) (w : world) :
  exists lines,
    trace (snd (get_hs37d5_loci_ensembl rsid net w))
    = (trace w ++ EGet (ensembl_request (normalize_rsid rsid))
         :: map EPrint lines)%list
    /\ (List.length lines <= 1)%nat.
Proof.
  rewrite ensembl_run. cbv zeta. rewrite settle_trace.
  unfold sent_request. cbn [trace]. rewrite <- app_assoc. cbn [app].
  destruct (failure_text _) as [msg |].
  - exists ["Error with Ensembl API: " ++ msg]. split; [reflexivity | auto].
  - exists []. split; [reflexivity | auto].
Qed.

Lemma gets_prints (lines : list string) : gets (map EPrint lines) = [].
Proof. induction lines; [reflexivity | exact IHlines]. Qed.

Lemma sleeps_prints (lines : list string) : sleeps (map EPrint lines) = [].
Proof. induction lines; [reflexivity | exact IHlines]. Qed.

Lemma prints_prints (lines : list string) : prints (map EPrint lines) = lines.
Proof. induction lines as [| l rest IH]; [reflexivity |]. cbn. now f_equal. Qed.

(** Whatever it is answered - also when the parser raises on the body -
    a single-service resolver sends exactly one request, for the
    normalized identifier, never sleeps and prints at most one line. *)
Theorem single_service_one_request (rsid : string) (net : network) (w : world) :
  let a := snd (get_hs37d5_loci_myvariant rsid net w) in
  let b := snd (get_hs37d5_loci_ensembl rsid net w) in
  (gets (trace a)
   = (gets (trace w) ++ [myvariant_request (normalize_rsid rsid)])%list
   /\ gets (trace b)
      = (gets (trace w) ++ [ensembl_request (normalize_rsid rsid)])%list)
  /\ (sent a = S (sent w) /\ sent b = S (sent w))
  /\ (sleeps (trace a) = sleeps (trace w) /\ sleeps (trace b) = sleeps (trace w))
  /\ (List.length (prints (trace a)) <= S (List.length (prints (trace w)))
      /\ List.length (prints (trace b)) <= S (List.length (prints (trace w))))%nat.
Proof.
  intros a b. subst a b.
  destruct (myvariant_trace rsid net w) as (la & Ha & Hla).
  destruct (ensembl_trace rsid net w) as (lb & Hb & Hlb).
  destruct (myvariant_outcome rsid net w) as [_ Hsa].
  destruct (ensembl_outcome rsid net w) as [_ Hsb].
  rewrite Ha, Hb.
  rewrite !gets_app, !sleeps_app, !prints_app. cbn [gets sleeps prints flat_map app].
  fold (gets (map EPrint la)) (gets (map EPrint lb))
       (sleeps (map EPrint la)) (sleeps (map EPrint lb))
       (prints (map EPrint la)) (prints (map EPrint lb)).
  rewrite !gets_prints, !sleeps_prints, !prints_prints, !app_nil_r, !length_app.
  repeat split; try assumption; try reflexivity; lia.
Qed.

Lemma myvariant_events (rsid : string) (net : network) (w : world) :
  gets (trace (snd (get_hs37d5_loci_myvariant rsid net w)))
  = (gets (trace w) ++ [myvariant_request (normalize_rsid rsid)])%list
  /\ sleeps (trace (snd (get_hs37d5_loci_myvariant rsid net w))) = sleeps (trace w).
Proof.
  destruct (myvariant_trace rsid net w) as (lines & -> & _).
  rewrite gets_app, sleeps_app. cbn [gets sleeps flat_map app].
  fold (gets (map EPrint lines)) (sleeps (map EPrint lines)).
  now rewrite gets_prints, sleeps_prints, app_nil_r.
Qed.

Lemma ensembl_events (rsid : string) (net : network) (w : world) :
  gets (trace (snd (get_hs37d5_loci_ensembl rsid net w)))
  = (gets (trace w) ++ [ensembl_request (normalize_rsid rsid)])%list
  /\ sleeps (trace (snd (get_hs37d5_loci_ensembl rsid net w))) = sleeps (trace w).
Proof.
  destruct (ensembl_trace rsid net w) as (lines & -> & _).
  rewrite gets_app, sleeps_app. cbn [gets sleeps flat_map app].
  fold (gets (map EPrint lines)) (sleeps (map EPrint lines)).
  now rewrite gets_prints, sleeps_prints, app_nil_r.
Qed.

(** With the automatic method service A is always asked first, and
    service B is asked after it exactly when service A returned [None];
    no third request is sent. *)
Theorem auto_asks_in_turn (rsid : string) (net : network) (w : world) :
  gets (trace (snd (get_hs37d5_loci rsid "auto" net w)))
  = (gets (trace w)
       ++ myvariant_request (normalize_rsid rsid)
       :: match fst (get_hs37d5_loci_myvariant rsid net w) with
          | Ret PNone => [ensembl_request (normalize_rsid rsid)]
          | _ => []
          end)%list.
Proof.
  rewrite auto_unfold. unfold bind.
  destruct (myvariant_events rsid net w) as [Hg _].
  destruct (get_hs37d5_loci_myvariant rsid net w) as [[v | e] w1];
    cbn [fst snd] in *; [| exact Hg].
  destruct v; cbn [is_None ret snd]; try exact Hg.
  destruct (ensembl_events rsid net w1) as [-> _]. rewrite Hg.
  now rewrite <- app_assoc.
Qed.

Lemma get_hs37d5_loci_sleeps (rsid method : string) (net : network) (w : world) :
  sleeps (trace (snd (get_hs37d5_loci rsid method net w))) = sleeps (trace w).
Proof.
  unfold get_hs37d5_loci.
  destruct (String.eqb method "myvariant"); [apply myvariant_events |].
  destruct (String.eqb method "ensembl"); [apply ensembl_events |].
  destruct (String.eqb method "auto"); [| reflexivity].
  unfold bind.
  destruct (myvariant_events (normalize_rsid rsid) net w) as [_ Hs].
  destruct (get_hs37d5_loci_myvariant (normalize_rsid rsid) net w) as [[v | e] w1];
    cbn [snd] in *; [| exact Hs].
  destruct v; cbn [is_None ret snd]; try exact Hs.
  destruct (ensembl_events (normalize_rsid rsid) net w1) as [_ ->]. exact Hs.
Qed.

(** ** The pauses of a batch *)

Lemma batch_loop_sleeps (delay : Q) (method : string) (net : network)
    (rsids : list string) :
  forall (n i : nat) (results r : dict) (w w' : world),
    batch_loop n i rsids delay method results net w = (Ret r, w') ->
    n = (i + List.length rsids)%nat ->
    sleeps (trace w')
    = (sleeps (trace w)
         ++ repeat delay (if negb (Qle_bool delay 0)
                          then List.length rsids - 1 else 0))%list.
Proof.
  induction rsids as [| rsid rest IH]; intros n i results r w w' H Hn.
  - injection H as <- <-. destruct (negb (Qle_bool delay 0));
      cbn [List.length Nat.sub repeat]; now rewrite app_nil_r.
  - cbn [batch_loop] in H. unfold bind at 1 in H.
    pose proof (get_hs37d5_loci_sleeps (normalize_rsid rsid) method net w) as Hs1.
    destruct (get_hs37d5_loci (normalize_rsid rsid) method net w) as [[v | e] w1];
      [| discriminate]. cbn [snd] in Hs1.
    unfold bind at 1 in H.
    set (step := if Py.truthy v
                 then ret (Dict.set (normalize_rsid rsid) v results)
                 else print ("Could not find coordinates for "
                               ++ normalize_rsid rsid) ;;; ret results) in H.
    assert (Hstep : exists results1 w2,
               step net w1 = (Ret results1, w2) /\ sleeps (trace w2) = sleeps (trace w1)).
    { unfold step. destruct (Py.truthy v).
      - eexists; eexists; split; reflexivity.
      - unfold bind, print, ret. eexists; eexists; split; [reflexivity |].
        cbn [log trace]. rewrite sleeps_app. cbn. now rewrite app_nil_r. }
    destruct Hstep as (results1 & w2 & Hrun & Hs2). rewrite Hrun in H.
    unfold bind at 1 in H.
    assert (Hlast : (i <? n - 1)%nat = negb (Nat.eqb (List.length rest) 0)).
    { subst n. cbn [List.length]. destruct rest as [| x xs]; cbn [List.length Nat.eqb negb].
      - apply Nat.ltb_ge. lia.
      - apply Nat.ltb_lt. lia. }
    rewrite Hlast in H.
    destruct (negb (Qle_bool delay 0)) eqn:D; cbn [andb] in H.
    + destruct rest as [| x xs].
      * cbn [List.length Nat.eqb negb] in H. unfold ret at 1 in H.
        apply (IH n (S i)) in H; [| cbn [List.length] in *; lia].
        rewrite H, Hs2, Hs1. reflexivity.
      * cbn [List.length Nat.eqb negb] in H. unfold sleep at 1 in H.
        apply (IH n (S i)) in H; [| cbn [List.length] in *; lia].
        rewrite H. cbn [log trace].
        rewrite sleeps_app, Hs2, Hs1.
        cbn [sleeps flat_map app List.length]. rewrite <- app_assoc.
        cbn [app]. replace (S (S (List.length xs)) - 1)%nat
          with (S (S (List.length xs) - 1)) by lia.
        reflexivity.
    + unfold ret at 1 in H.
      apply (IH n (S i)) in H; [| cbn [List.length] in *; lia].
      rewrite H, Hs2, Hs1. reflexivity.
Qed.

Lemma batch_loop_cons (n i : nat) (rsid : string) (rest : list string)
    (delay : Q) (method : string) (results r : dict) (net : network)
    (w w' : world) :
  batch_loop n i (rsid :: rest) delay method results net w = (Ret r, w') ->
  exists v w1,
    get_hs37d5_loci (normalize_rsid rsid) method net w = (Ret v, w1)
    /\ batch_loop n (S i) rest delay method
         (if Py.truthy v then Dict.set (normalize_rsid rsid) v results else results)
         net
         (let w2 := if Py.truthy v then w1
                    else log (EPrint ("Could not find coordinates for "
                                        ++ normalize_rsid rsid)) w1 in
          if negb (Qle_bool delay 0) && (i <? n - 1)%nat
          then log (ESleep delay) w2 else w2)
       = (Ret r, w').
Proof.
  intros H.
  destruct (get_hs37d5_loci (normalize_rsid rsid) method net w)
    as [[v | e] w1] eqn:Hrun.
  - exists v, w1. split; [reflexivity |].
    now rewrite <- (batch_loop_step n i rsid rest delay method results net w w1 v Hrun).
  - cbn [batch_loop] in H. unfold bind at 1 in H. rewrite Hrun in H. discriminate H.
Qed.

(** What a lookup that returns adds to the trace. *)
Lemma get_hs37d5_loci_segment
    (rsid method : string) (net : network) (w w1 : world) (v : pyval) :
  get_hs37d5_loci rsid method net w = (Ret v, w1) ->
  exists segment,
    trace w1 = (trace w ++ segment)%list /\ lookup_segment rsid segment.
Proof.
  unfold get_hs37d5_loci, lookup_segment.
  destruct (String.eqb method "myvariant").
  { intros H. destruct (myvariant_trace (normalize_rsid rsid) net w)
      as (lines & Ht & _).
    rewrite H, normalize_rsid_idempotent in Ht. cbn [snd] in Ht.
    eexists. split; [exact Ht |]. split.
    - cbn [sleeps flat_map app]. apply sleeps_prints.
    - eexists; eexists; split; [reflexivity | now left]. }
  destruct (String.eqb method "ensembl").
  { intros H. destruct (ensembl_trace (normalize_rsid rsid) net w)
      as (lines & Ht & _).
    rewrite H, normalize_rsid_idempotent in Ht. cbn [snd] in Ht.
    eexists. split; [exact Ht |]. split.
    - cbn [sleeps flat_map app]. apply sleeps_prints.
    - eexists; eexists; split; [reflexivity | now right]. }
  destruct (String.eqb method "auto"); [| discriminate].
  unfold bind.
  destruct (myvariant_trace (normalize_rsid rsid) net w) as (la & Ha & _).
  rewrite normalize_rsid_idempotent in Ha.
  destruct (get_hs37d5_loci_myvariant (normalize_rsid rsid) net w)
    as [[a | e] w0]; [| discriminate]. cbn [snd] in Ha.
  destruct (is_None a).
  - intros H. destruct (ensembl_trace (normalize_rsid rsid) net w0)
      as (lb & Hb & _).
    rewrite H, normalize_rsid_idempotent in Hb. cbn [snd] in Hb.
    exists (EGet (myvariant_request (normalize_rsid rsid))
              :: map EPrint la
              ++ EGet (ensembl_request (normalize_rsid rsid)) :: map EPrint lb)%list.
    split; [| split].
    + rewrite Hb, Ha, <- app_assoc. reflexivity.
    + change (sleeps (map EPrint la
                        ++ EGet (ensembl_request (normalize_rsid rsid))
                        :: map EPrint lb) = []).
      rewrite sleeps_app, sleeps_prints. cbn [sleeps flat_map app].
      apply sleeps_prints.
    + eexists; eexists; split; [reflexivity | now left].
  - intros [= <- <-]. eexists. split; [exact Ha |]. split.
    + cbn [sleeps flat_map app]. apply sleeps_prints.
    + eexists; eexists; split; [reflexivity | now left].
Qed.

Lemma lookup_segment_print (rsid line : string) (segment : list event) :
  lookup_segment rsid segment -> lookup_segment rsid (segment ++ [EPrint line]).
Proof.
  intros (Hs & req & more & -> & Hreq). split.
  - rewrite sleeps_app, Hs. reflexivity.
  - exists req, (more ++ [EPrint line])%list. split; [reflexivity | exact Hreq].
Qed.

Lemma batch_loop_segments (delay : Q) (method : string) (net : network)
    (rsids : list string) :
  forall (n i : nat) (results r : dict) (w w' : world),
    batch_loop n i rsids delay method results net w = (Ret r, w') ->
    n = (i + List.length rsids)%nat ->
    exists segments,
      Forall2 lookup_segment rsids segments
      /\ trace w'
         = (trace w
              ++ intercalate (if negb (Qle_bool delay 0) then [ESleep delay] else [])
                   segments)%list.
Proof.
  induction rsids as [| rsid rest IH]; intros n i results r w w' H Hn.
  - injection H as <- <-. exists []. split; [constructor |].
    cbn [intercalate]. now rewrite app_nil_r.
  - apply batch_loop_cons in H. destruct H as (v & w1 & Hrun & H).
    apply get_hs37d5_loci_segment in Hrun.
    destruct Hrun as (seg & Ht1 & Hseg).
    assert (Hseg' : lookup_segment rsid seg).
    { destruct Hseg as (Hs & req & more & E & Hreq).
      rewrite normalize_rsid_idempotent in Hreq.
      split; [exact Hs |]. now exists req, more. }
    clear Hseg.
    set (seg2 := if Py.truthy v then seg
                 else (seg ++ [EPrint ("Could not find coordinates for "
                                         ++ normalize_rsid rsid)])%list).
    assert (Hseg2 : lookup_segment rsid seg2).
    { unfold seg2. destruct (Py.truthy v);
        [exact Hseg' | now apply lookup_segment_print]. }
    assert (Ht2 : trace (if Py.truthy v then w1
                         else log (EPrint ("Could not find coordinates for "
                                             ++ normalize_rsid rsid)) w1)
                  = (trace w ++ seg2)%list).
    { unfold seg2. destruct (Py.truthy v); [exact Ht1 |].
      cbn [log trace]. now rewrite Ht1, <- app_assoc. }
    cbv zeta in H.
    set (w2 := if Py.truthy v then w1
               else log (EPrint ("Could not find coordinates for "
                                   ++ normalize_rsid rsid)) w1) in *.
    assert (Hlast : (i <? n - 1)%nat = negb (Nat.eqb (List.length rest) 0)).
    { subst n. cbn [List.length].
      destruct rest as [| x xs]; cbn [List.length Nat.eqb negb].
      - apply Nat.ltb_ge. lia.
      - apply Nat.ltb_lt. lia. }
    rewrite Hlast in H.
    apply (IH n (S i)) in H; [| cbn [List.length] in Hn; lia].
    destruct H as (segs & Hall & Ht).
    exists (seg2 :: segs). split; [now constructor |].
    rewrite Ht. destruct rest as [| x xs].
    + inversion Hall; subst. cbn [List.length Nat.eqb negb intercalate].
      rewrite andb_false_r, app_nil_r. exact Ht2.
    + inversion Hall as [| ? s' ? ss' Hx Hxs]; subst.
      cbn [List.length Nat.eqb negb]. rewrite andb_true_r.
      change (intercalate ?sep (seg2 :: s' :: ss'))
        with (seg2 ++ sep ++ intercalate sep (s' :: ss'))%list.
      destruct (negb (Qle_bool delay 0)).
      * cbn [log trace]. rewrite Ht2, <- !app_assoc. reflexivity.
      * rewrite Ht2, <- !app_assoc. reflexivity.
Qed.

(** A batch that returns has paused between consecutive lookups and
    nowhere else.  What it adds to the trace is one stretch per
    identifier, in the order of the list - each starting with the request
    for that identifier and holding no pause - with, when [delay] is
    positive, one pause of that length between two consecutive stretches,
    none before the first and none after the last; with a [delay] of zero
    or less there is no pause at all.  So the pauses are one less than
    the identifiers, or none. *)
Theorem batch_pauses_between_lookups
    (rsid_list : list string) (delay : Q) (method : string)
    (net : network) (w w' : world) (results : dict) :
  batch_get_loci rsid_list delay method net w = (Ret results, w') ->
  (exists segments,
      Forall2 lookup_segment rsid_list segments
      /\ trace w'
         = (trace w
              ++ intercalate (if negb (Qle_bool delay 0) then [ESleep delay] else [])
                   segments)%list)
  /\ sleeps (trace w')
     = (sleeps (trace w)
          ++ repeat delay (if negb (Qle_bool delay 0)
                           then List.length rsid_list - 1 else 0))%list.
Proof.
  unfold batch_get_loci. intros H. split.
  - now apply (batch_loop_segments delay method net rsid_list
                 (List.length rsid_list) 0 [] results w w').
  - now apply (batch_loop_sleeps delay method net rsid_list
                 (List.length rsid_list) 0 [] results w w').
Qed.

Lemma batch_pauses_between_lookups_witness :
  (exists segments,
      Forall2 lookup_segment ["rs1"; "rs2"] segments
      /\ trace {| sent := 2;
                  trace := [ EGet (myvariant_request "rs1");
                             ESleep (2 # 10);
                             EGet (myvariant_request "rs2");
                             EPrint "Could not find coordinates for rs2" ] |}
         = (trace fresh
              ++ intercalate (if negb (Qle_bool (2 # 10) 0)
                              then [ESleep (2 # 10)] else [])
                   segments)%list)
  /\ sleeps (trace {| sent := 2;
                      trace := [ EGet (myvariant_request "rs1");
                                 ESleep (2 # 10);
                                 EGet (myvariant_request "rs2");
                                 EPrint "Could not find coordinates for rs2" ] |})
     = (sleeps (trace fresh)
          ++ repeat (2 # 10)%Q (if negb (Qle_bool (2 # 10) 0)
                              then List.length ["rs1"; "rs2"] - 1 else 0))%list.
Proof.
  apply (batch_pauses_between_lookups ["rs1"; "rs2"] (2 # 10) "myvariant"
           only_rs1 fresh _ [ ("rs1", apoe_record "rs1") ]).
  reflexivity.
Defined.

(** ** The requests of a batch *)

Lemma single_method_gets (rsid : string) (net : network) (w : world) :
  gets (trace (snd (get_hs37d5_loci rsid "myvariant" net w)))
  = (gets (trace w) ++ [myvariant_request (normalize_rsid rsid)])%list
  /\ gets (trace (snd (get_hs37d5_loci rsid "ensembl" net w)))
     = (gets (trace w) ++ [ensembl_request (normalize_rsid rsid)])%list.
Proof.
  unfold get_hs37d5_loci. cbn [String.eqb Ascii.eqb Bool.eqb]. split.
  - destruct (myvariant_events (normalize_rsid rsid) net w) as [-> _].
    now rewrite normalize_rsid_idempotent.
  - destruct (ensembl_events (normalize_rsid rsid) net w) as [-> _].
    now rewrite normalize_rsid_idempotent.
Qed.

Lemma batch_loop_gets (delay : Q) (method : string) (net : network)
    (req : string -> request) :
  (forall rsid w,
      gets (trace (snd (get_hs37d5_loci rsid method net w)))
      = (gets (trace w) ++ [req (normalize_rsid rsid)])%list) ->
  forall (rsids : list string) (n i : nat) (results r : dict) (w w' : world),
    batch_loop n i rsids delay method results net w = (Ret r, w') ->
    gets (trace w')
    = (gets (trace w) ++ map (fun rsid => req (normalize_rsid rsid)) rsids)%list.
Proof.
  intros Hreq rsids.
  induction rsids as [| rsid rest IH]; intros n i results r w w' H.
  - injection H as <- <-. cbn [map]. now rewrite app_nil_r.
  - cbn [batch_loop] in H. unfold bind at 1 in H.
    pose proof (Hreq (normalize_rsid rsid) w) as Hg1.
    rewrite normalize_rsid_idempotent in Hg1.
    destruct (get_hs37d5_loci (normalize_rsid rsid) method net w) as [[v | e] w1];
      [| discriminate]. cbn [snd] in Hg1.
    unfold bind at 1 in H.
    assert (Hstep : exists results1 w2,
               (if Py.truthy v
                then ret (Dict.set (normalize_rsid rsid) v results)
                else print ("Could not find coordinates for "
                              ++ normalize_rsid rsid) ;;; ret results) net w1
               = (Ret results1, w2) /\ gets (trace w2) = gets (trace w1)).
    { destruct (Py.truthy v).
      - eexists; eexists; split; reflexivity.
      - unfold bind, print, ret. eexists; eexists; split; [reflexivity |].
        cbn [log trace]. rewrite gets_app. cbn. now rewrite app_nil_r. }
    destruct Hstep as (results1 & w2 & Hrun & Hg2). rewrite Hrun in H.
    unfold bind at 1 in H.
    assert (Hpause : exists w3,
               (if negb (Qle_bool delay 0) && (i <? n - 1)%nat
                then sleep delay else ret tt) net w2 = (Ret tt, w3)
               /\ gets (trace w3) = gets (trace w2)).
    { destruct (negb (Qle_bool delay 0) && (i <? n - 1)%nat).
      - unfold sleep. eexists; split; [reflexivity |].
        cbn [log trace]. rewrite gets_app. cbn. now rewrite app_nil_r.
      - eexists; split; reflexivity. }
    destruct Hpause as (w3 & Hrun3 & Hg3). rewrite Hrun3 in H.
    apply IH in H. rewrite H, Hg3, Hg2, Hg1. cbn [map].
    now rewrite <- app_assoc.
Qed.

(** A batch over one service that returns has sent one request per
    identifier, in the order of the list, each for the normalized
    identifier - also for an identifier listed twice. *)
Theorem batch_requests_in_order
    (rsid_list : list string) (delay : Q) (net : network)
    (w w' : world) (results : dict) :
  (batch_get_loci rsid_list delay "myvariant" net w = (Ret results, w') ->
   gets (trace w')
   = (gets (trace w)
        ++ map (fun rsid => myvariant_request (normalize_rsid rsid)) rsid_list)%list)
  /\ (batch_get_loci rsid_list delay "ensembl" net w = (Ret results, w') ->
      gets (trace w')
      = (gets (trace w)
           ++ map (fun rsid => ensembl_request (normalize_rsid rsid)) rsid_list)%list).
Proof.
  unfold batch_get_loci. split; intros H.
  - apply (batch_loop_gets delay "myvariant" net myvariant_request) in H;
      [exact H |]. intros rsid w0. apply single_method_gets.
  - apply (batch_loop_gets delay "ensembl" net ensembl_request) in H;
      [exact H |]. intros rsid w0. apply single_method_gets.
Qed.

Lemma batch_requests_in_order_witness :
  gets (trace {| sent := 2;
                 trace := [ EGet (myvariant_request "rs1");
                            ESleep (2 # 10);
                            EGet (myvariant_request "rs2");
                            EPrint "Could not find coordinates for rs2" ] |})
  = (gets (trace fresh)
       ++ map (fun rsid => myvariant_request (normalize_rsid rsid)) ["1"; "rs2"])%list.
Proof.
  apply (proj1 (batch_requests_in_order ["1"; "rs2"] (2 # 10) only_rs1 fresh _
                  [ ("rs1", apoe_record "rs1") ])).
  reflexivity.
Defined.

(** ** The mapping of a batch *)

Lemma get_set (k k0 : string) (v : pyval) (d : dict) :
  Dict.get k0 (Dict.set k v d)
  = if String.eqb k0 k then Some v else Dict.get k0 d.
Proof.
  destruct (String.eqb k0 k) eqn:E.
  - apply String.eqb_eq in E. subst. apply get_set_eq.
  - now apply get_set_ne.
Qed.

Lemma keys_set (k : string) (v : pyval) (d : dict) :
  Dict.keys (Dict.set k v d)
  = if Dict.mem k d then Dict.keys d else (Dict.keys d ++ [k])%list.
Proof.
  unfold Dict.keys, Dict.mem.
  induction d as [| [k' v'] rest IH]; [reflexivity |].
  cbn [Dict.set Dict.get]. destruct (String.eqb k k') eqn:E.
  - apply String.eqb_eq in E. now subst.
  - cbn [map fst]. rewrite IH. now destruct (Dict.get k rest).
Qed.

Lemma mem_keys (k : string) (d : dict) :
  Dict.mem k d = true <-> In k (Dict.keys d).
Proof.
  unfold Dict.keys, Dict.mem.
  induction d as [| [k' v'] rest IH]; [now split |].
  cbn [Dict.get map fst In]. destruct (String.eqb k k') eqn:E.
  - apply String.eqb_eq in E. subst. split; auto.
  - rewrite IH. split; [auto |]. intros [-> | H]; [| exact H].
    now rewrite String.eqb_refl in E.
Qed.

Lemma NoDup_keys_set (k : string) (v : pyval) (d : dict) :
  NoDup (Dict.keys d) -> NoDup (Dict.keys (Dict.set k v d)).
Proof.
  intros H. rewrite keys_set. destruct (Dict.mem k d) eqn:M; [exact H |].
  apply NoDup_app; [exact H | repeat constructor; auto |].
  intros x Hx [<- | []]. apply mem_keys in Hx. congruence.
Qed.

Lemma single_service_returned
    (rsid : string) (net : network) (w : world) (v : pyval) :
  fst (get_hs37d5_loci_myvariant rsid net w) = Ret v
  \/ fst (get_hs37d5_loci_ensembl rsid net w) = Ret v ->
  v = PNone
  \/ exists s p ref alts,
       v = PDict (record_of (normalize_rsid rsid) (PStr s) p ref alts)
       /\ s <> "" /\ Py.truthy p = true.
Proof.
  intros [H | H].
  - pose proof H as H0. destruct (myvariant_outcome rsid net w) as [Ho _].
    rewrite Ho in H0.
    assert (Hv : v = PNone \/ fully_populated v = true).
    { destruct (decoded _); [now apply myvariant_extract_full in H0 |].
      destruct (escaping _); [discriminate |]. injection H0 as <-. now left. }
    destruct Hv as [-> | Hv]; [now left | right].
    destruct v as [| | | | | d]; try discriminate.
    apply myvariant_returned_record in H.
    destruct H as (s & p & ref & alts & -> & Hs & Hp). eauto 8.
  - pose proof H as H0. destruct (ensembl_outcome rsid net w) as [Ho _].
    rewrite Ho in H0.
    assert (Hv : v = PNone \/ fully_populated v = true).
    { destruct (decoded _); [now apply ensembl_extract_full in H0 |].
      destruct (escaping _); [discriminate |]. injection H0 as <-. now left. }
    destruct Hv as [-> | Hv]; [now left | right].
    destruct v as [| | | | | d]; try discriminate.
    apply ensembl_returned_record in H.
    destruct H as (s & p & ref & ss & -> & Hs & Hp & _). eauto 8.
Qed.

Lemma get_hs37d5_loci_returned
    (rsid method : string) (net : network) (w w1 : world) (v : pyval) :
  get_hs37d5_loci rsid method net w = (Ret v, w1) ->
  v = PNone
  \/ exists s p ref alts,
       v = PDict (record_of (normalize_rsid rsid) (PStr s) p ref alts)
       /\ s <> "" /\ Py.truthy p = true.
Proof.
  unfold get_hs37d5_loci.
  destruct (String.eqb method "myvariant").
  { intros H. rewrite <- (normalize_rsid_idempotent rsid).
    apply (single_service_returned _ net w). left. now rewrite H. }
  destruct (String.eqb method "ensembl").
  { intros H. rewrite <- (normalize_rsid_idempotent rsid).
    apply (single_service_returned _ net w). right. now rewrite H. }
  destruct (String.eqb method "auto"); [| discriminate].
  unfold bind.
  destruct (get_hs37d5_loci_myvariant (normalize_rsid rsid) net w)
    as [[a | e] w0] eqn:Ea; [| discriminate].
  destruct (is_None a) eqn:N.
  - intros H. rewrite <- (normalize_rsid_idempotent rsid).
    apply (single_service_returned _ net w0). right. now rewrite H.
  - intros [= <- <-]. rewrite <- (normalize_rsid_idempotent rsid).
    apply (single_service_returned _ net w). left. now rewrite Ea.
Qed.

Lemma batch_loop_mapping (delay : Q) (method : string) (net : network)
    (rsids : list string) :
  forall (n i : nat) (results r : dict) (w w' : world),
    batch_loop n i rsids delay method results net w = (Ret r, w') ->
    NoDup (Dict.keys results) ->
    NoDup (Dict.keys r)
    /\ forall k v,
         Dict.get k r = Some v ->
         Dict.get k results = Some v
         \/ (In k (map normalize_rsid rsids)
             /\ exists s p ref alts,
                  v = PDict (record_of k (PStr s) p ref alts)
                  /\ s <> "" /\ Py.truthy p = true).
Proof.
  induction rsids as [| rsid rest IH]; intros n i results r w w' H Hnd.
  - injection H as <- <-. split; [exact Hnd | auto].
  - cbn [batch_loop] in H. unfold bind at 1 in H.
    destruct (get_hs37d5_loci (normalize_rsid rsid) method net w)
      as [[v | e] w1] eqn:Hrun; [| discriminate].
    apply get_hs37d5_loci_returned in Hrun.
    rewrite normalize_rsid_idempotent in Hrun.
    unfold bind at 1 in H.
    destruct (Py.truthy v) eqn:T.
    + unfold ret at 1 in H. unfold bind at 1 in H.
      destruct ((if negb (Qle_bool delay 0) && (i <? n - 1)%nat
                 then sleep delay else ret tt) net w1) as [[[] | e] w3] eqn:Hp;
        [| destruct (negb (Qle_bool delay 0) && (i <? n - 1)%nat); discriminate].
      apply IH in H; [| now apply NoDup_keys_set].
      destruct H as [Hnd' Hall]. split; [exact Hnd' |].
      intros k x Hk. destruct (Hall k x Hk) as [Hold | [Hin Hrec]].
      * rewrite get_set in Hold. destruct (String.eqb k (normalize_rsid rsid)) eqn:E.
        -- apply String.eqb_eq in E. subst k. injection Hold as <-.
           right. split; [now left |].
           destruct Hrun as [-> | Hrec]; [discriminate | exact Hrec].
        -- now left.
      * right. split; [now right | exact Hrec].
    + unfold bind at 1 in H. unfold print at 1 in H. unfold ret at 1 in H.
      unfold bind at 1 in H.
      destruct ((if negb (Qle_bool delay 0) && (i <? n - 1)%nat
                 then sleep delay else ret tt) net
                  (log (EPrint ("Could not find coordinates for "
                                  ++ normalize_rsid rsid)) w1))
        as [[[] | e] w3] eqn:Hp;
        [| destruct (negb (Qle_bool delay 0) && (i <? n - 1)%nat); discriminate].
      apply IH in H; [| exact Hnd].
      destruct H as [Hnd' Hall]. split; [exact Hnd' |].
      intros k x Hk. destruct (Hall k x Hk) as [Hold | [Hin Hrec]];
        [now left | right; split; [now right | exact Hrec]].
Qed.

(** Whatever the method and the services, the mapping of a batch that
    returns holds each key once, every key is the normalized form of an
    identifier of the list, and every value is a record whose [rsid]
    field is its key, with a non-empty chromosome and a truthy
    position. *)
Theorem batch_mapping_keys
    (rsid_list : list string) (delay : Q) (method : string)
    (net : network) (w w' : world) (results : dict) :
  batch_get_loci rsid_list delay method net w = (Ret results, w') ->
  NoDup (Dict.keys results)
  /\ forall k v,
       Dict.get k results = Some v ->
       In k (map normalize_rsid rsid_list)
       /\ exists s p ref alts,
            v = PDict [ ("rsid", PStr k); ("chromosome", PStr s); ("position", p);
                        ("ref_allele", ref); ("alt_alleles", alts);
                        ("build", PStr "hs37d5") ]
            /\ s <> "" /\ Py.truthy p = true.
Proof.
  unfold batch_get_loci. intros H.
  apply batch_loop_mapping in H; [| constructor].
  destruct H as [Hnd Hall]. split; [exact Hnd |].
  intros k v Hk. destruct (Hall k v Hk) as [[=] | H]. exact H.
Qed.

Lemma batch_mapping_keys_witness :
  NoDup (Dict.keys [ ("rs1", apoe_record "rs1") ])
  /\ forall k v,
       Dict.get k [ ("rs1", apoe_record "rs1") ] = Some v ->
       In k (map normalize_rsid ["1"; "rs2"])
       /\ exists s p ref alts,
            v = PDict [ ("rsid", PStr k); ("chromosome", PStr s); ("position", p);
                        ("ref_allele", ref); ("alt_alleles", alts);
                        ("build", PStr "hs37d5") ]
            /\ s <> "" /\ Py.truthy p = true.
Proof.
  apply (batch_mapping_keys ["1"; "rs2"] (2 # 10) "myvariant" only_rs1 fresh
           {| sent := 2;
              trace := [ EGet (myvariant_request "rs1");
                         ESleep (2 # 10);
                         EGet (myvariant_request "rs2");
                         EPrint "Could not find coordinates for rs2" ] |}).
  reflexivity.
Defined.

(** ** What service A stores *)

Lemma myvariant_set_alleles_contents
    (dbsnp : dict) (rsid : string) (c p ref alts : pyval) :
  myvariant_set_alleles (PDict dbsnp) (record_of rsid c p ref alts)
  = Ret (record_of rsid c p
           (or_default (Dict.get "ref" dbsnp) ref)
           (match Dict.get "alt" dbsnp with
            | None => alts
            | Some alt => if Py.is_str alt then PList [alt] else alt
            end)).
Proof.
  unfold myvariant_set_alleles, Py.contains, Py.getitem, Dict.mem, or_default.
  destruct (Dict.get "ref" dbsnp) as [r |];
    destruct (Dict.get "alt" dbsnp) as [a |]; reflexivity.
Qed.

Lemma myvariant_alternates_is_str (alt : option pyval) :
  match alt with
  | None => PList []
  | Some a => if Py.is_str a then PList [a] else a
  end = myvariant_alternates alt.
Proof. destruct alt as [[| | | s | l | d] |]; reflexivity. Qed.

Lemma myvariant_fill_hg19 (rsid : string) (top dbsnp : dict) (hg19_data : pyval) :
  Dict.get "dbsnp" top = Some (PDict dbsnp) ->
  Dict.get "hg19" dbsnp = Some hg19_data ->
  myvariant_fill rsid (PDict top)
  = (result <~ myvariant_coordinates hg19_data (new_result rsid) ;;
     myvariant_set_alleles (PDict dbsnp) result).
Proof.
  intros Hd Hh. unfold myvariant_fill.
  cbn [Py.contains Py.getitem rbind]. unfold Dict.mem.
  rewrite Hd. cbn [Py.contains Py.getitem rbind]. unfold Dict.mem.
  rewrite Hh. reflexivity.
Qed.

(** From a body of service A whose [hg19] is an object, or a list that
    starts with one (the rest of the list is not read), the resolver
    takes: the chromosome from [chr], as text and without any [chr]; the
    position from [start]; [ref] as it is; [alt] as a list, a single
    string becoming a one-element list.  It returns that record when the
    chromosome is not empty and the position is truthy, and [None]
    otherwise. *)
Theorem myvariant_record_contents
    (rsid : string) (net : network) (w : world)
    (top dbsnp m : dict) (hg19_data : pyval) :
  decoded (net (myvariant_request (normalize_rsid rsid)) (sent w)) = Some (PDict top) ->
  Dict.get "dbsnp" top = Some (PDict dbsnp) ->
  Dict.get "hg19" dbsnp = Some hg19_data ->
  hg19_data = PDict m \/ (exists rest, hg19_data = PList (PDict m :: rest)) ->
  let chrom := Str.replace (Py.str (or_default (Dict.get "chr" m) (PStr ""))) "chr" "" in
  let start := or_default (Dict.get "start" m) PNone in
  fst (get_hs37d5_loci_myvariant rsid net w)
  = if negb (String.eqb chrom "") && Py.truthy start
    then Ret (PDict (record_of (normalize_rsid rsid) (PStr chrom) start
                       (or_default (Dict.get "ref" dbsnp) PNone)
                       (myvariant_alternates (Dict.get "alt" dbsnp))))
    else Ret PNone.
Proof.
  intros Hdec Hd Hh Hm chrom start.
  destruct (myvariant_outcome rsid net w) as [-> _]. rewrite Hdec.
  unfold myvariant_extract.
  rewrite (myvariant_fill_hg19 _ top dbsnp hg19_data Hd Hh), new_result_record.
  assert (Hc : myvariant_coordinates hg19_data
                 (record_of (normalize_rsid rsid) PNone PNone PNone (PList []))
               = Ret (record_of (normalize_rsid rsid) (PStr chrom) start PNone
                        (PList []))).
  { destruct Hm as [-> | [rest ->]]; reflexivity. }
  rewrite Hc. cbn [rbind]. rewrite myvariant_set_alleles_contents.
  rewrite myvariant_alternates_is_str. cbn [rbind].
  unfold return_if_located.
  cbn [Py.getitem record_of Dict.get String.eqb Ascii.eqb Bool.eqb rbind Py.truthy].
  destruct (negb (String.eqb chrom "")); [| reflexivity].
  cbn [andb]. destruct (Py.truthy start); reflexivity.
Qed.

Lemma myvariant_record_contents_witness :
  fst (get_hs37d5_loci_myvariant "429358" (always (ok_body apoe_myvariant)) fresh)
  = if negb (String.eqb
               (Str.replace (Py.str (or_default
                                       (Dict.get "chr" [ ("end", PInt 45411941);
                                                         ("start", PInt 45411941);
                                                         ("chr", PStr "19") ])
                                       (PStr ""))) "chr" "") "")
       && Py.truthy (or_default (Dict.get "start" [ ("end", PInt 45411941);
                                                    ("start", PInt 45411941);
                                                    ("chr", PStr "19") ]) PNone)
    then Ret (PDict (record_of (normalize_rsid "429358")
                       (PStr (Str.replace
                                (Py.str (or_default
                                           (Dict.get "chr" [ ("end", PInt 45411941);
                                                             ("start", PInt 45411941);
                                                             ("chr", PStr "19") ])
                                           (PStr ""))) "chr" ""))
                       (or_default (Dict.get "start" [ ("end", PInt 45411941);
                                                       ("start", PInt 45411941);
                                                       ("chr", PStr "19") ]) PNone)
                       (or_default (Dict.get "ref"
                                      [ ("alt", PStr "C");
                                        ("hg19", PDict [ ("end", PInt 45411941);
                                                         ("start", PInt 45411941);
                                                         ("chr", PStr "19") ]);
                                        ("rsid", PStr "rs429358") ]) PNone)
                       (myvariant_alternates
                          (Dict.get "alt"
                             [ ("alt", PStr "C");
                               ("hg19", PDict [ ("end", PInt 45411941);
                                                ("start", PInt 45411941);
                                                ("chr", PStr "19") ]);
                               ("rsid", PStr "rs429358") ]))))
    else Ret PNone.
Proof.
  apply (myvariant_record_contents "429358" (always (ok_body apoe_myvariant)) fresh
           [ ("_id", PStr "chr19:g.45411941T>C");
             ("dbsnp", PDict [ ("alt", PStr "C");
                               ("hg19", PDict [ ("end", PInt 45411941);
                                                ("start", PInt 45411941);
                                                ("chr", PStr "19") ]);
                               ("rsid", PStr "rs429358") ]) ]
           [ ("alt", PStr "C");
             ("hg19", PDict [ ("end", PInt 45411941); ("start", PInt 45411941);
                              ("chr", PStr "19") ]);
             ("rsid", PStr "rs429358") ]
           [ ("end", PInt 45411941); ("start", PInt 45411941); ("chr", PStr "19") ]
           (PDict [ ("end", PInt 45411941); ("start", PInt 45411941);
                    ("chr", PStr "19") ]));
    try reflexivity.
  left. reflexivity.
Defined.

(** ** The command line on printable services *)

Lemma yields_ret {A} (a : A) (net : network) (P : A -> Prop) :
  P a -> yields (ret a) net P.
Proof. intros H w. exists a, w. now split. Qed.

Lemma yields_print (line : string) (net : network) :
  yields (print line) net (fun _ => True).
Proof. intros w. eexists; eexists; split; [reflexivity | exact I]. Qed.

Lemma yields_sleep (seconds : Q) (net : network) :
  yields (sleep seconds) net (fun _ => True).
Proof. intros w. eexists; eexists; split; [reflexivity | exact I]. Qed.

Lemma yields_lift {A} (r : outcome A) (a : A) (net : network) (P : A -> Prop) :
  r = Ret a -> P a -> yields (lift r) net P.
Proof. intros -> H w. exists a, w. now split. Qed.

Lemma yields_bind {A B} (m : M A) (k : A -> M B) (net : network)
    (P : A -> Prop) (Q : B -> Prop) :
  yields m net P -> (forall a, P a -> yields (k a) net Q) -> yields (bind m k) net Q.
Proof.
  intros Hm Hk w. unfold bind.
  destruct (Hm w) as (a & w1 & -> & Ha). apply (Hk a Ha).
Qed.

Lemma yields_weaken {A} (m : M A) (net : network) (P Q : A -> Prop) :
  yields m net P -> (forall a, P a -> Q a) -> yields m net Q.
Proof.
  intros Hm HPQ w. destruct (Hm w) as (a & w1 & Hrun & Ha). eauto.
Qed.

Ltac then_print :=
  apply (yields_bind _ _ _ (fun _ => True));
  [apply yields_print | intros _ _].

Lemma printable_documented (net : network) : printable net -> documented net.
Proof.
  intros H rsid n. destruct (H rsid n) as [Ha Hb]. split; [| exact Hb].
  unfold shaped in *. destruct (decoded _); [| reflexivity].
  unfold myvariant_printable in Ha. now apply andb_true_iff in Ha.
Qed.

Lemma myvariant_fill_joinable (rsid : string) (data : pyval) (r : dict) :
  myvariant_printable data = true ->
  myvariant_fill rsid data = Ret r ->
  exists c p ref alts, r = record_of rsid c p ref alts /\ joinable alts = true.
Proof.
  unfold myvariant_printable. intros Hp Hfill.
  apply andb_true_iff in Hp. destruct Hp as [Hshape Halt].
  destruct data as [| | | | | top]; try discriminate.
  cbn [myvariant_shape] in Hshape.
  destruct (Dict.get "dbsnp" top) as [[| | | | | dbsnp] |] eqn:Hd;
    try discriminate.
  - destruct (Dict.get "hg19" dbsnp) as [hg19_data |] eqn:Hh.
    + rewrite (myvariant_fill_hg19 _ top dbsnp hg19_data Hd Hh) in Hfill.
      apply rbind_ret_inv in Hfill. destruct Hfill as (r1 & Hc & Hset).
      rewrite new_result_record in Hc.
      apply myvariant_coordinates_form in Hc; [| reflexivity].
      destruct Hc as (c' & p' & -> & _).
      rewrite myvariant_set_alleles_contents in Hset. injection Hset as <-.
      eexists; eexists; eexists; eexists. split; [reflexivity |].
      destruct (Dict.get "alt" dbsnp) as [[| | | s | l | d] |];
        try discriminate; try reflexivity.
      cbn [Py.is_str joinable]. exact Halt.
    + unfold myvariant_fill in Hfill.
      cbn [Py.contains Py.getitem rbind] in Hfill. unfold Dict.mem in Hfill.
      rewrite Hd in Hfill. cbn [Py.contains Py.getitem rbind] in Hfill.
      unfold Dict.mem in Hfill. rewrite Hh in Hfill. injection Hfill as <-.
      exists PNone, PNone, PNone, (PList []). now split.
  - unfold myvariant_fill in Hfill.
    cbn [Py.contains Py.getitem rbind] in Hfill. unfold Dict.mem in Hfill.
    rewrite Hd in Hfill. injection Hfill as <-.
    exists PNone, PNone, PNone, (PList []). now split.
Qed.

Lemma myvariant_extract_printable (rsid : string) (data v : pyval) :
  myvariant_printable data = true ->
  myvariant_extract rsid data = Ret v ->
  v = PNone \/ printable_record v.
Proof.
  intros Hp H. unfold myvariant_extract in H.
  apply rbind_ret_inv in H. destruct H as (r & Hfill & H).
  apply (myvariant_fill_joinable _ _ _ Hp) in Hfill.
  destruct Hfill as (c & p & ref & alts & -> & Hj).
  apply return_if_located_full in H. destruct H as [-> | [-> _]]; [now left |].
  right. exists rsid, c, p, ref, alts. now split.
Qed.

Lemma ensembl_extract_printable (rsid : string) (data v : pyval) :
  ensembl_extract rsid data = Ret v ->
  v = PNone \/ printable_record v.
Proof.
  intros H. unfold ensembl_extract in H.
  apply rbind_ret_inv in H. destruct H as (r & Hfill & H).
  apply ensembl_fill_form in Hfill.
  destruct Hfill as (c & p & ref & ss & -> & _ & _).
  apply return_if_located_full in H. destruct H as [-> | [-> _]]; [now left |].
  right. exists rsid, c, p, ref, (PList (map PStr ss)). split; [reflexivity |].
  cbn [joinable]. now rewrite all_str_map_PStr.
Qed.

Lemma myvariant_yields (rsid : string) (net : network) :
  printable net -> decodable net ->
  yields (get_hs37d5_loci_myvariant rsid) net
    (fun v => v = PNone \/ printable_record v).
Proof.
  intros Hp Hdec w.
  destruct (myvariant_returns rsid net w (printable_documented net Hp) Hdec)
    as (v & w' & Hrun & _).
  exists v, w'. split; [exact Hrun |].
  destruct (myvariant_outcome rsid net w) as [Ho _]. rewrite Hrun in Ho.
  cbn [fst] in Ho.
  destruct (Hp (normalize_rsid rsid) (sent w)) as [Hs _]. unfold shaped in Hs.
  destruct (decoded _) as [data |].
  - symmetry in Ho. now apply (myvariant_extract_printable _ _ _ Hs) in Ho.
  - destruct (escaping _); [discriminate |]. injection Ho as ->. now left.
Qed.

Lemma ensembl_yields (rsid : string) (net : network) :
  printable net -> decodable net ->
  yields (get_hs37d5_loci_ensembl rsid) net
    (fun v => v = PNone \/ printable_record v).
Proof.
  intros Hp Hdec w.
  destruct (ensembl_returns rsid net w (printable_documented net Hp) Hdec)
    as (v & w' & Hrun & _).
  exists v, w'. split; [exact Hrun |].
  destruct (ensembl_outcome rsid net w) as [Ho _]. rewrite Hrun in Ho.
  cbn [fst] in Ho.
  destruct (decoded _) as [data |].
  - symmetry in Ho. now apply ensembl_extract_printable in Ho.
  - destruct (escaping _); [discriminate |]. injection Ho as ->. now left.
Qed.

Lemma get_hs37d5_loci_yields (rsid method : string) (net : network) :
  recognized method = true -> printable net -> decodable net ->
  yields (get_hs37d5_loci rsid method) net
    (fun v => v = PNone \/ printable_record v).
Proof.
  intros Hm Hp Hdec. unfold recognized in Hm. unfold get_hs37d5_loci.
  destruct (String.eqb method "myvariant"); [now apply myvariant_yields |].
  destruct (String.eqb method "ensembl"); [now apply ensembl_yields |].
  destruct (String.eqb method "auto"); [| discriminate].
  apply (yields_bind _ _ _ (fun v => v = PNone \/ printable_record v));
    [now apply myvariant_yields |].
  intros v Hv. destruct (is_None v) eqn:N; [now apply ensembl_yields |].
  now apply yields_ret.
Qed.

Lemma printable_truthy (v : pyval) :
  v = PNone \/ printable_record v -> Py.truthy v = true -> printable_record v.
Proof. intros [-> | H]; [discriminate | auto]. Qed.

Lemma format_loci_printable (v : pyval) (style : string) :
  printable_record v -> exists text, format_loci v style = Ret text.
Proof.
  intros (rsid & c & p & ref & alts & -> & Hj).
  apply (join_joinable ",") in Hj. destruct Hj as [joined Hj].
  unfold format_loci.
  cbn [Py.truthy record_of negb Py.getitem Py.get Dict.get String.eqb Ascii.eqb
         Bool.eqb rbind].
  rewrite Hj. cbn [rbind].
  destruct (String.eqb style "hs37d5"); eexists; reflexivity.
Qed.

Lemma result_line_yields (loci : pyval) (net : network) :
  printable_record loci ->
  yields (id <- lift (Py.getitem loci "rsid") ;;
          text <- lift (format_loci loci "hs37d5") ;;
          print (Py.str id ++ ": " ++ text)) net (fun _ => True).
Proof.
  intros Hrec. destruct (format_loci_printable loci "hs37d5" Hrec) as [text Ht].
  destruct Hrec as (rsid & c & p & ref & alts & -> & Hj).
  apply (yields_bind _ _ _ (fun _ => True));
    [apply (yields_lift _ (PStr rsid)); [reflexivity | exact I] | intros id _].
  apply (yields_bind _ _ _ (fun _ => True));
    [apply (yields_lift _ text); [exact Ht | exact I] | intros t _].
  apply yields_print.
Qed.

Lemma main_lookups_yields (rsids : list string) (net : network) :
  printable net -> decodable net ->
  yields (main_lookups rsids) net (fun _ => True).
Proof.
  intros Hp Hdec. induction rsids as [| rsid rest IH]; [now apply yields_ret |].
  cbn [main_lookups].
  apply (yields_bind _ _ _ (fun v => v = PNone \/ printable_record v));
    [now apply get_hs37d5_loci_yields |].
  intros loci Hloci.
  apply (yields_bind _ _ _ (fun _ => True)); [| intros _ _; exact IH].
  destruct (Py.truthy loci) eqn:T; [| apply yields_print].
  apply result_line_yields. now apply printable_truthy.
Qed.

Lemma Forall_set (P : pyval -> Prop) (k : string) (v : pyval) (d : dict) :
  P v -> Forall (fun kv => P (snd kv)) d ->
  Forall (fun kv => P (snd kv)) (Dict.set k v d).
Proof.
  intros Hv Hd. induction Hd as [| [k' v'] rest Hh Ht IH]; cbn [Dict.set].
  - now repeat constructor.
  - destruct (String.eqb k k'); constructor; auto.
Qed.

Lemma batch_loop_yields (delay : Q) (method : string) (net : network)
    (rsids : list string) :
  recognized method = true -> printable net -> decodable net ->
  forall (n i : nat) (results : dict),
    Forall (fun kv => printable_record (snd kv)) results ->
    yields (batch_loop n i rsids delay method results) net
      (Forall (fun kv => printable_record (snd kv))).
Proof.
  intros Hm Hp Hdec. induction rsids as [| rsid rest IH]; intros n i results Hr.
  - now apply yields_ret.
  - cbn [batch_loop].
    apply (yields_bind _ _ _ (fun v => v = PNone \/ printable_record v));
      [now apply get_hs37d5_loci_yields |].
    intros v Hv.
    apply (yields_bind _ _ _ (Forall (fun kv => printable_record (snd kv)))).
    + destruct (Py.truthy v) eqn:T.
      * apply yields_ret. apply Forall_set; [| exact Hr].
        now apply printable_truthy.
      * then_print. now apply yields_ret.
    + intros results1 Hr1.
      apply (yields_bind _ _ _ (fun _ => True)); [| intros _ _; now apply IH].
      destruct (negb (Qle_bool delay 0) && (i <? n - 1)%nat);
        [apply yields_sleep | now apply yields_ret].
Qed.

Lemma main_print_results_yields (items : dict) (net : network) :
  Forall (fun kv => printable_record (snd kv)) items ->
  yields (main_print_results items) net (fun _ => True).
Proof.
  intros H. induction H as [| [k loci] rest Hh Ht IH]; [now apply yields_ret |].
  cbn [main_print_results].
  apply (yields_bind _ _ _ (fun _ => True)); [| intros _ _; exact IH].
  destruct (Py.truthy loci); [now apply result_line_yields | now apply yields_ret].
Qed.

Lemma main_example_yields (net : network) :
  printable net -> decodable net -> yields main_example net (fun _ => True).
Proof.
  intros Hp Hdec. unfold main_example.
  do 7 then_print.
  apply (yields_bind _ _ _ (fun v => v = PNone \/ printable_record v));
    [now apply get_hs37d5_loci_yields |].
  intros loci Hloci.
  apply (yields_bind _ _ _ (fun _ => True)).
  { destruct (Py.truthy loci) eqn:T; [| now apply yields_ret].
    apply printable_truthy in Hloci; [| exact T].
    destruct (format_loci_printable loci "hs37d5" Hloci) as [compact_text Hc].
    destruct (format_loci_printable loci "standard" Hloci) as [standard_text Hs].
    destruct Hloci as (rsid & c & p & ref & alts & -> & Hj).
    apply (join_joinable ", ") in Hj. destruct Hj as [joined Hj].
    apply (yields_bind _ _ _ (fun _ => True));
      [apply (yields_lift _ (PStr rsid)); [reflexivity | exact I] | intros ? _].
    then_print.
    apply (yields_bind _ _ _ (fun _ => True));
      [apply (yields_lift _ c); [reflexivity | exact I] | intros ? _].
    then_print.
    apply (yields_bind _ _ _ (fun _ => True));
      [apply (yields_lift _ p); [reflexivity | exact I] | intros ? _].
    then_print.
    apply (yields_bind _ _ _ (fun _ => True));
      [apply (yields_lift _ compact_text); [exact Hc | exact I] | intros ? _].
    then_print.
    apply (yields_bind _ _ _ (fun _ => True));
      [apply (yields_lift _ standard_text); [exact Hs | exact I] | intros ? _].
    then_print.
    apply (yields_bind _ _ _ (fun _ => True));
      [apply (yields_lift _ ref); [reflexivity | exact I] | intros ? _].
    then_print.
    apply (yields_bind _ _ _ (fun a => a = alts));
      [apply (yields_lift _ alts); reflexivity | intros ? ->].
    apply (yields_bind _ _ _ (fun _ => True));
      [apply (yields_lift _ joined); [exact Hj | exact I] | intros ? _].
    apply yields_print. }
  intros _ _.
  do 3 then_print.
  apply (yields_bind _ _ _ (Forall (fun kv => printable_record (snd kv)))).
  { unfold batch_get_loci. apply batch_loop_yields;
      [reflexivity | exact Hp | exact Hdec | constructor]. }
  intros results Hr.
  apply (yields_bind _ _ _ (fun _ => True));
    [now apply main_print_results_yields | intros _ _].
  do 5 then_print. apply yields_print.
Qed.

(** With services whose bodies have the documented shape and whose
    [alt], when there, is a string or a list of strings, and a decoder
    that raises nothing but its [JSONDecodeError] - requests may still
    fail or be answered with errors - the script runs to its end, with
    or without arguments: no exception leaves it.  (Printing is taken
    not to fail.) *)
Theorem main_completes (argv : list string) (net : network) (w : world) :
  printable net ->
  decodable net ->
  exists w', main argv net w = (Ret tt, w').
Proof.
  intros Hp Hdec. unfold main.
  assert (H : yields (if (1 <? List.length argv)%nat
                      then main_with_arguments (tl argv)
                      else main_example) net (fun _ => True)).
  { destruct (1 <? List.length argv)%nat; [| now apply main_example_yields].
    unfold main_with_arguments. then_print. now apply main_lookups_yields. }
  destruct (H w) as ([] & w' & Hrun & _). eauto.
Qed.

Lemma only_rs1_printable : printable only_rs1.
Proof.
  intros rsid n. unfold only_rs1. split.
  - destruct (String.eqb (url (myvariant_request rsid)) _); reflexivity.
  - destruct (String.eqb (url (ensembl_request rsid)) _); reflexivity.
Qed.

Lemma main_completes_witness :
  exists w', main ["rsid_to_hs37d5.py"; "1"; "rs2"] only_rs1 fresh = (Ret tt, w').
Proof.
  apply (main_completes ["rsid_to_hs37d5.py"; "1"; "rs2"] only_rs1 fresh
           only_rs1_printable only_rs1_decodable).
Defined.

(** ** The command line when nothing is found *)

Lemma unknown_lookup (rsid : string) (net : network) (w : world) :
  knows_nothing net ->
  get_hs37d5_loci rsid "auto" net w
  = (Ret PNone,
     sent_request (ensembl_request (normalize_rsid rsid))
       (sent_request (myvariant_request (normalize_rsid rsid)) w)).
Proof.
  intros Hk. rewrite auto_unfold. unfold bind.
  rewrite myvariant_run. cbv zeta.
  destruct (Hk (myvariant_request (normalize_rsid rsid)) (sent w))
    as (ra & -> & Hsa).
  unfold settle at 1. rewrite Hsa. cbn [Z.eqb Pos.eqb is_None].
  rewrite ensembl_run. cbv zeta.
  destruct (Hk (ensembl_request (normalize_rsid rsid))
              (sent (sent_request (myvariant_request (normalize_rsid rsid)) w)))
    as (rb & -> & Hsb).
  unfold settle. rewrite Hsb. reflexivity.
Qed.

Lemma main_lookups_nothing (net : network) (rsids : list string) :
  knows_nothing net ->
  forall w, exists w',
    main_lookups rsids net w = (Ret tt, w')
    /\ trace w'
       = (trace w
            ++ flat_map (fun rsid =>
                           [ EGet (myvariant_request (normalize_rsid rsid));
                             EGet (ensembl_request (normalize_rsid rsid));
                             EPrint (rsid ++ ": Not found") ]) rsids)%list
    /\ sent w' = (sent w + 2 * List.length rsids)%nat.
Proof.
  intros Hk. induction rsids as [| rsid rest IH]; intros w.
  - exists w. cbn. rewrite app_nil_r. repeat split. lia.
  - cbn [main_lookups]. unfold bind at 1. rewrite (unknown_lookup _ _ _ Hk).
    cbn [Py.truthy]. unfold bind at 1. unfold print at 1.
    set (w1 := log (EPrint (rsid ++ ": Not found"))
                 (sent_request (ensembl_request (normalize_rsid rsid))
                    (sent_request (myvariant_request (normalize_rsid rsid)) w))).
    destruct (IH w1) as (w' & Hrun & Ht & Hs). exists w'.
    split; [exact Hrun |]. split.
    + rewrite Ht. unfold w1, log, sent_request. cbn [trace flat_map].
      rewrite <- !app_assoc. reflexivity.
    + rewrite Hs. unfold w1, log, sent_request. cbn [sent List.length]. lia.
Qed.

(** When both services answer every request with 404, the script called
    with arguments prints its heading and then, for each argument in
    order, asks service A and service B for the normalized identifier and
    prints one line, the argument as it was typed followed by
    [: Not found]; it prints no warning, never sleeps and returns. *)
Theorem main_nothing_found (rsids : list string) (net : network) (w : world) :
  knows_nothing net ->
  exists w',
    main_with_arguments rsids net w = (Ret tt, w')
    /\ trace w'
       = (trace w
            ++ EPrint ("Looking up " ++ Str.of_Z (Z.of_nat (List.length rsids))
                         ++ " rsID(s) for hs37d5..." ++ newline)
            :: flat_map (fun rsid =>
                           [ EGet (myvariant_request (normalize_rsid rsid));
                             EGet (ensembl_request (normalize_rsid rsid));
                             EPrint (rsid ++ ": Not found") ]) rsids)%list
    /\ sent w' = (sent w + 2 * List.length rsids)%nat.
Proof.
  intros Hk. unfold main_with_arguments, bind, print.
  destruct (main_lookups_nothing net rsids Hk
              (log (EPrint ("Looking up " ++ Str.of_Z (Z.of_nat (List.length rsids))
                              ++ " rsID(s) for hs37d5..." ++ newline)) w))
    as (w' & Hrun & Ht & Hs).
  exists w'. split; [exact Hrun |]. split.
  - rewrite Ht. cbn [log trace]. now rewrite <- app_assoc.
  - exact Hs.
Qed.

Lemma always_not_found_knows_nothing : knows_nothing (always not_found).
Proof. intros req n. eexists. split; reflexivity. Qed.

Lemma main_nothing_found_witness :
  exists w',
    main_with_arguments ["7412"] (always not_found) fresh = (Ret tt, w')
    /\ trace w'
       = (trace fresh
            ++ EPrint ("Looking up " ++ Str.of_Z (Z.of_nat (List.length ["7412"]))
                         ++ " rsID(s) for hs37d5..." ++ newline)
            :: flat_map (fun rsid =>
                           [ EGet (myvariant_request (normalize_rsid rsid));
                             EGet (ensembl_request (normalize_rsid rsid));
                             EPrint (rsid ++ ": Not found") ]) ["7412"])%list
    /\ sent w' = (sent fresh + 2 * List.length ["7412"])%nat.
Proof.
  apply (main_nothing_found ["7412"] (always not_found) fresh
           always_not_found_knows_nothing).
Defined.

(** ** What service B stores *)

(** From a body of service B the resolver reads the first mapping only:
    the chromosome is [seq_region_name] without any [chr], the position
    is [start], and the alleles are the parts of [allele_string] (none
    when the field is not there).  It returns that record when the
    chromosome is not empty and the position is truthy, and [None]
    otherwise. *)
Theorem ensembl_record_contents
    (rsid : string) (net : network) (w : world)
    (top m : dict) (rest : list pyval) (name : string) :
  decoded (net (ensembl_request (normalize_rsid rsid)) (sent w)) = Some (PDict top) ->
  Dict.get "mappings" top = Some (PList (PDict m :: rest)) ->
  or_default (Dict.get "seq_region_name" m) (PStr "") = PStr name ->
  str_or_missing "allele_string" m = true ->
  let chrom := Str.replace name "chr" "" in
  let start := or_default (Dict.get "start" m) PNone in
  let alleles := match Dict.get "allele_string" m with
                 | Some (PStr text) => Str.split "/" text
                 | _ => []
                 end in
  fst (get_hs37d5_loci_ensembl rsid net w)
  = if negb (String.eqb chrom "") && Py.truthy start
    then Ret (PDict (record_of (normalize_rsid rsid) (PStr chrom) start
                       (match alleles with
                        | ref :: _ => PStr ref
                        | [] => PNone
                        end)
                       (PList (map PStr (tl alleles)))))
    else Ret PNone.
Proof.
  intros Hdec Hm Hname Hal chrom start alleles.
  destruct (ensembl_outcome rsid net w) as [-> _]. rewrite Hdec.
  unfold ensembl_extract, ensembl_fill.
  cbn [Py.contains Py.getitem rbind]. unfold Dict.mem. rewrite Hm.
  cbn [Py.len Py.getitem0 rbind List.length Nat.ltb Nat.leb].
  unfold ensembl_set_mapping. cbn [Py.get rbind].
  unfold or_default in Hname. rewrite Hname. cbn [Py.replace rbind].
  fold (or_default (Dict.get "start" m) PNone). fold start.
  fold chrom. cbn [Py.contains Py.getitem rbind]. unfold Dict.mem.
  unfold str_or_missing in Hal. subst alleles.
  destruct (Dict.get "allele_string" m) as [[| | | text | |] |];
    try discriminate; cbn [rbind Py.split].
  - pose proof (split_not_nil "/" text) as Hne.
    destruct (Str.split "/" text) as [| ref [| second others]];
      [contradiction | |];
      cbn [map List.length Nat.ltb Nat.leb hd tl rbind];
      unfold return_if_located, new_result;
      cbn [Dict.set Py.getitem record_of Dict.get String.eqb Ascii.eqb Bool.eqb
             rbind Py.truthy];
      (destruct (negb (String.eqb chrom "")); [| reflexivity]);
      cbn [andb];
      (destruct (Py.truthy start); reflexivity).
  - unfold return_if_located, new_result.
    cbn [Dict.set Py.getitem record_of Dict.get String.eqb Ascii.eqb Bool.eqb
           rbind Py.truthy map tl].
    destruct (negb (String.eqb chrom "")); [| reflexivity].
    cbn [andb].
    destruct (Py.truthy start); reflexivity.
Qed.

Lemma ensembl_record_contents_witness :
  fst (get_hs37d5_loci_ensembl "7412" (always (ok_body apoe_ensembl)) fresh)
  = Ret (PDict (record_of "rs7412" (PStr "19") (PInt 45412079) (PStr "C")
                  (PList [PStr "T"]))).
Proof.
  apply (ensembl_record_contents "7412" (always (ok_body apoe_ensembl)) fresh
           [ ("name", PStr "rs7412");
             ("mappings", PList [ PDict [ ("seq_region_name", PStr "19");
                                          ("start", PInt 45412079);
                                          ("allele_string", PStr "C/T") ] ]) ]
           [ ("seq_region_name", PStr "19"); ("start", PInt 45412079);
             ("allele_string", PStr "C/T") ]
           [] "19");
    reflexivity.
Defined.

(** ** Identifiers with and without the prefix *)

Lemma get_hs37d5_loci_normalized (rsid method : string) :
  get_hs37d5_loci (normalize_rsid rsid) method = get_hs37d5_loci rsid method.
Proof. unfold get_hs37d5_loci. now rewrite normalize_rsid_idempotent. Qed.

Lemma batch_loop_normalized (delay : Q) (method : string) (net : network)
    (rsids : list string) :
  forall (n i : nat) (results : dict) (w : world),
    batch_loop n i (map normalize_rsid rsids) delay method results net w
    = batch_loop n i rsids delay method results net w.
Proof.
  induction rsids as [| rsid rest IH]; intros n i results w; [reflexivity |].
  cbn [map batch_loop]. rewrite normalize_rsid_idempotent.
  unfold bind at 1 5.
  destruct (get_hs37d5_loci (normalize_rsid rsid) method net w) as [[v | e] w1];
    [| reflexivity].
  unfold bind at 1 4.
  destruct ((if Py.truthy v
             then ret (Dict.set (normalize_rsid rsid) v results)
             else print ("Could not find coordinates for " ++ normalize_rsid rsid) ;;;
                  ret results) net w1) as [[results1 | e] w2]; [| reflexivity].
  unfold bind at 1 2.
  destruct ((if negb (Qle_bool delay 0) && (i <? n - 1)%nat
             then sleep delay else ret tt) net w2) as [[[] | e] w3];
    [apply IH | reflexivity].
Qed.

(** An identifier may be given with or without its prefix: each resolver
    does with the normalized identifier what it does with the identifier
    as given, and a batch over the normalized list is the batch over the
    list, in its result and in everything it sends and prints. *)
Theorem prefix_is_optional
    (rsid method : string) (rsid_list : list string) (delay : Q)
    (net : network) (w : world) :
  get_hs37d5_loci_myvariant (normalize_rsid rsid) net w
  = get_hs37d5_loci_myvariant rsid net w
  /\ get_hs37d5_loci_ensembl (normalize_rsid rsid) net w
     = get_hs37d5_loci_ensembl rsid net w
  /\ get_hs37d5_loci (normalize_rsid rsid) method net w
     = get_hs37d5_loci rsid method net w
  /\ batch_get_loci (map normalize_rsid rsid_list) delay method net w
     = batch_get_loci rsid_list delay method net w.
Proof.
  repeat split.
  - now rewrite myvariant_normalized.
  - now rewrite ensembl_normalized.
  - now rewrite get_hs37d5_loci_normalized.
  - unfold batch_get_loci. rewrite length_map. apply batch_loop_normalized.
Qed.
